(** * The Effect-TS user service (works/with-effect/user-service.ts)

    A shallow embedding of the user service and of the part of the
    [effect] package it is written with, followed by the properties of
    the service. The package is a dependency of the repository, not a
    part of it: its combinators, schedules and layers are written here
    after their documented behaviour, as far as the service uses them.

    Conventions.
    - A JavaScript string is a [string]; a character stands for one code
      unit (only code units below 256 are representable).
    - A [Date] is a valid one, given by its epoch time in milliseconds,
      a [Z].
    - An [Effect.Effect<A, E, R>] is a function from the context (the
      services provided so far) and the world to a new world and an exit.
      The world carries the state the service implementations work on and
      a ghost trace of the service calls made, in order.
    - A generator body [Effect.gen(function* () { ... })] is read as the
      chain of [flatMap]s that its [yield*]s stand for. *)

From Stdlib Require Import String Ascii ZArith List Bool Lia DecimalString.
From stdpp Require Import gmap strings.
Import ListNotations.

#[local] Open Scope string_scope.
#[local] Set Warnings "-register-all".

(** ** Values of type [unknown] that the program builds *)

Inductive Value :=
| VUndefined
| VString (s : string)
| VNumber (n : Z)
| VDate (ms : Z)
| VArray (vs : list Value)
| VObject (fields : list (string * Value)).

(** [Record<string, unknown>], as the list of its entries. *)
Definition Meta := list (string * Value).

(** ** Domain types *)

Module User.
Record t := { id : string; email : string; name : string; createdAt : Z }.
End User.

Module CreateUserInput.
Record t := { email : string; name : string }.
End CreateUserInput.

Module UpdateUserInput.
(** What [updateUser] reads of its input: [input.email] and
    [input.name], [None] for a field that is absent or [undefined], and
    [Object.keys(input)], the names of the properties the object has,
    in the order they were added (a property that is [undefined] is
    among them). *)
Record t := { email : option string; name : option string; ownKeys : list string }.
End UpdateUserInput.

Module UserProfile.
Record t := { user : User.t; accountAge : Z; isNewUser : bool }.
End UserProfile.

(** ** Error types *)

Module UserNotFoundError.
Record t := { userId : string }.
End UserNotFoundError.

Module DatabaseError.
Record t := { message : string; cause : option Value }.
End DatabaseError.

Module ValidationError.
Record t := { message : string; field : option string }.
End ValidationError.

Module CacheError.
Record t := { message : string; cause : option Value }.
End CacheError.

(** [type UserError = UserNotFoundError | DatabaseError | ValidationError | CacheError] *)
Inductive UserError :=
| IsUserNotFoundError (e : UserNotFoundError.t)
| IsDatabaseError (e : DatabaseError.t)
| IsValidationError (e : ValidationError.t)
| IsCacheError (e : CacheError.t).

(** The discriminant every error class declares ([readonly _tag = "..."]). *)
Class Tagged (E : Type) := _tag : E -> string.

#[global] Instance UserError_tagged : Tagged UserError := fun e =>
  match e with
  | IsUserNotFoundError _ => "UserNotFoundError"
  | IsDatabaseError _ => "DatabaseError"
  | IsValidationError _ => "ValidationError"
  | IsCacheError _ => "CacheError"
  end.

#[global] Instance Empty_set_tagged : Tagged Empty_set := fun e => match e with end.

(** A value passed where the program's types say [unknown]: a plain value
    or one of the error objects. *)
Inductive Unknown :=
| UValue (v : Value)
| UError (e : UserError).

(** ** Services

    A method of a service returns an effect that needs no further service
    ([Effect.Effect<A, E>]): a step on the implementation's state that
    ends in a value or in one of the method's declared errors. *)

Definition ServiceEffect (S E A : Type) := S -> S * (E + A).

Module Database.
Record Service (S : Type) := {
  query : string -> list Value -> ServiceEffect S DatabaseError.t (list User.t);
  execute : string -> list Value -> ServiceEffect S DatabaseError.t unit;
}.
Arguments query {S}.
Arguments execute {S}.
End Database.

Module Cache.
Record Service (S : Type) := {
  get : string -> ServiceEffect S CacheError.t (option User.t);
  set : string -> User.t -> option Z -> ServiceEffect S CacheError.t unit;
  delete : string -> ServiceEffect S CacheError.t unit;
}.
Arguments get {S}.
Arguments set {S}.
Arguments delete {S}.
End Cache.

Module Logger.
Record Service (S : Type) := {
  info : string -> option Meta -> ServiceEffect S Empty_set unit;
  error : string -> option Unknown -> option Meta -> ServiceEffect S Empty_set unit;
  debug : string -> option Meta -> ServiceEffect S Empty_set unit;
}.
Arguments info {S}.
Arguments error {S}.
Arguments debug {S}.
End Logger.

(** What a context can hold under a tag. *)
Inductive Service (S : Type) :=
| DatabaseImpl (db : Database.Service S)
| CacheImpl (cache : Cache.Service S)
| LoggerImpl (logger : Logger.Service S).
Arguments DatabaseImpl {S}.
Arguments CacheImpl {S}.
Arguments LoggerImpl {S}.

(** ** The world *)

(** Ghost record of a service call or of a pause of the retry driver. *)
Inductive Event :=
| DbQuery (sql : string) (params : list Value)
| DbExecute (sql : string) (params : list Value)
| CacheGet (key : string)
| CacheSet (key : string) (value : User.t) (ttlSeconds : option Z)
| CacheDelete (key : string)
| LogInfo (message : string) (meta : option Meta)
| LogError (message : string) (error : option Unknown) (meta : option Meta)
| LogDebug (message : string) (meta : option Meta)
| Sleep (millis : Z).

Record World (S : Type) := { trace : list Event; store : S }.
Arguments trace {S}.
Arguments store {S}.

(** What the program takes from its platform: the console, the clock and
    the UUID generator. *)
Class Platform (S : Type) := {
  console_log : list Unknown -> S -> S;
  console_error : list Unknown -> S -> S;
  console_debug : list Unknown -> S -> S;
  date_now : S -> S * Z;
  randomUUID : S -> S * string;
}.

(** ** Context, tags and layers *)

Module Context.
Abbreviation Context S := (gmap string (Service S)).

(** [class X extends Context.Tag("X")<X, Shape>() {}]: the key of the
    service and how a stored service is read back at its shape. *)
Record Tag (S T : Type) := {
  key : string;
  inject : T -> Service S;
  project : Service S -> option T;
}.
Arguments key {S T}.
Arguments inject {S T}.
Arguments project {S T}.

Definition empty {S} : Context S := ∅.

Definition make {S T} (tag : Tag S T) (impl : T) : Context S :=
  {[ key tag := inject tag impl ]}.

(** [Context.merge(self, that)]: the entries of [that] win. *)
Definition merge {S} (self that : Context S) : Context S := that ∪ self.

Definition get {S T} (ctx : Context S) (tag : Tag S T) : option T :=
  match ctx !! key tag with
  | Some impl => project tag impl
  | None => None
  end.
End Context.

Definition Database {S} : Context.Tag S (Database.Service S) :=
  {| Context.key := "Database";
     Context.inject := DatabaseImpl;
     Context.project := fun impl => match impl with DatabaseImpl db => Some db | _ => None end |}.

Definition Cache {S} : Context.Tag S (Cache.Service S) :=
  {| Context.key := "Cache";
     Context.inject := CacheImpl;
     Context.project := fun impl => match impl with CacheImpl c => Some c | _ => None end |}.

Definition Logger {S} : Context.Tag S (Logger.Service S) :=
  {| Context.key := "Logger";
     Context.inject := LoggerImpl;
     Context.project := fun impl => match impl with LoggerImpl l => Some l | _ => None end |}.

(** ** Schedules

    A schedule is a state machine stepped once per failure of the effect
    it retries: it sees the failure, produces an output and decides to
    go on after a delay or to stop. Time is kept only as the delay a
    step asks for. *)

Module Duration.
Definition millis (n : Z) : Z := n.
End Duration.

Module Schedule.
Inductive Decision :=
| Continue (delay : Z)
| Done.

Record Schedule (In Out : Type) := {
  State : Type;
  initial : State;
  step : In -> State -> State * Out * Decision;
}.
Arguments State {In Out}.
Arguments initial {In Out}.
Arguments step {In Out}.

(** [Schedule.forever]: recurs without end and outputs the number of
    recurrences so far. *)
Definition forever {In} : Schedule In nat :=
  {| State := nat; initial := 0%nat;
     step := fun _ n => (S n, n, Continue 0) |}.

(** [Schedule.whileOutput(self, f)]: as [self], but done as soon as an
    output fails [f]. *)
Definition whileOutput {In Out} (self : Schedule In Out) (f : Out -> bool) : Schedule In Out :=
  {| State := State self; initial := initial self;
     step := fun i st =>
       let '(st', out, decision) := step self i st in
       match decision with
       | Done => (st', out, Done)
       | Continue delay => if f out then (st', out, Continue delay) else (st', out, Done)
       end |}.

(** [Schedule.recurs(n)] *)
Definition recurs {In} (n : nat) : Schedule In nat :=
  whileOutput forever (fun out => Nat.ltb out n).

(** [Schedule.exponential(base)], growth factor 2: the delay of the
    recurrence numbered [i] from 0 is [base * 2^i]; never done. *)
Definition exponential {In} (base : Z) : Schedule In Z :=
  {| State := nat; initial := 0%nat;
     step := fun _ i =>
       let delay := (base * 2 ^ Z.of_nat i)%Z in
       (S i, delay, Continue delay) |}.

(** [Schedule.compose(self, that)]: the output of [self] is the input
    of [that]; the composition goes on only while both do. *)
Definition compose {In Out Out2} (self : Schedule In Out) (that : Schedule Out Out2)
    : Schedule In Out2 :=
  {| State := State self * State that;
     initial := (initial self, initial that);
     step := fun i st =>
       let '(l, r) := st in
       let '(l', out, ldecision) := step self i l in
       let '(r', out2, rdecision) := step that out r in
       match ldecision, rdecision with
       | Continue a, Continue b => ((l', r'), out2, Continue (Z.max a b))
       | _, _ => ((l', r'), out2, Done)
       end |}.
End Schedule.

(** ** Effects *)

(** A defect: an error outside the error type of an effect. The
    runtime raises [ServiceNotFound] for a service the context lacks
    (an [Error] whose message starts with "Service not found: " and the
    key); JavaScript raises a [TypeError] where a property is read off
    [undefined] or [null]. *)
Inductive Defect :=
| ServiceNotFound (key : string)
| TypeError.

Inductive Exit (E A : Type) :=
| Success (a : A)
| Failure (e : E)
| Die (defect : Defect).
Arguments Success {E A}.
Arguments Failure {E A}.
Arguments Die {E A}.

Module Effect.
Section WithStore.
Context {S : Type}.

Definition Effect (E A : Type) := Context.Context S -> World S -> World S * Exit E A.

Definition succeed {E A} (value : A) : Effect E A :=
  fun _ w => (w, Success value).

Definition fail {E A} (error : E) : Effect E A :=
  fun _ w => (w, Failure error).

(** An exception thrown while a generator body runs: the runtime makes
    it a defect of the effect. *)
Definition die {E A} (defect : Defect) : Effect E A :=
  fun _ w => (w, Die defect).

Definition map {E A B} (f : A -> B) (self : Effect E A) : Effect E B :=
  fun ctx w =>
    match self ctx w with
    | (w', Success a) => (w', Success (f a))
    | (w', Failure e) => (w', Failure e)
    | (w', Die d) => (w', Die d)
    end.

Definition flatMap {E A B} (self : Effect E A) (f : A -> Effect E B) : Effect E B :=
  fun ctx w =>
    match self ctx w with
    | (w', Success a) => f a ctx w'
    | (w', Failure e) => (w', Failure e)
    | (w', Die d) => (w', Die d)
    end.

Definition catchAll {E E2 A} (f : E -> Effect E2 A) (self : Effect E A) : Effect E2 A :=
  fun ctx w =>
    match self ctx w with
    | (w', Success a) => (w', Success a)
    | (w', Failure e) => f e ctx w'
    | (w', Die d) => (w', Die d)
    end.

(** [Effect.catchTag(k, f)]: a failure whose [_tag] is [k] goes to
    [f]; any other exit is passed on. *)
Definition catchTag {E A} `{Tagged E} (k : string) (f : E -> Effect E A)
    (self : Effect E A) : Effect E A :=
  fun ctx w =>
    match self ctx w with
    | (w', Failure e) => if String.eqb (_tag e) k then f e ctx w' else (w', Failure e)
    | other => other
    end.

(** [yield* Tag]: the service of the context, or the defect the
    runtime raises for a missing service. *)
Definition service {E T} (tag : Context.Tag S T) : Effect E T :=
  fun ctx w =>
    match Context.get ctx tag with
    | Some impl => (w, Success impl)
    | None => (w, Die (ServiceNotFound (Context.key tag)))
    end.

(** Running the effect a service method returned: the call is noted
    in the trace, the step is made on the store, and a declared error
    [e] of the method becomes the failure [up e]. *)
Definition call {E0 E A} (ev : Event) (up : E0 -> E) (op : ServiceEffect S E0 A) : Effect E A :=
  fun _ w =>
    let '(s', r) := op (store w) in
    ({| trace := trace w ++ [ev]; store := s' |},
     match r with inl e => Failure (up e) | inr a => Success a end).

(** [Effect.provide(layer)] for a layer that is a plain context. *)
Definition provide {E A} (layer : Context.Context S) (self : Effect E A) : Effect E A :=
  fun ctx w => self (Context.merge ctx layer) w.

(** [Effect.partition(elements, f)], sequential as it is without a
    concurrency option: every element is run, failures and successes
    are collected in input order; only a defect stops the run. *)
Fixpoint partition {X E E2 A} (elements : list X) (f : X -> Effect E A)
    : Effect E2 (list E * list A) :=
  fun ctx w =>
    match elements with
    | [] => (w, Success ([], []))
    | x :: rest =>
        match f x ctx w with
        | (w1, Die d) => (w1, Die d)
        | (w1, Failure e) =>
            match partition rest f ctx w1 with
            | (w2, Success (es, os)) => (w2, Success (e :: es, os))
            | (w2, Failure e2) => (w2, Failure e2)
            | (w2, Die d) => (w2, Die d)
            end
        | (w1, Success a) =>
            match partition rest f ctx w1 with
            | (w2, Success (es, os)) => (w2, Success (es, a :: os))
            | (w2, Failure e2) => (w2, Failure e2)
            | (w2, Die d) => (w2, Die d)
            end
        end
    end.

(** An effect whose run is cut off after a bound of steps: [None]
    when the bound is reached. *)
Definition Bounded (E A : Type) := gmap string (Service S) -> World S -> option (World S * Exit E A).

Definition sleep (millis : Z) (w : World S) : World S :=
  {| trace := trace w ++ [Sleep millis]; store := store w |}.

(** [Effect.retry(policy)]: the effect is run; each failure is shown
    to the schedule, and the effect is run again after the delay as
    long as the schedule goes on; once the schedule is done the
    failure at hand is the exit. [fuel] bounds the number of
    re-runs. *)
Fixpoint retry_from {E A Out} (fuel : nat) (policy : Schedule.Schedule E Out)
    (st : Schedule.State policy) (self : Effect E A) : Bounded E A :=
  fun ctx w =>
    match self ctx w with
    | (w1, Failure e) =>
        match Schedule.step policy e st with
        | (_, _, Schedule.Done) => Some (w1, Failure e)
        | (st', _, Schedule.Continue delay) =>
            match fuel with
            | O => None
            | Datatypes.S fuel' => retry_from fuel' policy st' self ctx (sleep delay w1)
            end
        end
    | other => Some other
    end.

Definition retry {E A Out} (fuel : nat) (policy : Schedule.Schedule E Out)
    (self : Effect E A) : Bounded E A :=
  retry_from fuel policy (Schedule.initial policy) self.

(** Code run between two [yield*]s that touches the platform. *)
Definition sync {E A} (op : S -> S * A) : Effect E A :=
  fun _ w =>
    let '(s', a) := op (store w) in
    ({| trace := trace w; store := s' |}, Success a).
End WithStore.
Arguments Effect : clear implicits.
Arguments Bounded : clear implicits.
End Effect.

(** [const x = yield* e1; e2] and [yield* e1; e2] *)
Notation "'let*' x ':=' e1 'in' e2" := (Effect.flatMap e1 (fun x => e2))
  (at level 10, x pattern, e1 at level 200, e2 at level 200).
Notation "'yield*' e1 ';;' e2" := (Effect.flatMap e1 (fun _ => e2))
  (at level 10, e1 at level 99, e2 at level 200).

(** ** Layers and the runner *)

Module Layer.
Section WithStore.
Context {S : Type}.

(** [Layer.succeed(tag, impl)] *)
Definition succeed {T} (tag : Context.Tag S T) (impl : T) : gmap string (Service S) :=
  Context.make tag impl.

(** [Layer.mergeAll(...layers)] *)
Definition mergeAll (layers : list (gmap string (Service S))) : gmap string (Service S) :=
  fold_left Context.merge layers Context.empty.
End WithStore.
End Layer.

(** How the promise of [Effect.runPromise] settles. *)
Inductive Promise (E A : Type) :=
| Fulfilled (value : A)
| RejectedWith (failure : E)
| RejectedDefect (defect : Defect).
Arguments Fulfilled {E A}.
Arguments RejectedWith {E A}.
Arguments RejectedDefect {E A}.

(** [Effect.runPromise]: the effect is run with no service but those it
    was provided with. *)
Definition runPromise {S E A} (self : Effect.Effect S E A) (w : World S) : World S * Promise E A :=
  match self Context.empty w with
  | (w', Success a) => (w', Fulfilled a)
  | (w', Failure e) => (w', RejectedWith e)
  | (w', Die d) => (w', RejectedDefect d)
  end.

(** ** Calling the services *)

Section Calls.
Context {S : Type}.

Definition never {E} (e : Empty_set) : E := match e with end.

Definition db_query (db : Database.Service S) (sql : string) (params : list Value)
    : Effect.Effect S UserError (list User.t) :=
  Effect.call (DbQuery sql params) IsDatabaseError (Database.query db sql params).

Definition db_execute (db : Database.Service S) (sql : string) (params : list Value)
    : Effect.Effect S UserError unit :=
  Effect.call (DbExecute sql params) IsDatabaseError (Database.execute db sql params).

Definition cache_get (cache : Cache.Service S) (key : string)
    : Effect.Effect S UserError (option User.t) :=
  Effect.call (CacheGet key) IsCacheError (Cache.get cache key).

Definition cache_set (cache : Cache.Service S) (key : string) (value : User.t)
    (ttlSeconds : option Z) : Effect.Effect S UserError unit :=
  Effect.call (CacheSet key value ttlSeconds) IsCacheError (Cache.set cache key value ttlSeconds).

Definition cache_delete (cache : Cache.Service S) (key : string)
    : Effect.Effect S UserError unit :=
  Effect.call (CacheDelete key) IsCacheError (Cache.delete cache key).

Definition log_info {E} (logger : Logger.Service S) (message : string) (meta : option Meta)
    : Effect.Effect S E unit :=
  Effect.call (LogInfo message meta) never (Logger.info logger message meta).

Definition log_error {E} (logger : Logger.Service S) (message : string)
    (error : option Unknown) (meta : option Meta) : Effect.Effect S E unit :=
  Effect.call (LogError message error meta) never (Logger.error logger message error meta).

Definition log_debug {E} (logger : Logger.Service S) (message : string) (meta : option Meta)
    : Effect.Effect S E unit :=
  Effect.call (LogDebug message meta) never (Logger.debug logger message meta).
End Calls.

(** ** The user service *)

(** The character class [\s], on the code units a [string] can hold. *)
Definition is_space (c : ascii) : bool :=
  let n := nat_of_ascii c in
  ((9 <=? n) && (n <=? 13) || (n =? 32) || (n =? 160))%nat.

(** The character class [[^\s@]]. *)
Definition not_space_or_at (c : ascii) : bool :=
  negb (is_space c) && negb (Ascii.eqb c "@").

(** [[^\s@]+] followed by [k]. *)
Fixpoint some_not_space_or_at (k : string -> bool) (s : string) : bool :=
  match s with
  | EmptyString => false
  | String c rest => not_space_or_at c && (k rest || some_not_space_or_at k rest)
  end.

(** The single character [c] followed by [k]. *)
Definition literal (c : ascii) (k : string -> bool) (s : string) : bool :=
  match s with
  | EmptyString => false
  | String c' rest => Ascii.eqb c' c && k rest
  end.

(** [$] *)
Definition end_of_input (s : string) : bool :=
  match s with
  | EmptyString => true
  | String _ _ => false
  end.

(** [/^[^\s@]+@[^\s@]+\.[^\s@]+$/.test(email)] *)
Definition emailRegex_test (email : string) : bool :=
  some_not_space_or_at
    (literal "@" (some_not_space_or_at (literal "." (some_not_space_or_at end_of_input))))
    email.

(** A string in a condition: the empty string is falsy. *)
Definition truthy (s : string) : bool :=
  match s with
  | EmptyString => false
  | String _ _ => true
  end.

Module HttpResponse.
Record t := { status : Z; body : Value }.
End HttpResponse.

(** The result of [processUserBatch] and the entries of its two lists. *)
Module Successful.
Record t := { userId : string; profile : UserProfile.t }.
End Successful.

Module Failed.
Record t := { userId : string; error : string }.
End Failed.

Module BatchResult.
Record t := { successful : list Successful.t; failed : list Failed.t }.
End BatchResult.

(** Reading [error.message] and [error.field] off an error object: a
    property the object lacks reads as [undefined]. *)
Definition message_of (error : UserError) : Value :=
  match error with
  | IsUserNotFoundError _ => VUndefined
  | IsDatabaseError e => VString (DatabaseError.message e)
  | IsValidationError e => VString (ValidationError.message e)
  | IsCacheError e => VString (CacheError.message e)
  end.

Definition field_of (error : UserError) : Value :=
  match error with
  | IsValidationError e =>
      match ValidationError.field e with
      | Some f => VString f
      | None => VUndefined
      end
  | _ => VUndefined
  end.

Section UserService.
Context {S : Type} `{Platform S}.

Definition userMeta (id : string) : option Meta := Some [("userId", VString id)].

Definition findUserById (id : string) : Effect.Effect S UserError User.t :=
  let* logger := Effect.service Logger in
  let* cache := Effect.service Cache in
  let* db := Effect.service Database in
  yield* log_debug logger "Finding user by ID" (userMeta id) ;;
  let* cached :=
    Effect.catchTag "CacheError"
      (fun error =>
         yield* log_error logger "Cache error while fetching user"
                  (Some (UError error)) (userMeta id) ;;
         Effect.succeed None)
      (cache_get cache ("user:" ++ id)) in
  match cached with
  | Some value =>
      yield* log_debug logger "User found in cache" (userMeta id) ;;
      Effect.succeed value
  | None =>
      let* results := db_query db "SELECT * FROM users WHERE id = ?" [VString id] in
      match results with
      | [] => Effect.fail (IsUserNotFoundError {| UserNotFoundError.userId := id |})
      | user :: _ =>
          yield* Effect.catchTag "CacheError"
                   (fun error =>
                      log_error logger "Failed to cache user" (Some (UError error)) (userMeta id))
                   (cache_set cache ("user:" ++ id) user (Some 300%Z)) ;;
          Effect.succeed user
      end
  end.

Definition findUserByEmail (email : string) : Effect.Effect S UserError (option User.t) :=
  let* logger := Effect.service Logger in
  let* db := Effect.service Database in
  yield* log_debug logger "Finding user by email" (Some [("email", VString email)]) ;;
  let* results := db_query db "SELECT * FROM users WHERE email = ?" [VString email] in
  Effect.succeed (match results with
                  | first :: _ => Some first
                  | [] => None
                  end).

Definition emailInUse : UserError :=
  IsValidationError {| ValidationError.message := "Email already in use";
                       ValidationError.field := Some "email" |}.

Definition createUser (input : CreateUserInput.t) : Effect.Effect S UserError User.t :=
  let* logger := Effect.service Logger in
  let* db := Effect.service Database in
  yield* log_info logger "Creating new user"
           (Some [("email", VString (CreateUserInput.email input))]) ;;
  let* existing := findUserByEmail (CreateUserInput.email input) in
  match existing with
  | Some _ => Effect.fail emailInUse
  | None =>
      let* uuid := Effect.sync randomUUID in
      let* now := Effect.sync date_now in
      let user := {| User.id := uuid;
                     User.email := CreateUserInput.email input;
                     User.name := CreateUserInput.name input;
                     User.createdAt := now |} in
      yield* db_execute db
               "INSERT INTO users (id, email, name, created_at) VALUES (?, ?, ?, ?)"
               [VString (User.id user); VString (User.email user);
                VString (User.name user); VDate (User.createdAt user)] ;;
      Effect.succeed user
  end.

(** [Object.keys(input)], as the array passed to the logger. *)
Definition keys (input : UpdateUserInput.t) : list Value :=
  List.map VString (UpdateUserInput.ownKeys input).

(** [x ?? y] *)
Definition nullish (x : option string) (y : string) : string :=
  match x with
  | Some v => v
  | None => y
  end.

Definition updateUser (id : string) (input : UpdateUserInput.t)
    : Effect.Effect S UserError User.t :=
  let* logger := Effect.service Logger in
  let* db := Effect.service Database in
  let* cache := Effect.service Cache in
  yield* log_info logger "Updating user"
           (Some [("userId", VString id); ("fields", VArray (keys input))]) ;;
  let* user := findUserById id in
  yield* (match UpdateUserInput.email input with
          | Some email =>
              if truthy email && negb (String.eqb email (User.email user)) then
                let* existing := findUserByEmail email in
                match existing with
                | Some _ => Effect.fail emailInUse
                | None => Effect.succeed tt
                end
              else Effect.succeed tt
          | None => Effect.succeed tt
          end) ;;
  let updated := {| User.id := User.id user;
                    User.email := nullish (UpdateUserInput.email input) (User.email user);
                    User.name := nullish (UpdateUserInput.name input) (User.name user);
                    User.createdAt := User.createdAt user |} in
  yield* db_execute db "UPDATE users SET email = ?, name = ? WHERE id = ?"
           [VString (User.email updated); VString (User.name updated); VString id] ;;
  yield* Effect.catchTag "CacheError"
           (fun error =>
              log_error logger "Failed to invalidate user cache"
                (Some (UError error)) (userMeta id))
           (cache_delete cache ("user:" ++ id)) ;;
  Effect.succeed updated.

Definition deleteUser (id : string) : Effect.Effect S UserError unit :=
  let* logger := Effect.service Logger in
  let* db := Effect.service Database in
  let* cache := Effect.service Cache in
  yield* log_info logger "Deleting user" (userMeta id) ;;
  yield* findUserById id ;;
  yield* db_execute db "DELETE FROM users WHERE id = ?" [VString id] ;;
  Effect.catchTag "CacheError"
    (fun error =>
       log_error logger "Failed to invalidate user cache after delete"
         (Some (UError error)) (userMeta id))
    (cache_delete cache ("user:" ++ id)).

(** The numbers are integers here and doubles in JavaScript: the two
    agree as long as [Date.now()] and the creation date are no more
    than 2^53 ms apart. *)
Definition getUserProfile (userId : string) : Effect.Effect S UserError UserProfile.t :=
  let* user := findUserById userId in
  let* now := Effect.sync date_now in
  let accountAgeMs := (now - User.createdAt user)%Z in
  let accountAgeDays := (accountAgeMs / (1000 * 60 * 60 * 24))%Z in
  Effect.succeed {| UserProfile.user := user;
                    UserProfile.accountAge := accountAgeDays;
                    UserProfile.isNewUser := (accountAgeDays <? 30)%Z |}.

Definition validateEmail (email : string) : Effect.Effect S UserError string :=
  if emailRegex_test email then Effect.succeed email
  else Effect.fail (IsValidationError
                      {| ValidationError.message := "Invalid email format";
                         ValidationError.field := Some "email" |}).

Definition validateName (name : string) : Effect.Effect S UserError string :=
  if (2 <=? String.length name)%nat then Effect.succeed name
  else Effect.fail (IsValidationError
                      {| ValidationError.message := "Name must be at least 2 characters";
                         ValidationError.field := Some "name" |}).

Definition registerUser (input : CreateUserInput.t) : Effect.Effect S UserError User.t :=
  yield* validateEmail (CreateUserInput.email input) ;;
  yield* validateName (CreateUserInput.name input) ;;
  createUser input.

Definition changeEmail (userId newEmail : string) : Effect.Effect S UserError User.t :=
  yield* validateEmail newEmail ;;
  updateUser userId {| UpdateUserInput.email := Some newEmail; UpdateUserInput.name := None;
                       UpdateUserInput.ownKeys := ["email"] |}.

(** The [switch] on [error._tag] has no [default]: a tag that matches
    no [case] leaves the function without a return, [None] here. *)
Definition mapErrorToResponse (error : UserError) : option HttpResponse.t :=
  let tag := _tag error in
  if String.eqb tag "UserNotFoundError" then
    Some {| HttpResponse.status := 404;
            HttpResponse.body := VObject [("error", VString "User not found")] |}
  else if String.eqb tag "ValidationError" then
    Some {| HttpResponse.status := 400;
            HttpResponse.body := VObject [("error", message_of error); ("field", field_of error)] |}
  else if String.eqb tag "DatabaseError" then
    Some {| HttpResponse.status := 503;
            HttpResponse.body := VObject [("error", VString "Service unavailable")] |}
  else if String.eqb tag "CacheError" then
    Some {| HttpResponse.status := 503;
            HttpResponse.body := VObject [("error", VString "Service degraded")] |}
  else None.

Definition processUserBatch (userIds : list string)
    : Effect.Effect S Empty_set BatchResult.t :=
  Effect.map
    (fun '(failures, successes) =>
       {| BatchResult.successful := successes;
          BatchResult.failed :=
            List.map (fun error : UserError =>
                        {| Failed.userId := "unknown";
                           Failed.error := _tag error |})
                     failures |})
    (Effect.partition userIds
       (fun userId =>
          Effect.map (fun profile => {| Successful.userId := userId;
                                        Successful.profile := profile |})
                     (getUserProfile userId))).

Definition retryPolicy : Schedule.Schedule UserError nat :=
  Schedule.compose (Schedule.exponential (Duration.millis 100)) (Schedule.recurs 3).

Definition processWithRetry (fuel : nat) (userId : string)
    : Effect.Bounded S UserError UserProfile.t :=
  Effect.retry fuel retryPolicy (getUserProfile userId).

(** *** Layers *)

Definition orEmpty (meta : option Meta) : Unknown :=
  UValue (VObject (match meta with Some m => m | None => [] end)).

Definition DatabaseLive : gmap string (Service S) :=
  Layer.succeed Database
    {| Database.query := fun _sql _params s => (s, inr []);
       Database.execute := fun _sql _params s => (s, inr tt) |}.

Definition CacheLive : gmap string (Service S) :=
  Layer.succeed Cache
    {| Cache.get := fun _key s => (s, inr None);
       Cache.set := fun _key _value _ttlSeconds s => (s, inr tt);
       Cache.delete := fun _key s => (s, inr tt) |}.

Definition LoggerLive : gmap string (Service S) :=
  Layer.succeed Logger
    {| Logger.info := fun message meta s =>
         (console_log [UValue (VString ("[INFO] " ++ message)); orEmpty meta] s, inr tt);
       Logger.error := fun message error meta s =>
         (console_error [UValue (VString ("[ERROR] " ++ message));
                         match error with
                         | Some e => e
                         | None => UValue (VString "unknown")
                         end;
                         orEmpty meta] s, inr tt);
       Logger.debug := fun message meta s =>
         (console_debug [UValue (VString ("[DEBUG] " ++ message)); orEmpty meta] s, inr tt) |}.

Definition DatabaseTest : gmap string (Service S) :=
  Layer.succeed Database
    {| Database.query := fun _sql _params s =>
         let '(s', now) := date_now s in
         (s', inr [ {| User.id := "test"; User.email := "test@test.com";
                       User.name := "Test"; User.createdAt := now |} ]);
       Database.execute := fun _sql _params s => (s, inr tt) |}.

Definition CacheTest : gmap string (Service S) :=
  Layer.succeed Cache
    {| Cache.get := fun _key s => (s, inr None);
       Cache.set := fun _key _value _ttlSeconds s => (s, inr tt);
       Cache.delete := fun _key s => (s, inr tt) |}.

Definition LoggerTest : gmap string (Service S) :=
  Layer.succeed Logger
    {| Logger.info := fun _message _meta s => (s, inr tt);
       Logger.error := fun _message _error _meta s => (s, inr tt);
       Logger.debug := fun _message _meta s => (s, inr tt) |}.

Definition AppLayerLive : gmap string (Service S) :=
  Layer.mergeAll [DatabaseLive; CacheLive; LoggerLive].

Definition AppLayerTest : gmap string (Service S) :=
  Layer.mergeAll [DatabaseTest; CacheTest; LoggerTest].

(** *** Runners *)

(** [run(effect, registry)]: the pipeline both runners are instances of. *)
Definition run {E A} (program : Effect.Effect S E A) (registry : gmap string (Service S))
    : World S -> World S * Promise E A :=
  runPromise (Effect.provide registry program).

Definition runWithLive {E A} (program : Effect.Effect S E A)
    : World S -> World S * Promise E A :=
  runPromise (Effect.provide AppLayerLive program).

Definition runWithTest {E A} (program : Effect.Effect S E A)
    : World S -> World S * Promise E A :=
  runPromise (Effect.provide AppLayerTest program).
End UserService.

(** ** The HTTP handlers and the example program *)

Module HttpRequest.
(** [params: Record<string, string>]: by its type every key reads as a
    string. [body: unknown] is whatever the caller of a handler takes
    it to be; the two handlers that read it take a [Body.t]. *)
Record t (B : Type) := { params : string -> string; body : B }.
Arguments params {B}.
Arguments body {B}.
End HttpRequest.

(** A request body of type [unknown], as far as the handlers look at
    it. The handlers cast it without a check, so it need not be what
    they cast it to: it may be nothing at all ([undefined] or [null]),
    or an object whose properties [email] and [name] are strings,
    [null], or absent. Bodies that are no objects and properties of
    other types are outside this model. *)
Module Body.
Inductive field :=
| Undefined
| Null
| Text (s : string).

Inductive t :=
| Nothing
| Object (email name : field).

(** The string JavaScript makes of a field where one is expected (as
    [RegExp.prototype.test] does with its argument). *)
Definition toString (f : field) : string :=
  match f with
  | Undefined => "undefined"
  | Null => "null"
  | Text s => s
  end.
End Body.

(** What a handler puts in the [body: unknown] of its response. *)
Inductive Payload :=
| OfProfile (profile : UserProfile.t)
| OfUser (user : User.t)
| OfValue (value : Value).

(** [HttpResponse], with what the handlers put in the body. *)
Module Served.
Record t := { status : Z; body : Payload }.
End Served.

(** The value of [mapErrorToResponse(error)] as a handler returns it:
    the response, or [undefined] ([None]) had the [switch] fallen
    through. *)
Definition served (response : option HttpResponse.t) : option Served.t :=
  match response with
  | Some r => Some {| Served.status := HttpResponse.status r;
                      Served.body := OfValue (HttpResponse.body r) |}
  | None => None
  end.

(** A number in a template literal; the numbers the program prints are
    integers far below the size at which the exponent form sets in. *)
Definition numberToString (n : Z) : string := NilZero.string_of_int (Z.to_int n).

Section Boundary.
Context {S : Type} `{Platform S}.

Definition getUserHandler {B} (req : HttpRequest.t B)
    : Effect.Effect S Empty_set (option Served.t) :=
  Effect.catchAll
    (fun error => Effect.succeed (served (mapErrorToResponse error)))
    (Effect.map
       (fun profile => Some {| Served.status := 200; Served.body := OfProfile profile |})
       (getUserProfile (HttpRequest.params req "id"))).

(** [registerUser(body as CreateUserInput)]. Of a body that is nothing
    no property can be read: [input.email] throws. Of an object,
    [validateEmail] tests the email as the string JavaScript makes of
    it, so an absent email fails the test; [validateName] then reads
    [name.length], which throws for an absent name. *)
Definition registerUser_unchecked (body : Body.t) : Effect.Effect S UserError User.t :=
  match body with
  | Body.Nothing => Effect.die TypeError
  | Body.Object email (Body.Text name) =>
      registerUser {| CreateUserInput.email := Body.toString email;
                      CreateUserInput.name := name |}
  | Body.Object email _ =>
      yield* validateEmail (Body.toString email) ;;
      Effect.die TypeError
  end.

Definition createUserHandler (req : HttpRequest.t Body.t)
    : Effect.Effect S Empty_set (option Served.t) :=
  Effect.catchAll
    (fun error => Effect.succeed (served (mapErrorToResponse error)))
    (Effect.map
       (fun user => Some {| Served.status := 201; Served.body := OfUser user |})
       (registerUser_unchecked (HttpRequest.body req))).

(** [(req.body as { email: string }).email] is read while the handler
    builds its effect: of a body that is nothing the read throws, and
    the handler returns no effect ([inl]). An absent email is passed on
    to [changeEmail], whose [validateEmail] tests it as the string
    JavaScript makes of it. *)
Definition updateEmailHandler (req : HttpRequest.t Body.t)
    : Defect + Effect.Effect S Empty_set (option Served.t) :=
  match HttpRequest.body req with
  | Body.Nothing => inl TypeError
  | Body.Object email _ =>
      inr (Effect.catchAll
             (fun error => Effect.succeed (served (mapErrorToResponse error)))
             (Effect.map
                (fun user => Some {| Served.status := 200; Served.body := OfUser user |})
                (changeEmail (HttpRequest.params req "id") (Body.toString email))))
  end.

(** [Console.log(...args)] as an effect. *)
Definition Console_log {E} (args : list Unknown) : Effect.Effect S E unit :=
  Effect.sync (fun s => (console_log args s, tt)).

(** The handler of [catchTag("ValidationError", ...)] reads [e.message]
    of the [ValidationError] it is typed to get; no other error reaches
    it, and the model passes one on. *)
Definition exampleProgram : Effect.Effect S UserError UserProfile.t :=
  yield* Console_log [UValue (VString "Starting user operations...")] ;;
  let* user :=
    Effect.catchTag "ValidationError"
      (fun e =>
         match e with
         | IsValidationError v =>
             let* now := Effect.sync date_now in
             Effect.succeed {| User.id := "fallback"; User.email := "";
                               User.name := ValidationError.message v;
                               User.createdAt := now |}
         | other => Effect.fail other
         end)
      (registerUser {| CreateUserInput.email := "john@example.com";
                       CreateUserInput.name := "John Doe" |}) in
  yield* Console_log [UValue (VString ("Created user: " ++ User.name user))] ;;
  let* profile :=
    Effect.catchAll
      (fun _ => Effect.succeed {| UserProfile.user := user;
                                  UserProfile.accountAge := 0;
                                  UserProfile.isNewUser := true |})
      (getUserProfile (User.id user)) in
  yield* Console_log
           [UValue (VString ("Profile - Account age: "
                             ++ numberToString (UserProfile.accountAge profile)
                             ++ " days"))] ;;
  Effect.succeed profile.
End Boundary.


(** ** A simulated platform

    A store with a user table, a clock and a console, and service
    implementations on it, to run the service on examples. *)

Module Sim.
Record State := {
  rows : list User.t;
  clock : Z;
  uuids : list string;
  console : list (string * list Unknown);
}.

Definition print (level : string) (args : list Unknown) (s : State) : State :=
  {| rows := rows s; clock := clock s; uuids := uuids s;
     console := console s ++ [(level, args)] |}.

#[global] Instance platform : Platform State := {|
  console_log := print "log";
  console_error := print "error";
  console_debug := print "debug";
  date_now := fun s => (s, clock s);
  randomUUID := fun s =>
    match uuids s with
    | [] => (s, "")
    | u :: rest =>
        ({| rows := rows s; clock := clock s; uuids := rest; console := console s |}, u)
    end;
|}.

(** A database that answers the two lookups of the service from the
    table and accepts every statement. *)
Definition tableDb : Database.Service State :=
  {| Database.query := fun sql params s =>
       (s, inr (List.filter
                  (fun u =>
                     match params with
                     | [VString k] =>
                         String.eqb sql "SELECT * FROM users WHERE id = ?"
                           && String.eqb (User.id u) k
                         || String.eqb sql "SELECT * FROM users WHERE email = ?"
                              && String.eqb (User.email u) k
                     | _ => false
                     end)
                  (rows s)));
     Database.execute := fun _ _ s => (s, inr tt) |}.

Definition refused : DatabaseError.t :=
  {| DatabaseError.message := "connection refused"; DatabaseError.cause := None |}.

Definition downDb : Database.Service State :=
  {| Database.query := fun _ _ s => (s, inl refused);
     Database.execute := fun _ _ s => (s, inl refused) |}.

Definition unreachable : CacheError.t :=
  {| CacheError.message := "cache unreachable"; CacheError.cause := None |}.

Definition downCache : Cache.Service State :=
  {| Cache.get := fun _ s => (s, inl unreachable);
     Cache.set := fun _ _ _ s => (s, inl unreachable);
     Cache.delete := fun _ s => (s, inl unreachable) |}.

(** The logger of [LoggerTest]. *)
Definition silent : Logger.Service State :=
  {| Logger.info := fun _ _ s => (s, inr tt);
     Logger.error := fun _ _ _ s => (s, inr tt);
     Logger.debug := fun _ _ s => (s, inr tt) |}.

Definition id1 : User.t :=
  {| User.id := "id1"; User.email := "ada@example.com"; User.name := "Ada";
     User.createdAt := 0 |}.

Definition id3 : User.t :=
  {| User.id := "id3"; User.email := "cy@example.com"; User.name := "Cy";
     User.createdAt := 86400000 |}.

(** Ten days after the epoch; the table holds [id1] and [id3]. *)
Definition start : World State :=
  {| trace := [];
     store := {| rows := [id1; id3]; clock := 864000000; uuids := ["u-1"; "u-2"];
                 console := [] |} |}.

Definition withTable : gmap string (Service State) :=
  Layer.mergeAll [Layer.succeed Database tableDb; CacheTest; LoggerTest].

Definition withCacheDown : gmap string (Service State) :=
  Layer.mergeAll [Layer.succeed Database tableDb; Layer.succeed Cache downCache; LoggerTest].

Definition withDbDown : gmap string (Service State) :=
  Layer.mergeAll [Layer.succeed Database downDb; CacheTest; LoggerTest].

(** A registry that provides no cache. *)
Definition withoutCache : gmap string (Service State) :=
  Layer.mergeAll [DatabaseLive; LoggerLive].

(** A cache that holds [id1] under its key and nothing else. *)
Definition warmCache : Cache.Service State :=
  {| Cache.get := fun key s =>
       (s, inr (if String.eqb key "user:id1" then Some id1 else None));
     Cache.set := fun _ _ _ s => (s, inr tt);
     Cache.delete := fun _ s => (s, inr tt) |}.

Definition withWarmCache : gmap string (Service State) :=
  Layer.mergeAll [Layer.succeed Database downDb; Layer.succeed Cache warmCache; LoggerTest].
End Sim.

(** * Vocabulary of the properties *)

Section Vocabulary.
Context {S : Type}.
Variables (logger : Logger.Service S) (cache : Cache.Service S) (db : Database.Service S).

(** The world after a call noted as [ev] that left the store [s]. *)
Definition noted (ev : Event) (s : S) (w : World S) : World S :=
  {| trace := trace w ++ [ev]; store := s |}.

(** The error type of an effect, semantically: a property of every
    failure the effect can end in. *)
Definition failsOnly {E A} (P : E -> Prop) (self : Effect.Effect S E A) : Prop :=
  forall ctx w w' e, self ctx w = (w', Failure e) -> P e.

(** The error types met below. *)
Definition notFoundOrDatabase (id : string) (e : UserError) : Prop :=
  e = IsUserNotFoundError {| UserNotFoundError.userId := id |}
  \/ exists d, e = IsDatabaseError d.

Definition validationOrDatabase (e : UserError) : Prop :=
  (exists v, e = IsValidationError v) \/ exists d, e = IsDatabaseError d.

Definition cacheOnly (e : UserError) : Prop := exists c, e = IsCacheError c.

(** What a lookup that reached the database ends in, by the answer of
    the query: the first row, [UserNotFoundError] for no row, the
    [DatabaseError] of a failed query. *)
Definition lookupOutcome (id : string) (answer : DatabaseError.t + list User.t)
    : Exit UserError User.t :=
  match answer with
  | inl d => Failure (IsDatabaseError d)
  | inr [] => Failure (IsUserNotFoundError {| UserNotFoundError.userId := id |})
  | inr (user :: _) => Success user
  end.

(** The world in which the cache is asked: the debug line is out. *)
Definition announced (id : string) (w : World S) : World S :=
  noted (LogDebug "Finding user by ID" (userMeta id))
    (fst (Logger.debug logger "Finding user by ID" (userMeta id) (store w))) w.

(** The world after the cache answered [answer] and left the store
    [s]: a failure is logged, anything else is not. *)
Definition cacheAsked (id : string) (s : S) (answer : CacheError.t + option User.t)
    (w : World S) : World S :=
  let w2 := noted (CacheGet ("user:" ++ id)) s (announced id w) in
  match answer with
  | inl c =>
      noted (LogError "Cache error while fetching user"
               (Some (UError (IsCacheError c))) (userMeta id))
        (fst (Logger.error logger "Cache error while fetching user"
                (Some (UError (IsCacheError c))) (userMeta id) s))
        w2
  | inr _ => w2
  end.

(** The world after the row [user] was stored in the cache from [w]. *)
Definition cached (id : string) (user : User.t) (w : World S) : World S :=
  let set := Cache.set cache ("user:" ++ id) user (Some 300%Z) (store w) in
  let w5 := noted (CacheSet ("user:" ++ id) user (Some 300%Z)) (fst set) w in
  match snd set with
  | inl c =>
      noted (LogError "Failed to cache user" (Some (UError (IsCacheError c))) (userMeta id))
        (fst (Logger.error logger "Failed to cache user"
                (Some (UError (IsCacheError c))) (userMeta id) (store w5)))
        w5
  | inr _ => w5
  end.

(** The lookup in the database from the world [w3]. *)
Definition queried (id : string) (w3 : World S) : World S * Exit UserError User.t :=
  let q := Database.query db "SELECT * FROM users WHERE id = ?" [VString id] (store w3) in
  let w4 := noted (DbQuery "SELECT * FROM users WHERE id = ?" [VString id]) (fst q) w3 in
  (match snd q with
   | inr (user :: _) => cached id user w4
   | _ => w4
   end,
   lookupOutcome id (snd q)).

(** The three services [findUserById] asks for, in the order it asks. *)
Definition allFound (ctx : gmap string (Service S)) : Prop :=
  is_Some (Context.get ctx Logger) /\ is_Some (Context.get ctx Cache)
  /\ is_Some (Context.get ctx Database).
End Vocabulary.

(** [self] under the context [ctx], run on the second component of a
    store whose first component counts the runs. *)
Definition counted {S E A} (ctx : gmap string (Service S)) (self : Effect.Effect S E A)
    : Effect.Effect (nat * S) E A :=
  fun _ w =>
    let '(w', exit) := self ctx {| trace := trace w; store := snd (store w) |} in
    ({| trace := trace w'; store := (Datatypes.S (fst (store w)), store w') |}, exit).

(** The entry the handler of the cache lookup writes. *)
Definition isCacheLookupError (ev : Event) : bool :=
  match ev with
  | LogError message _ _ => String.eqb message "Cache error while fetching user"
  | _ => false
  end.

(** The entry every run of [findUserById] starts with. *)
Definition isLookupStart (ev : Event) : bool :=
  match ev with
  | LogDebug message _ => String.eqb message "Finding user by ID"
  | _ => false
  end.

(** How many runs of [findUserById] a trace shows. *)
Definition lookups (tr : list Event) : nat := length (List.filter isLookupStart tr).

(** ** Vocabulary of the further properties *)

(** [self] ends in no defect under [ctx]. *)
Definition safeIn {S E A} (ctx : gmap string (Service S)) (self : Effect.Effect S E A) : Prop :=
  forall w w' d, self ctx w <> (w', Die d).

(** A run of [self] leaves the trace it found and adds only events
    that are [ok]. *)
Definition appends {S E A} (ok : Event -> Prop) (self : Effect.Effect S E A) : Prop :=
  forall ctx w w' exit,
    self ctx w = (w', exit) ->
    exists new, trace w' = (trace w ++ new)%list /\ Forall ok new.

(** The two services [createUser] asks for. *)
Definition storeFound {S} (ctx : gmap string (Service S)) : Prop :=
  is_Some (Context.get ctx Logger) /\ is_Some (Context.get ctx Database).

(** Calls of the cache. *)
Definition isCacheCall (ev : Event) : bool :=
  match ev with
  | CacheGet _ | CacheSet _ _ _ | CacheDelete _ => true
  | _ => false
  end.

(** Statements sent to [db.execute]. *)
Definition isExecute (ev : Event) : bool :=
  match ev with
  | DbExecute _ _ => true
  | _ => false
  end.

(** What changes the stored data: a statement executed, a cache entry
    deleted. *)
Definition isMutation (ev : Event) : bool :=
  match ev with
  | DbExecute _ _ | CacheDelete _ => true
  | _ => false
  end.

(** A failure of [self] other than a [DatabaseError] comes with a
    trace that gained no mutation. *)
Definition refusesQuietly {S A} (self : Effect.Effect S UserError A) : Prop :=
  forall ctx w w' e,
    self ctx w = (w', Failure e) ->
    _tag e <> "DatabaseError" ->
    exists new, trace w' = (trace w ++ new)%list /\ Forall (fun ev => isMutation ev = false) new.

(** The query by which [findUserByEmail] looks an email up. *)
Definition isEmailQuery (ev : Event) : bool :=
  match ev with
  | DbQuery sql _ => String.eqb sql "SELECT * FROM users WHERE email = ?"
  | _ => false
  end.

(** Whether [updateUser] checks the email of [input] for uniqueness,
    given the stored [user]: the input has an email, it is not the
    empty string, and it differs from the stored one. *)
Definition checksEmail (input : UpdateUserInput.t) (user : User.t) : bool :=
  match UpdateUserInput.email input with
  | Some email => truthy email && negb (String.eqb email (User.email user))
  | None => false
  end.

(** [self], run again after each of [delays] in turn for as long as
    it fails. *)
Fixpoint attempts {S E A} (delays : list Z) (self : Effect.Effect S E A)
    : Effect.Effect S E A :=
  fun ctx w =>
    match self ctx w with
    | (w1, Failure e) =>
        match delays with
        | [] => (w1, Failure e)
        | delay :: rest => attempts rest self ctx (Effect.sleep delay w1)
        end
    | other => other
    end.

(** The strings [[^\s@]*] matches. *)
Fixpoint plain (s : string) : bool :=
  match s with
  | EmptyString => true
  | String c rest => not_space_or_at c && plain rest
  end.

(** The strings [[^\s@]+] matches. *)
Definition word (s : string) : bool := plain s && negb (String.eqb s "").

(** Thirty days in milliseconds. *)
Definition thirtyDays : Z := 30 * (1000 * 60 * 60 * 24).

(** The error of [validateEmail]. *)
Definition invalidEmail : UserError :=
  IsValidationError {| ValidationError.message := "Invalid email format";
                       ValidationError.field := Some "email" |}.

(** The failures of [updateUser] and of [changeEmail]. *)
Definition updateFailure (id : string) (e : UserError) : Prop :=
  notFoundOrDatabase id e \/ e = emailInUse.

Definition changeFailure (id : string) (e : UserError) : Prop :=
  updateFailure id e \/ e = invalidEmail.

(** The responses by which the handlers answer an error. *)
Definition notFound404 : Served.t :=
  {| Served.status := 404;
     Served.body := OfValue (VObject [("error", VString "User not found")]) |}.

Definition unavailable503 : Served.t :=
  {| Served.status := 503;
     Served.body := OfValue (VObject [("error", VString "Service unavailable")]) |}.

Definition invalid400 (v : ValidationError.t) : Served.t :=
  {| Served.status := 400;
     Served.body :=
       OfValue (VObject [("error", VString (ValidationError.message v));
                         ("field", match ValidationError.field v with
                                   | Some f => VString f
                                   | None => VUndefined
                                   end)]) |}.

(** The context has no service under the key [k], one of the three
    the repository asks for. *)
Definition lacks {S} (ctx : gmap string (Service S)) (k : string) : Prop :=
  (k = "Logger" /\ Context.get ctx (Logger (S := S)) = None)
  \/ (k = "Cache" /\ Context.get ctx (Cache (S := S)) = None)
  \/ (k = "Database" /\ Context.get ctx (Database (S := S)) = None).

(** The runs a batch is made of: [getUserProfile] of each id of the
    input in turn, each from the world the run before left. A success
    adds an entry with its own id and the profile found, a failure adds
    the tag of its error, both in the order of the input. *)
Inductive inTurn {S} `{Platform S} (ctx : gmap string (Service S))
    : list string -> World S -> list Successful.t -> list string -> World S -> Prop :=
| inTurn_done w : inTurn ctx [] w [] [] w
| inTurn_success userId rest w w1 profile successes tags w' :
    getUserProfile userId ctx w = (w1, Success profile) ->
    inTurn ctx rest w1 successes tags w' ->
    inTurn ctx (userId :: rest) w
      ({| Successful.userId := userId; Successful.profile := profile |} :: successes) tags w'
| inTurn_failure userId rest w w1 e successes tags w' :
    getUserProfile userId ctx w = (w1, Failure e) ->
    inTurn ctx rest w1 successes tags w' ->
    inTurn ctx (userId :: rest) w successes (_tag e :: tags) w'.

(** The input [exampleProgram] registers, the world a line of its
    output leaves, and the user and the profile it falls back to. *)
Definition johnDoe : CreateUserInput.t :=
  {| CreateUserInput.email := "john@example.com"; CreateUserInput.name := "John Doe" |}.

Definition said {S} `{Platform S} (line : string) (w : World S) : World S :=
  {| trace := trace w; store := console_log [UValue (VString line)] (store w) |}.

Definition fallbackUser (v : ValidationError.t) (now : Z) : User.t :=
  {| User.id := "fallback"; User.email := ""; User.name := ValidationError.message v;
     User.createdAt := now |}.

Definition fallbackProfile (user : User.t) : UserProfile.t :=
  {| UserProfile.user := user; UserProfile.accountAge := 0; UserProfile.isNewUser := true |}.

(** * Properties *)

(** ** Exits of the combinators *)

Section Combinators.
Context {S : Type}.
Implicit Types (ctx : gmap string (Service S)) (w : World S).

Lemma flatMap_success {E A B} (self : Effect.Effect S E A) (f : A -> Effect.Effect S E B)
    ctx w w1 a :
  self ctx w = (w1, Success a) -> Effect.flatMap self f ctx w = f a ctx w1.
Proof. unfold Effect.flatMap. intros ->. reflexivity. Qed.

Lemma flatMap_failure {E A B} (self : Effect.Effect S E A) (f : A -> Effect.Effect S E B)
    ctx w w1 e :
  self ctx w = (w1, Failure e) -> Effect.flatMap self f ctx w = (w1, Failure e).
Proof. unfold Effect.flatMap. intros ->. reflexivity. Qed.

Lemma flatMap_die {E A B} (self : Effect.Effect S E A) (f : A -> Effect.Effect S E B)
    ctx w w1 d :
  self ctx w = (w1, Die d) -> Effect.flatMap self f ctx w = (w1, Die d).
Proof. unfold Effect.flatMap. intros ->. reflexivity. Qed.

Lemma flatMap_Failure_inv {E A B} (self : Effect.Effect S E A)
    (f : A -> Effect.Effect S E B) ctx w w' e :
  Effect.flatMap self f ctx w = (w', Failure e) ->
  self ctx w = (w', Failure e)
  \/ exists w1 a, self ctx w = (w1, Success a) /\ f a ctx w1 = (w', Failure e).
Proof.
  unfold Effect.flatMap. destruct (self ctx w) as [w1 [a | e1 | d]]; intros Hrun.
  - right. exists w1, a. split; [reflexivity | exact Hrun].
  - left. injection Hrun as -> ->. reflexivity.
  - discriminate Hrun.
Qed.

Lemma flatMap_Success_inv {E A B} (self : Effect.Effect S E A)
    (f : A -> Effect.Effect S E B) ctx w w' b :
  Effect.flatMap self f ctx w = (w', Success b) ->
  exists w1 a, self ctx w = (w1, Success a) /\ f a ctx w1 = (w', Success b).
Proof.
  unfold Effect.flatMap. destruct (self ctx w) as [w1 [a | e1 | d]]; intros Hrun;
    try discriminate Hrun.
  exists w1, a. split; [reflexivity | exact Hrun].
Qed.


Lemma failsOnly_weaken {E A} (P Q : E -> Prop) (self : Effect.Effect S E A) :
  (forall e, P e -> Q e) -> failsOnly (S := S) P self -> failsOnly (S := S) Q self.
Proof. intros Hsub Hself ctx w w' e Hrun. apply Hsub. exact (Hself _ _ _ _ Hrun). Qed.

Lemma failsOnly_succeed {E A} (P : E -> Prop) (a : A) : failsOnly (S := S) P (Effect.succeed a).
Proof. intros ctx w w' e Hrun. discriminate Hrun. Qed.

Lemma failsOnly_fail {E A} (P : E -> Prop) (e : E) :
  P e -> failsOnly (S := S) P (Effect.fail (A := A) e).
Proof. intros He ctx w w' e' Hrun. injection Hrun as _ <-. exact He. Qed.

Lemma failsOnly_service {E T} (P : E -> Prop) (tag : Context.Tag S T) :
  failsOnly (S := S) P (Effect.service tag).
Proof.
  intros ctx w w' e. unfold Effect.service.
  destruct (Context.get ctx tag); discriminate.
Qed.

Lemma failsOnly_sync {E A} (P : E -> Prop) (op : S -> S * A) :
  failsOnly (S := S) P (Effect.sync op).
Proof.
  intros ctx w w' e. unfold Effect.sync. destruct (op (store w)). discriminate.
Qed.

Lemma failsOnly_call {E0 E A} (P : E -> Prop) ev (up : E0 -> E)
    (op : ServiceEffect S E0 A) :
  (forall e0, P (up e0)) -> failsOnly (S := S) P (Effect.call ev up op).
Proof.
  intros Hup ctx w w' e. unfold Effect.call.
  destruct (op (store w)) as [s' [e0 | a]]; intros Hrun; [| discriminate Hrun].
  injection Hrun as _ <-. apply Hup.
Qed.

Lemma failsOnly_map {E A B} (P : E -> Prop) (f : A -> B) (self : Effect.Effect S E A) :
  failsOnly (S := S) P self -> failsOnly (S := S) P (Effect.map f self).
Proof.
  intros Hself ctx w w' e. unfold Effect.map.
  destruct (self ctx w) as [w1 [a | e1 | d]] eqn:Hrun; intros Hmap; try discriminate Hmap.
  injection Hmap as _ <-. exact (Hself _ _ _ _ Hrun).
Qed.

Lemma failsOnly_flatMap {E A B} (P : E -> Prop) (self : Effect.Effect S E A)
    (f : A -> Effect.Effect S E B) :
  failsOnly (S := S) P self -> (forall a, failsOnly (S := S) P (f a)) -> failsOnly (S := S) P (Effect.flatMap self f).
Proof.
  intros Hself Hf ctx w w' e Hrun.
  destruct (flatMap_Failure_inv _ _ _ _ _ _ Hrun) as [Hfirst | (w1 & a & _ & Hsecond)].
  - exact (Hself _ _ _ _ Hfirst).
  - exact (Hf a _ _ _ _ Hsecond).
Qed.

Lemma failsOnly_catchTag {E A} `{Tagged E} (P Q : E -> Prop) (k : string)
    (f : E -> Effect.Effect S E A) (self : Effect.Effect S E A) :
  failsOnly (S := S) Q self ->
  (forall e, Q e -> _tag e = k -> failsOnly (S := S) P (f e)) ->
  (forall e, Q e -> _tag e <> k -> P e) ->
  failsOnly (S := S) P (Effect.catchTag k f self).
Proof.
  intros Hself Hcaught Hpassed ctx w w' e. unfold Effect.catchTag.
  destruct (self ctx w) as [w1 [a | e1 | d]] eqn:Hrun; try discriminate.
  destruct (String.eqb (_tag e1) k) eqn:Htag.
  - apply String.eqb_eq in Htag. apply (Hcaught e1 (Hself _ _ _ _ Hrun) Htag).
  - apply String.eqb_neq in Htag. intros Hout. injection Hout as _ <-.
    apply Hpassed; [exact (Hself _ _ _ _ Hrun) | exact Htag].
Qed.
End Combinators.

(** ** Error types of the repository functions *)

Section ErrorTypes.
Context {S : Type} `{Platform S}.


Lemma cacheOnly_tag e : cacheOnly e -> _tag e = "CacheError".
Proof. intros [c ->]. reflexivity. Qed.

Lemma failsOnly_log_info E (P : E -> Prop) (logger : Logger.Service S) message meta :
  failsOnly (S := S) P (log_info logger message meta).
Proof. apply failsOnly_call. intros []. Qed.

Lemma failsOnly_log_error E (P : E -> Prop) (logger : Logger.Service S) message error meta :
  failsOnly (S := S) P (log_error logger message error meta).
Proof. apply failsOnly_call. intros []. Qed.

Lemma failsOnly_log_debug E (P : E -> Prop) (logger : Logger.Service S) message meta :
  failsOnly (S := S) P (log_debug logger message meta).
Proof. apply failsOnly_call. intros []. Qed.

(** A [catchTag("CacheError", f)] around a cache call leaves only the
    failures of [f]. *)
Lemma failsOnly_cache_recovered {A} (P : UserError -> Prop)
    (f : UserError -> Effect.Effect S UserError A) ev (op : ServiceEffect S CacheError.t A) :
  (forall e, failsOnly (S := S) P (f e)) ->
  failsOnly (S := S) P (Effect.catchTag "CacheError" f (Effect.call ev IsCacheError op)).
Proof.
  intros Hf. apply failsOnly_catchTag with (Q := cacheOnly).
  - apply failsOnly_call. intros c. exists c. reflexivity.
  - intros e _ _. apply Hf.
  - intros e He Htag. destruct (Htag (cacheOnly_tag e He)).
Qed.

Ltac error_type :=
  repeat first
    [ apply failsOnly_flatMap
    | apply failsOnly_service
    | apply failsOnly_sync
    | apply failsOnly_succeed
    | apply failsOnly_log_info
    | apply failsOnly_log_error
    | apply failsOnly_log_debug
    | apply failsOnly_cache_recovered
    | match goal with |- forall _, failsOnly _ _ => intro end ].

Lemma findUserById_failsOnly (id : string) :
  failsOnly (S := S) (notFoundOrDatabase id) (findUserById (S := S) id).
Proof.
  unfold findUserById, cache_get. error_type.
  destruct a3 as [value |].
  - error_type.
  - apply failsOnly_flatMap.
    + apply failsOnly_call. intros d. right. exists d. reflexivity.
    + intros [| user rest].
      * apply failsOnly_fail. left. reflexivity.
      * unfold cache_set. error_type.
Qed.

Lemma findUserByEmail_failsOnly (email : string) :
  failsOnly (S := S) (fun e => exists d, e = IsDatabaseError d) (findUserByEmail (S := S) email).
Proof.
  unfold findUserByEmail. error_type.
  apply failsOnly_call. intros d. exists d. reflexivity.
Qed.

Lemma createUser_failsOnly (input : CreateUserInput.t) :
  failsOnly validationOrDatabase (createUser (S := S) input).
Proof.
  unfold createUser.
  apply failsOnly_flatMap; [apply failsOnly_service | intros logger].
  apply failsOnly_flatMap; [apply failsOnly_service | intros db].
  apply failsOnly_flatMap; [apply failsOnly_log_info | intros _].
  apply failsOnly_flatMap.
  - apply failsOnly_weaken with (P := fun e => exists d, e = IsDatabaseError d).
    + intros e He. right. exact He.
    + apply findUserByEmail_failsOnly.
  - intros [existing |].
    + apply failsOnly_fail. left. eexists. reflexivity.
    + error_type. apply failsOnly_call. intros d. right. exists d. reflexivity.
Qed.

Lemma validateEmail_failsOnly (email : string) :
  failsOnly (S := S) (fun e => exists v, e = IsValidationError v) (validateEmail (S := S) email).
Proof.
  unfold validateEmail. destruct (emailRegex_test email).
  - apply failsOnly_succeed.
  - apply failsOnly_fail. eexists. reflexivity.
Qed.

Lemma validateName_failsOnly (name : string) :
  failsOnly (S := S) (fun e => exists v, e = IsValidationError v) (validateName (S := S) name).
Proof.
  unfold validateName. destruct (2 <=? String.length name)%nat.
  - apply failsOnly_succeed.
  - apply failsOnly_fail. eexists. reflexivity.
Qed.

Lemma registerUser_failsOnly (input : CreateUserInput.t) :
  failsOnly validationOrDatabase (registerUser (S := S) input).
Proof.
  unfold registerUser. apply failsOnly_flatMap.
  - eapply failsOnly_weaken; [| apply validateEmail_failsOnly]. intros e He. left. exact He.
  - intros _. apply failsOnly_flatMap.
    + eapply failsOnly_weaken; [| apply validateName_failsOnly]. intros e He. left. exact He.
    + intros _. apply createUser_failsOnly.
Qed.
End ErrorTypes.

(** ** Running the calls *)

Section Runs.
Context {S : Type}.
Implicit Types (ctx : gmap string (Service S)) (w : World S).


Lemma service_found {E T} (tag : Context.Tag S T) (impl : T) ctx w :
  Context.get ctx tag = Some impl ->
  Effect.service (E := E) tag ctx w = (w, Success impl).
Proof. unfold Effect.service. intros ->. reflexivity. Qed.

Lemma service_missing {E T} (tag : Context.Tag S T) ctx w :
  Context.get ctx tag = None ->
  Effect.service (E := E) tag ctx w = (w, Die (ServiceNotFound (Context.key tag))).
Proof. unfold Effect.service. intros ->. reflexivity. Qed.

Lemma service_Success_inv {E T} (tag : Context.Tag S T) (impl : T) ctx w w1 :
  Effect.service (E := E) tag ctx w = (w1, Success impl) ->
  w1 = w /\ Context.get ctx tag = Some impl.
Proof.
  unfold Effect.service. destruct (Context.get ctx tag) as [found |]; intros Hrun.
  - injection Hrun as <- <-. split; reflexivity.
  - discriminate Hrun.
Qed.

Lemma call_run {E0 E A} (ev : Event) (up : E0 -> E) (op : ServiceEffect S E0 A) ctx w :
  Effect.call ev up op ctx w =
    (noted ev (fst (op (store w))) w,
     match snd (op (store w)) with
     | inl e => Failure (up e)
     | inr a => Success a
     end).
Proof. unfold Effect.call, noted. destruct (op (store w)) as [s' r]. reflexivity. Qed.

Lemma log_info_run {E} (logger : Logger.Service S) message meta ctx w :
  log_info (E := E) logger message meta ctx w =
    (noted (LogInfo message meta) (fst (Logger.info logger message meta (store w))) w,
     Success tt).
Proof.
  unfold log_info. rewrite call_run.
  destruct (snd (Logger.info logger message meta (store w))) as [[] | []]. reflexivity.
Qed.

Lemma log_error_run {E} (logger : Logger.Service S) message error meta ctx w :
  log_error (E := E) logger message error meta ctx w =
    (noted (LogError message error meta)
       (fst (Logger.error logger message error meta (store w))) w,
     Success tt).
Proof.
  unfold log_error. rewrite call_run.
  destruct (snd (Logger.error logger message error meta (store w))) as [[] | []]. reflexivity.
Qed.

Lemma log_debug_run {E} (logger : Logger.Service S) message meta ctx w :
  log_debug (E := E) logger message meta ctx w =
    (noted (LogDebug message meta) (fst (Logger.debug logger message meta (store w))) w,
     Success tt).
Proof.
  unfold log_debug. rewrite call_run.
  destruct (snd (Logger.debug logger message meta (store w))) as [[] | []]. reflexivity.
Qed.

Lemma catchTag_caught {E A} `{Tagged E} (k : string) (f : E -> Effect.Effect S E A)
    (self : Effect.Effect S E A) ctx w w1 e :
  self ctx w = (w1, Failure e) -> _tag e = k ->
  Effect.catchTag k f self ctx w = f e ctx w1.
Proof.
  unfold Effect.catchTag. intros -> Htag.
  apply String.eqb_eq in Htag. rewrite Htag. reflexivity.
Qed.

Lemma catchTag_passed {E A} `{Tagged E} (k : string) (f : E -> Effect.Effect S E A)
    (self : Effect.Effect S E A) ctx w w1 e :
  self ctx w = (w1, Failure e) -> _tag e <> k ->
  Effect.catchTag k f self ctx w = (w1, Failure e).
Proof.
  unfold Effect.catchTag. intros -> Htag.
  apply String.eqb_neq in Htag. rewrite Htag. reflexivity.
Qed.

Lemma catchTag_success {E A} `{Tagged E} (k : string) (f : E -> Effect.Effect S E A)
    (self : Effect.Effect S E A) ctx w w1 a :
  self ctx w = (w1, Success a) ->
  Effect.catchTag k f self ctx w = (w1, Success a).
Proof. unfold Effect.catchTag. intros ->. reflexivity. Qed.

Lemma catchTag_die {E A} `{Tagged E} (k : string) (f : E -> Effect.Effect S E A)
    (self : Effect.Effect S E A) ctx w w1 d :
  self ctx w = (w1, Die d) ->
  Effect.catchTag k f self ctx w = (w1, Die d).
Proof. unfold Effect.catchTag. intros ->. reflexivity. Qed.
End Runs.

(** ** [findUserById] under a context that has the three services *)


Ltac run_step :=
  erewrite flatMap_success by
    first [ apply service_found; eassumption
          | apply log_debug_run
          | apply log_info_run
          | apply log_error_run ].

Section Lookup.
Context {S : Type} `{Platform S}.
Variables (ctx : gmap string (Service S)).
Variables (logger : Logger.Service S) (cache : Cache.Service S) (db : Database.Service S).
Hypothesis Hlogger : Context.get ctx Logger = Some logger.
Hypothesis Hcache : Context.get ctx Cache = Some cache.
Hypothesis Hdb : Context.get ctx Database = Some db.


Lemma findUserById_hit (id : string) (w : World S) s2 value :
  Cache.get cache ("user:" ++ id) (store (announced logger id w)) = (s2, inr (Some value)) ->
  findUserById id ctx w =
    (noted (LogDebug "User found in cache" (userMeta id))
       (fst (Logger.debug logger "User found in cache" (userMeta id) s2))
       (cacheAsked logger id s2 (inr (Some value)) w),
     Success value).
Proof.
  intros Hget. unfold findUserById. do 4 run_step.
  erewrite flatMap_success.
  2:{ apply catchTag_success. unfold cache_get. rewrite call_run.
      fold (announced logger id w). rewrite Hget. reflexivity. }
  cbn beta iota. run_step. reflexivity.
Qed.

Lemma findUserById_no_hit (id : string) (w : World S) s2 answer :
  Cache.get cache ("user:" ++ id) (store (announced logger id w)) = (s2, answer) ->
  (forall value, answer <> inr (Some value)) ->
  findUserById id ctx w = queried logger cache db id (cacheAsked logger id s2 answer w).
Proof.
  intros Hget Hmiss. unfold findUserById. do 4 run_step.
  fold (announced logger id w).
  assert (Hasked : Effect.catchTag "CacheError"
            (fun error =>
               yield* log_error logger "Cache error while fetching user"
                        (Some (UError error)) (userMeta id) ;;
               Effect.succeed None)
            (cache_get cache ("user:" ++ id)) ctx (announced logger id w)
          = (cacheAsked logger id s2 answer w, Success None)).
  { destruct answer as [c | [value |]].
    - assert (Hcall : cache_get cache ("user:" ++ id) ctx (announced logger id w)
                      = (noted (CacheGet ("user:" ++ id)) s2 (announced logger id w),
                         Failure (IsCacheError c)))
        by (unfold cache_get; rewrite call_run, Hget; reflexivity).
      rewrite (catchTag_caught "CacheError" _ _ _ _ _ _ Hcall eq_refl).
      run_step. reflexivity.
    - destruct (Hmiss value). reflexivity.
    - apply catchTag_success. unfold cache_get. rewrite call_run, Hget. reflexivity. }
  rewrite (flatMap_success _ _ _ _ _ _ Hasked). cbn beta iota.
  unfold queried, lookupOutcome, db_query.
  set (w3 := cacheAsked logger id s2 answer w).
  destruct (Database.query db "SELECT * FROM users WHERE id = ?" [VString id] (store w3))
    as [s4 [d | [| user rest]]] eqn:Hquery.
  - erewrite flatMap_failure; [reflexivity |]. rewrite call_run, Hquery. reflexivity.
  - erewrite flatMap_success by (rewrite call_run, Hquery; reflexivity). reflexivity.
  - erewrite flatMap_success by (rewrite call_run, Hquery; reflexivity).
    cbn [fst snd].
    set (w4 := noted _ s4 w3).
    unfold cached.
    destruct (Cache.set cache ("user:" ++ id) user (Some 300%Z) (store w4))
      as [s5 [c |[]]] eqn:Hset.
    + assert (Hcall : cache_set cache ("user:" ++ id) user (Some 300%Z) ctx w4
                      = (noted (CacheSet ("user:" ++ id) user (Some 300%Z)) s5 w4,
                         Failure (IsCacheError c)))
        by (unfold cache_set; rewrite call_run, Hset; reflexivity).
      erewrite flatMap_success; [reflexivity |].
      rewrite (catchTag_caught "CacheError" _ _ _ _ _ _ Hcall eq_refl).
      rewrite log_error_run. reflexivity.
    + erewrite flatMap_success; [reflexivity |].
      apply catchTag_success. unfold cache_set. rewrite call_run, Hset. reflexivity.
Qed.
End Lookup.

(** ** The trace of a lookup *)


Section LookupTrace.
Context {S : Type} `{Platform S}.
Variables (logger : Logger.Service S) (cache : Cache.Service S) (db : Database.Service S).

Lemma filter_noted (p : Event -> bool) ev s (w : World S) :
  List.filter p (trace (noted ev s w)) = (List.filter p (trace w) ++ if p ev then [ev] else [])%list.
Proof.
  unfold noted. cbn [trace]. rewrite List.filter_app. cbn [List.filter].
  destruct (p ev); reflexivity.
Qed.

Lemma queried_trace (p : Event -> bool) (id : string) (w3 : World S) :
  (forall sql params, p (DbQuery sql params) = false) ->
  (forall key value ttl, p (CacheSet key value ttl) = false) ->
  (forall error meta, p (LogError "Failed to cache user" error meta) = false) ->
  List.filter p (trace (fst (queried logger cache db id w3))) = List.filter p (trace w3).
Proof.
  intros Hquery Hset Hlog. unfold queried, cached. cbn [fst].
  destruct (snd (Database.query db "SELECT * FROM users WHERE id = ?" [VString id] (store w3)))
    as [d | [| user rest]];
    try (rewrite filter_noted, Hquery, List.app_nil_r; reflexivity).
  cbv zeta.
  destruct (snd (Cache.set cache ("user:" ++ id) user (Some 300%Z) _)) as [c | []];
    repeat rewrite filter_noted; rewrite ?Hquery, ?Hset, ?Hlog, ?List.app_nil_r; reflexivity.
Qed.
End LookupTrace.

(** ** Missing services *)

Section Missing.
Context {S : Type} `{Platform S}.
Implicit Types (ctx : gmap string (Service S)) (w : World S).


Lemma allFound_dec ctx : allFound ctx \/ ~ allFound ctx.
Proof.
  unfold allFound.
  destruct (Context.get ctx Logger); destruct (Context.get ctx Cache);
    destruct (Context.get ctx Database);
    first [ left; repeat split; eexists; reflexivity
          | right; intros (Hl & Hc & Hd);
            first [ destruct Hl; discriminate | destruct Hc; discriminate
                  | destruct Hd; discriminate ] ].
Qed.

Lemma findUserById_missing (id : string) ctx w :
  ~ allFound ctx -> exists d, findUserById id ctx w = (w, Die d).
Proof.
  intros Hmissing. unfold findUserById.
  destruct (Context.get ctx Logger) as [logger |] eqn:Hlogger.
  2:{ eexists. apply flatMap_die. apply service_missing. exact Hlogger. }
  run_step.
  destruct (Context.get ctx Cache) as [cache |] eqn:Hcache.
  2:{ eexists. apply flatMap_die. apply service_missing. exact Hcache. }
  run_step.
  destruct (Context.get ctx Database) as [db |] eqn:Hdb.
  2:{ eexists. apply flatMap_die. apply service_missing. exact Hdb. }
  destruct Hmissing. unfold allFound. rewrite Hlogger, Hcache, Hdb.
  repeat split; eexists; reflexivity.
Qed.

Lemma findUserById_lookups (id : string) ctx w :
  allFound ctx ->
  lookups (trace (fst (findUserById id ctx w))) = (lookups (trace w) + 1)%nat.
Proof.
  intros ([logger Hlogger] & [cache Hcache] & [db Hdb]).
  assert (Hasked : forall s2 answer,
             List.filter isLookupStart (trace (cacheAsked logger id s2 answer w)) =
             (List.filter isLookupStart (trace w)
              ++ [LogDebug "Finding user by ID" (userMeta id)])%list).
  { intros s2 answer. unfold cacheAsked, announced. destruct answer as [c | o];
      repeat rewrite filter_noted; cbn [isLookupStart String.eqb];
      rewrite ?List.app_nil_r; reflexivity. }
  unfold lookups.
  destruct (Cache.get cache ("user:" ++ id) (store (announced logger id w)))
    as [s2 answer] eqn:Hget.
  assert (Hcases : (exists value, answer = inr (Some value))
                   \/ forall value, answer <> inr (Some value)).
  { destruct answer as [c | [value |]].
    - right. discriminate.
    - left. exists value. reflexivity.
    - right. discriminate. }
  destruct Hcases as [[value ->] | Hmiss].
  - rewrite (findUserById_hit ctx logger cache db Hlogger Hcache Hdb id w s2 value Hget).
    cbn [fst]. rewrite filter_noted. cbn [isLookupStart String.eqb].
    rewrite List.app_nil_r, Hasked, List.length_app. reflexivity.
  - rewrite (findUserById_no_hit ctx logger cache db Hlogger Hcache Hdb id w s2 answer
               Hget Hmiss).
    rewrite queried_trace by reflexivity.
    rewrite Hasked, List.length_app. reflexivity.
Qed.

Lemma getUserProfile_Failure_inv (userId : string) ctx w w' e :
  getUserProfile userId ctx w = (w', Failure e) ->
  findUserById userId ctx w = (w', Failure e).
Proof.
  unfold getUserProfile. intros Hrun.
  apply flatMap_Failure_inv in Hrun as [Hfirst | (w1 & user & _ & Hrest)];
    [exact Hfirst |].
  apply flatMap_Failure_inv in Hrest as [Hsync | (w2 & now & _ & Hlast)].
  - unfold Effect.sync in Hsync. destruct (date_now (store w1)). discriminate Hsync.
  - discriminate Hlast.
Qed.

Lemma getUserProfile_failure_lookups (userId : string) ctx w w' e :
  getUserProfile userId ctx w = (w', Failure e) ->
  lookups (trace w') = (lookups (trace w) + 1)%nat.
Proof.
  intros Hrun. apply getUserProfile_Failure_inv in Hrun.
  destruct (allFound_dec ctx) as [Hall | Hmissing].
  - rewrite <- (findUserById_lookups userId ctx w Hall). rewrite Hrun. reflexivity.
  - destruct (findUserById_missing userId ctx w Hmissing) as [d Hdie].
    rewrite Hdie in Hrun. discriminate Hrun.
Qed.
End Missing.

(** ** Retrying *)

Section Retrying.
Context {S : Type}.
Implicit Types (ctx : gmap string (Service S)) (w : World S).

Lemma retry_from_continue {E A Out} (policy : Schedule.Schedule E Out) st st' out delay
    (self : Effect.Effect S E A) fuel ctx w w1 e :
  self ctx w = (w1, Failure e) ->
  Schedule.step policy e st = (st', out, Schedule.Continue delay) ->
  Effect.retry_from (Datatypes.S fuel) policy st self ctx w =
    Effect.retry_from fuel policy st' self ctx (Effect.sleep delay w1).
Proof. intros Hrun Hstep. cbn [Effect.retry_from]. rewrite Hrun, Hstep. reflexivity. Qed.

Lemma retry_from_done {E A Out} (policy : Schedule.Schedule E Out) st st' out
    (self : Effect.Effect S E A) fuel ctx w w1 e :
  self ctx w = (w1, Failure e) ->
  Schedule.step policy e st = (st', out, Schedule.Done) ->
  Effect.retry_from fuel policy st self ctx w = Some (w1, Failure e).
Proof. intros Hrun Hstep. destruct fuel; cbn [Effect.retry_from]; rewrite Hrun, Hstep; reflexivity. Qed.

Lemma retry_from_success {E A Out} (policy : Schedule.Schedule E Out) st
    (self : Effect.Effect S E A) fuel ctx w w1 a :
  self ctx w = (w1, Success a) ->
  Effect.retry_from fuel policy st self ctx w = Some (w1, Success a).
Proof. intros Hrun. destruct fuel; cbn [Effect.retry_from]; rewrite Hrun; reflexivity. Qed.

(** An effect that fails wherever it is run, retried under a policy
    that goes on three times, with the delays [d1], [d2], [d3], and is
    done at the fourth failure: four runs, and the fourth failure is
    the exit. *)
Lemma retry_three_recurrences {E A Out} (policy : Schedule.Schedule E Out)
    (st1 st2 st3 st4 : Schedule.State policy) (o1 o2 o3 o4 : Out) (d1 d2 d3 : Z)
    (self : Effect.Effect S E A) ctx :
  (forall e, Schedule.step policy e (Schedule.initial policy) = (st1, o1, Schedule.Continue d1)) ->
  (forall e, Schedule.step policy e st1 = (st2, o2, Schedule.Continue d2)) ->
  (forall e, Schedule.step policy e st2 = (st3, o3, Schedule.Continue d3)) ->
  (forall e, Schedule.step policy e st3 = (st4, o4, Schedule.Done)) ->
  (forall w, exists w' e, self ctx w = (w', Failure e)) ->
  forall w fuel, (3 <= fuel)%nat ->
    exists w1 e1 w2 e2 w3 e3 w4 e4,
      self ctx w = (w1, Failure e1)
      /\ self ctx (Effect.sleep d1 w1) = (w2, Failure e2)
      /\ self ctx (Effect.sleep d2 w2) = (w3, Failure e3)
      /\ self ctx (Effect.sleep d3 w3) = (w4, Failure e4)
      /\ Effect.retry fuel policy self ctx w = Some (w4, Failure e4).
Proof.
  intros Hs1 Hs2 Hs3 Hs4 Hfails w fuel Hfuel.
  destruct (Hfails w) as (w1 & e1 & H1).
  destruct (Hfails (Effect.sleep d1 w1)) as (w2 & e2 & H2).
  destruct (Hfails (Effect.sleep d2 w2)) as (w3 & e3 & H3).
  destruct (Hfails (Effect.sleep d3 w3)) as (w4 & e4 & H4).
  exists w1, e1, w2, e2, w3, e3, w4, e4. repeat (split; [assumption |]).
  destruct fuel as [| [| [| fuel]]]; try lia.
  unfold Effect.retry.
  rewrite (retry_from_continue policy _ st1 o1 d1 self _ ctx w w1 e1 H1 (Hs1 e1)).
  rewrite (retry_from_continue policy _ st2 o2 d2 self _ ctx _ w2 e2 H2 (Hs2 e2)).
  rewrite (retry_from_continue policy _ st3 o3 d3 self _ ctx _ w3 e3 H3 (Hs3 e3)).
  exact (retry_from_done policy st3 st4 o4 self fuel ctx _ w4 e4 H4 (Hs4 e4)).
Qed.

Lemma lookups_sleep (delay : Z) w : lookups (trace (Effect.sleep delay w)) = lookups (trace w).
Proof.
  unfold lookups, Effect.sleep. cbn [trace]. rewrite List.filter_app, List.length_app.
  cbn. lia.
Qed.
End Retrying.

Section Counting.
Context {S : Type}.

Lemma counted_fails {E A} (self : Effect.Effect S E A) ctx :
  (forall w, exists w' e, self ctx w = (w', Failure e)) ->
  forall (outer : gmap string (Service (nat * S))) (w : World (nat * S)),
    exists w' e, counted ctx self outer w = (w', Failure e).
Proof.
  intros Hfails outer w. unfold counted.
  destruct (Hfails {| trace := trace w; store := snd (store w) |}) as (w1 & e & ->).
  eexists. exists e. reflexivity.
Qed.

Lemma counted_count {E A} (self : Effect.Effect S E A) ctx
    (outer : gmap string (Service (nat * S))) (w w' : World (nat * S)) exit :
  counted ctx self outer w = (w', exit) ->
  fst (store w') = Datatypes.S (fst (store w)).
Proof.
  unfold counted.
  destruct (self ctx {| trace := trace w; store := snd (store w) |}) as [w1 exit1].
  intros Hrun. injection Hrun as <- _. reflexivity.
Qed.

(** The count after four failing runs with pauses in between. *)
Lemma counted_four {E A Out} (policy : Schedule.Schedule E Out) (d1 d2 d3 : Z)
    (self : Effect.Effect S E A) ctx
    (outer : gmap string (Service (nat * S))) (w : World (nat * S)) fuel :
  (exists w1 e1 w2 e2 w3 e3 w4 e4,
      counted ctx self outer w = (w1, Failure e1)
      /\ counted ctx self outer (Effect.sleep d1 w1) = (w2, Failure e2)
      /\ counted ctx self outer (Effect.sleep d2 w2) = (w3, Failure e3)
      /\ counted ctx self outer (Effect.sleep d3 w3) = (w4, Failure e4)
      /\ Effect.retry fuel policy (counted ctx self) outer w = Some (w4, Failure e4)) ->
  exists w4 e4,
    Effect.retry fuel policy (counted ctx self) outer w = Some (w4, Failure e4)
    /\ fst (store w4) = (fst (store w) + 4)%nat.
Proof.
  intros (w1 & e1 & w2 & e2 & w3 & e3 & w4 & e4 & H1 & H2 & H3 & H4 & Hretry).
  exists w4, e4. split; [exact Hretry |].
  apply counted_count in H1, H2, H3, H4. cbn [Effect.sleep store] in *. lia.
Qed.
End Counting.

(** ** Registries *)

Section Provided.
Context {S : Type}.
Implicit Types (ctx registry : gmap string (Service S)).

Lemma merge_empty registry : Context.merge Context.empty registry = registry.
Proof. unfold Context.merge, Context.empty. apply (right_id_L ∅ (∪)). Qed.

End Provided.

Section Registries.
Context {S : Type} {platform : Platform S}.
Implicit Types (ctx registry : gmap string (Service S)) (w : World S).

Lemma AppLayerLive_allFound : allFound (Context.merge Context.empty (AppLayerLive (S := S))).
Proof.
  rewrite merge_empty.
  unfold allFound. repeat split; eexists; reflexivity.
Qed.

Lemma run_die {E A} (program : Effect.Effect S E A) registry w w' d :
  program registry w = (w', Die d) -> run program registry w = (w', RejectedDefect d).
Proof.
  intros Hdie. unfold run, runPromise, Effect.provide. rewrite merge_empty, Hdie. reflexivity.
Qed.
End Registries.

(** ** Batches *)

Section Batches.
Context {S : Type} {platform : Platform S}.
Implicit Types (ctx : gmap string (Service S)) (w : World S).

Lemma partition_lengths {X E E2 A} (elements : list X) (f : X -> Effect.Effect S E A)
    ctx w w' (es : list E) (os : list A) :
  Effect.partition (E2 := E2) elements f ctx w = (w', Success (es, os)) ->
  (length es + length os = length elements)%nat.
Proof.
  revert w w' es os.
  induction elements as [| x rest IH]; intros w w' es os; cbn [Effect.partition].
  - intros Hrun. injection Hrun as _ <- <-. reflexivity.
  - destruct (f x ctx w) as [w1 [a | e | d]]; try discriminate;
      destruct (Effect.partition rest f ctx w1) as [w2 [[es' os'] | e2 | d2]] eqn:Hrest;
      try discriminate; intros Hrun; injection Hrun as _ <- <-;
      specialize (IH w1 w2 es' os' Hrest); cbn [length]; lia.
Qed.

(** Every success of a batch carries an id of the input. *)
Lemma partition_profiles (userIds : list string) ctx w w' (es : list UserError)
    (os : list Successful.t) :
  Effect.partition (E2 := Empty_set) userIds
    (fun userId =>
       Effect.map (fun profile => {| Successful.userId := userId;
                                     Successful.profile := profile |})
                  (getUserProfile userId)) ctx w = (w', Success (es, os)) ->
  Forall (fun entry => In (Successful.userId entry) userIds) os.
Proof.
  revert w w' es os.
  induction userIds as [| x rest IH]; intros w w' es os; cbn [Effect.partition].
  - intros Hrun. injection Hrun as _ _ <-. constructor.
  - unfold Effect.map at 1.
    destruct (getUserProfile x ctx w) as [w1 [profile | e | d]]; try discriminate;
      match goal with
      | |- context [Effect.partition rest ?f ctx w1] =>
          destruct (Effect.partition (E2 := Empty_set) rest f ctx w1)
            as [w2 [[es' os'] | e2 | d2]] eqn:Hrest
      end;
      try discriminate; intros Hrun; injection Hrun as _ <- <-;
      specialize (IH w1 w2 es' os' Hrest).
    + constructor; [left; reflexivity |].
      eapply List.Forall_impl; [| exact IH]. intros entry Hin. right. exact Hin.
    + eapply List.Forall_impl; [| exact IH]. intros entry Hin. right. exact Hin.
Qed.

(** What [processUserBatch] returns: as many entries as ids; the
    successes carry ids of the input; every failed entry carries the
    id ["unknown"]. *)
Lemma processUserBatch_result (userIds : list string) ctx w w' (result : BatchResult.t) :
  processUserBatch userIds ctx w = (w', Success result) ->
  (length (BatchResult.successful result) + length (BatchResult.failed result)
   = length userIds)%nat
  /\ Forall (fun entry => In (Successful.userId entry) userIds) (BatchResult.successful result)
  /\ Forall (fun entry => Failed.userId entry = "unknown") (BatchResult.failed result).
Proof.
  unfold processUserBatch, Effect.map at 1.
  match goal with
  | |- context [Effect.partition userIds ?f ctx w] =>
      destruct (Effect.partition (E2 := Empty_set) userIds f ctx w)
        as [w1 [[es os] | e | d]] eqn:Hrun
  end; try discriminate.
  intros Hout. injection Hout as _ <-. cbn [BatchResult.successful BatchResult.failed].
  split; [| split].
  - rewrite List.length_map, Nat.add_comm. exact (partition_lengths _ _ _ _ _ _ _ Hrun).
  - exact (partition_profiles _ _ _ _ _ _ Hrun).
  - apply List.Forall_forall. intros entry Hin. apply List.in_map_iff in Hin as (e & <- & _).
    reflexivity.
Qed.
End Batches.

(** * The claims *)

(** C1 (the code departs from the claim). On the ids [id1], [id2],
    [id3], of which the table has the first and the third,
    [processUserBatch] returns the two profiles under their ids and one
    failed entry, three entries in all; the failed entry carries the id
    ["unknown"], not [id2]. *)
Theorem processUserBatch_failed_entry_is_unknown :
  snd (processUserBatch ["id1"; "id2"; "id3"] Sim.withTable Sim.start) =
    Success
      {| BatchResult.successful :=
           [ {| Successful.userId := "id1";
                Successful.profile := {| UserProfile.user := Sim.id1;
                                         UserProfile.accountAge := 10;
                                         UserProfile.isNewUser := true |} |};
             {| Successful.userId := "id3";
                Successful.profile := {| UserProfile.user := Sim.id3;
                                         UserProfile.accountAge := 9;
                                         UserProfile.isNewUser := true |} |} ];
         BatchResult.failed :=
           [ {| Failed.userId := "unknown"; Failed.error := "UserNotFoundError" |} ] |}.
Proof. vm_compute. reflexivity. Qed.

(** C3. Sequencing runs the first effect to its exit before anything
    else: on success the continuation is run on the value, from the
    world the first effect left; on failure the exit is the first
    effect's failure, whatever the continuation is. A failure of the
    composition is a failure of the first stage or of the second, and
    each of those is a failure of the composition. In [registerUser], an
    email the validation refuses gives the [ValidationError] of the email
    with the world untouched (no service was called, whatever the name),
    and [registerUser] fails only with a [ValidationError] or a
    [DatabaseError]. *)
Theorem flatMap_sequences_and_short_circuits :
  (forall S E A B (a : Effect.Effect S E A) (f : A -> Effect.Effect S E B) ctx w,
      (forall w1 x, a ctx w = (w1, Success x) -> Effect.flatMap a f ctx w = f x ctx w1)
      /\ (forall w1 e, a ctx w = (w1, Failure e) ->
          forall g : A -> Effect.Effect S E B, Effect.flatMap a g ctx w = (w1, Failure e))
      /\ (forall w' e,
             Effect.flatMap a f ctx w = (w', Failure e) <->
             a ctx w = (w', Failure e)
             \/ exists w1 x, a ctx w = (w1, Success x) /\ f x ctx w1 = (w', Failure e)))
  /\ (forall S (P : Platform S) (input : CreateUserInput.t) ctx (w : World S),
         emailRegex_test (CreateUserInput.email input) = false ->
         registerUser input ctx w =
           (w, Failure (IsValidationError
                          {| ValidationError.message := "Invalid email format";
                             ValidationError.field := Some "email" |})))
  /\ (forall S (P : Platform S) (input : CreateUserInput.t) ctx (w w' : World S) e,
         registerUser input ctx w = (w', Failure e) ->
         _tag e = "ValidationError" \/ _tag e = "DatabaseError").
Proof.
  split; [| split].
  - intros S E A B a f ctx w. split; [| split].
    + intros w1 x Hrun. exact (flatMap_success a f ctx w w1 x Hrun).
    + intros w1 e Hrun g. exact (flatMap_failure a g ctx w w1 e Hrun).
    + intros w' e. split.
      * apply flatMap_Failure_inv.
      * intros [Hfirst | (w1 & x & Hfirst & Hsecond)].
        -- exact (flatMap_failure a f ctx w w' e Hfirst).
        -- rewrite (flatMap_success a f ctx w w1 x Hfirst). exact Hsecond.
  - intros S P input ctx w Hemail.
    unfold registerUser. apply flatMap_failure.
    unfold validateEmail. rewrite Hemail. reflexivity.
  - intros S P input ctx w w' e Hrun.
    destruct (registerUser_failsOnly input ctx w w' e Hrun) as [[v ->] | [d ->]].
    + left. reflexivity.
    + right. reflexivity.
Qed.

(** A run of [registerUser] on an email without [@] and a name that is
    too short: the email's error comes out, it is a [ValidationError],
    and nothing was called. A success is passed on to the
    continuation. *)
Lemma registerUser_invalid_email_example :
  let input := {| CreateUserInput.email := "not-an-email"; CreateUserInput.name := "J" |} in
  let invalid := IsValidationError {| ValidationError.message := "Invalid email format";
                                      ValidationError.field := Some "email" |} in
  emailRegex_test "not-an-email" = false
  /\ registerUser input Sim.withTable Sim.start = (Sim.start, Failure invalid)
  /\ (_tag invalid = "ValidationError" \/ _tag invalid = "DatabaseError")
  /\ Effect.flatMap (validateName "Ada") (fun name => validateEmail name)
       Sim.withTable Sim.start
     = validateEmail "Ada" Sim.withTable Sim.start.
Proof.
  intros input invalid.
  assert (Hrun : registerUser input Sim.withTable Sim.start = (Sim.start, Failure invalid))
    by (apply (proj1 (proj2 flatMap_sequences_and_short_circuits)); reflexivity).
  split; [reflexivity |]. split; [exact Hrun |]. split.
  - exact (proj2 (proj2 flatMap_sequences_and_short_circuits) Sim.State Sim.platform
             input Sim.withTable Sim.start Sim.start invalid Hrun).
  - apply (proj1 (proj1 flatMap_sequences_and_short_circuits Sim.State UserError string string
                    (validateName "Ada") (fun name => validateEmail name)
                    Sim.withTable Sim.start)).
    reflexivity.
Defined.

(** C4. An effect that fails wherever it is run is run exactly four times
    by a retry capped at three recurrences, by [Schedule.recurs(3)]
    alone and by exponential backoff from 100 ms composed with
    [recurs(3)], the policy of [processWithRetry]: the run, then three
    re-runs after the policy's delays, and the failure of the fourth run
    is the exit, unchanged; a counter of the runs stands four higher
    afterwards. For [processWithRetry] the trace shows four more lookups
    than before. Three units of fuel suffice. *)
Theorem retry_recurs_3_runs_four_times :
  (forall S E A (self : Effect.Effect S E A) ctx,
      (forall w, exists w' e, self ctx w = (w', Failure e)) ->
      forall fuel, (3 <= fuel)%nat ->
        (forall w : World S,
            (exists w1 e1 w2 e2 w3 e3 w4 e4,
                self ctx w = (w1, Failure e1)
                /\ self ctx (Effect.sleep 0 w1) = (w2, Failure e2)
                /\ self ctx (Effect.sleep 0 w2) = (w3, Failure e3)
                /\ self ctx (Effect.sleep 0 w3) = (w4, Failure e4)
                /\ Effect.retry fuel (Schedule.recurs 3) self ctx w = Some (w4, Failure e4))
            /\ (exists w1 e1 w2 e2 w3 e3 w4 e4,
                   self ctx w = (w1, Failure e1)
                   /\ self ctx (Effect.sleep 100 w1) = (w2, Failure e2)
                   /\ self ctx (Effect.sleep 200 w2) = (w3, Failure e3)
                   /\ self ctx (Effect.sleep 400 w3) = (w4, Failure e4)
                   /\ Effect.retry fuel
                        (Schedule.compose (Schedule.exponential (Duration.millis 100))
                           (Schedule.recurs 3))
                        self ctx w = Some (w4, Failure e4)))
        /\ (forall ctx' (w : World (nat * S)),
               (exists w4 e4,
                   Effect.retry fuel (Schedule.recurs 3) (counted ctx self) ctx' w
                   = Some (w4, Failure e4)
                   /\ fst (store w4) = (fst (store w) + 4)%nat)
               /\ (exists w4 e4,
                      Effect.retry fuel
                        (Schedule.compose (Schedule.exponential (Duration.millis 100))
                           (Schedule.recurs 3))
                        (counted ctx self) ctx' w
                      = Some (w4, Failure e4)
                      /\ fst (store w4) = (fst (store w) + 4)%nat)))
  /\ (forall S (P : Platform S) ctx (userId : string),
         (forall w, exists w' e, getUserProfile userId ctx w = (w', Failure e)) ->
         forall (w : World S) fuel, (3 <= fuel)%nat ->
           exists w3 w4 e4,
             processWithRetry fuel userId ctx w = Some (w4, Failure e4)
             /\ getUserProfile userId ctx (Effect.sleep 400 w3) = (w4, Failure e4)
             /\ lookups (trace w4) = (lookups (trace w) + 4)%nat).
Proof.
  assert (Hrecurs : forall S E A (self : Effect.Effect S E A) ctx,
             (forall w, exists w' e, self ctx w = (w', Failure e)) ->
             forall (w : World S) fuel, (3 <= fuel)%nat ->
               exists w1 e1 w2 e2 w3 e3 w4 e4,
                 self ctx w = (w1, Failure e1)
                 /\ self ctx (Effect.sleep 0 w1) = (w2, Failure e2)
                 /\ self ctx (Effect.sleep 0 w2) = (w3, Failure e3)
                 /\ self ctx (Effect.sleep 0 w3) = (w4, Failure e4)
                 /\ Effect.retry fuel (Schedule.recurs 3) self ctx w = Some (w4, Failure e4)).
  { intros S E A self ctx Hfails w fuel Hfuel.
    apply (retry_three_recurrences (Schedule.recurs 3) 1%nat 2%nat 3%nat 4%nat
             0%nat 1%nat 2%nat 3%nat 0 0 0 self ctx); try reflexivity; assumption. }
  assert (Hbackoff : forall S E A (self : Effect.Effect S E A) ctx,
             (forall w, exists w' e, self ctx w = (w', Failure e)) ->
             forall (w : World S) fuel, (3 <= fuel)%nat ->
               exists w1 e1 w2 e2 w3 e3 w4 e4,
                 self ctx w = (w1, Failure e1)
                 /\ self ctx (Effect.sleep 100 w1) = (w2, Failure e2)
                 /\ self ctx (Effect.sleep 200 w2) = (w3, Failure e3)
                 /\ self ctx (Effect.sleep 400 w3) = (w4, Failure e4)
                 /\ Effect.retry fuel
                      (Schedule.compose (Schedule.exponential (Duration.millis 100))
                         (Schedule.recurs 3))
                      self ctx w = Some (w4, Failure e4)).
  { intros S E A self ctx Hfails w fuel Hfuel.
    apply (retry_three_recurrences
             (Schedule.compose (Schedule.exponential (Duration.millis 100)) (Schedule.recurs 3))
             (1, 1)%nat (2, 2)%nat (3, 3)%nat (4, 4)%nat
             0%nat 1%nat 2%nat 3%nat 100 200 400 self ctx); try reflexivity; assumption. }
  split.
  - intros S E A self ctx Hfails fuel Hfuel. split.
    + intros w. split; [apply Hrecurs | apply Hbackoff]; assumption.
    + intros ctx' w. split.
      * apply (counted_four _ 0 0 0). apply Hrecurs; [| exact Hfuel].
        intros w0. apply counted_fails. exact Hfails.
      * apply (counted_four _ 100 200 400). apply Hbackoff; [| exact Hfuel].
        intros w0. apply counted_fails. exact Hfails.
  - intros S P ctx userId Hfails w fuel Hfuel.
    destruct (Hbackoff S UserError _ (getUserProfile userId) ctx Hfails w fuel Hfuel)
      as (w1 & e1 & w2 & e2 & w3 & e3 & w4 & e4 & H1 & H2 & H3 & H4 & Hretry).
    exists w3, w4, e4. split; [exact Hretry |]. split; [exact H4 |].
    rewrite (getUserProfile_failure_lookups userId ctx _ w4 e4 H4), lookups_sleep.
    rewrite (getUserProfile_failure_lookups userId ctx _ w3 e3 H3), lookups_sleep.
    rewrite (getUserProfile_failure_lookups userId ctx _ w2 e2 H2), lookups_sleep.
    rewrite (getUserProfile_failure_lookups userId ctx _ w1 e1 H1).
    lia.
Qed.

(** With [AppLayerLive], whose database has no rows, every profile
    lookup fails; [processWithRetry] makes four of them. *)
Lemma processWithRetry_live_example :
  (forall w : World Sim.State,
      exists w' e, getUserProfile "id2" AppLayerLive w = (w', Failure e))
  /\ exists w3 w4 e4,
      processWithRetry 3 "id2" AppLayerLive Sim.start = Some (w4, Failure e4)
      /\ getUserProfile "id2" AppLayerLive (Effect.sleep 400 w3) = (w4, Failure e4)
      /\ lookups (trace w4) = (lookups (trace Sim.start) + 4)%nat.
Proof.
  assert (Hfails : forall w : World Sim.State,
             exists w' e, getUserProfile "id2" AppLayerLive w = (w', Failure e)).
  { intros w. eexists. eexists. vm_compute. reflexivity. }
  split; [exact Hfails |].
  apply (proj2 retry_recurs_3_runs_four_times Sim.State Sim.platform AppLayerLive
           "id2" Hfails Sim.start 3%nat).
  lia.
Defined.

(** C5. [catchTag] routes exactly the failures of its tag to the
    handler, with the failure as argument, from the world the effect
    left; a failure of another tag comes out unchanged whatever the
    handler is. So a handler for ["CacheError"] gets a [CacheError] and
    is passed by on a [DatabaseError] or a [UserNotFoundError]. In
    [findUserById], the handler around [cache.get] writes its log entry,
    with the error, once when [cache.get] fails and not at all when it
    answers. *)
Theorem catchTag_intercepts_exactly_its_variant :
  (forall S E (T : Tagged E) A (self : Effect.Effect S E A) (k : string)
          (h : E -> Effect.Effect S E A) ctx w w1 e,
      self ctx w = (w1, Failure e) ->
      (_tag e = k -> Effect.catchTag k h self ctx w = h e ctx w1)
      /\ (_tag e <> k ->
          forall h' : E -> Effect.Effect S E A,
            Effect.catchTag k h' self ctx w = (w1, Failure e)))
  /\ (forall S A (self : Effect.Effect S UserError A)
             (h : UserError -> Effect.Effect S UserError A) ctx w w1 e,
         self ctx w = (w1, Failure e) ->
         Effect.catchTag "CacheError" h self ctx w =
           match e with
           | IsCacheError c => h (IsCacheError c) ctx w1
           | IsDatabaseError _ | IsUserNotFoundError _ | IsValidationError _ =>
               (w1, Failure e)
           end)
  /\ (forall S (P : Platform S) ctx logger cache db (id : string) (w : World S),
         Context.get ctx Logger = Some logger ->
         Context.get ctx Cache = Some cache ->
         Context.get ctx Database = Some db ->
         forall s2 answer,
           Cache.get cache ("user:" ++ id) (store (announced logger id w)) = (s2, answer) ->
           List.filter isCacheLookupError (trace (fst (findUserById id ctx w))) =
             (List.filter isCacheLookupError (trace w)
              ++ match answer with
                 | inl c => [LogError "Cache error while fetching user"
                               (Some (UError (IsCacheError c))) (userMeta id)]
                 | inr _ => []
                 end)%list).
Proof.
  split; [| split].
  - intros S E T A self k h ctx w w1 e Hrun. split.
    + intros Htag. exact (catchTag_caught k h self ctx w w1 e Hrun Htag).
    + intros Htag h'. exact (catchTag_passed k h' self ctx w w1 e Hrun Htag).
  - intros S A self h ctx w w1 e Hrun. destruct e as [n | d | v | c].
    + apply (catchTag_passed "CacheError" h self ctx w w1 _ Hrun). discriminate.
    + apply (catchTag_passed "CacheError" h self ctx w w1 _ Hrun). discriminate.
    + apply (catchTag_passed "CacheError" h self ctx w w1 _ Hrun). discriminate.
    + apply (catchTag_caught "CacheError" h self ctx w w1 _ Hrun). reflexivity.
  - intros S P ctx logger cache db id w Hlogger Hcache Hdb s2 answer Hget.
    assert (Hasked : List.filter isCacheLookupError (trace (cacheAsked logger id s2 answer w)) =
              (List.filter isCacheLookupError (trace w)
               ++ match answer with
                  | inl c => [LogError "Cache error while fetching user"
                                (Some (UError (IsCacheError c))) (userMeta id)]
                  | inr _ => []
                  end)%list).
    { unfold cacheAsked, announced. destruct answer as [c | o];
        repeat rewrite filter_noted; cbn [isCacheLookupError String.eqb];
        rewrite ?List.app_nil_r; reflexivity. }
    destruct answer as [c | [value |]].
    + rewrite (findUserById_no_hit ctx logger cache db Hlogger Hcache Hdb id w s2 _ Hget)
        by discriminate.
      rewrite queried_trace by reflexivity. exact Hasked.
    + rewrite (findUserById_hit ctx logger cache db Hlogger Hcache Hdb id w s2 value Hget).
      cbn [fst]. rewrite filter_noted. cbn [isCacheLookupError].
      rewrite List.app_nil_r. exact Hasked.
    + rewrite (findUserById_no_hit ctx logger cache db Hlogger Hcache Hdb id w s2 _ Hget)
        by discriminate.
      rewrite queried_trace by reflexivity. exact Hasked.
Qed.

(** With the failing cache the lookup of [id1] logs the cache's error
    once; the failure of the failing database passes a handler for
    ["CacheError"] by. *)
Lemma catchTag_examples :
  List.filter isCacheLookupError (trace (fst (findUserById "id1" Sim.withCacheDown Sim.start)))
  = [LogError "Cache error while fetching user"
       (Some (UError (IsCacheError Sim.unreachable))) (userMeta "id1")]
  /\ Effect.catchTag "CacheError" (fun _ => Effect.succeed Sim.id1)
       (findUserById "id1") Sim.withDbDown Sim.start
     = (fst (findUserById "id1" Sim.withDbDown Sim.start),
        Failure (IsDatabaseError Sim.refused)).
Proof.
  split.
  - exact (proj2 (proj2 catchTag_intercepts_exactly_its_variant) Sim.State Sim.platform
             Sim.withCacheDown Sim.silent Sim.downCache Sim.tableDb "id1" Sim.start
             eq_refl eq_refl eq_refl Sim.start.(store) (inl Sim.unreachable) eq_refl).
  - apply (proj1 (proj2 catchTag_intercepts_exactly_its_variant) Sim.State User.t
             (findUserById "id1") (fun _ => Effect.succeed Sim.id1)
             Sim.withDbDown Sim.start _ (IsDatabaseError Sim.refused)).
    reflexivity.
Defined.

(** C6. In [findUserById], a failure of [cache.get] is treated as a
    miss: after a [CacheError] as after a miss, the database is queried,
    and the exit is the one the query's answer decides: the first row on
    success, [UserNotFoundError] for an empty answer, the
    [DatabaseError] when the query fails. *)
Theorem findUserById_cache_failure_degrades_to_miss :
  forall S (P : Platform S) ctx logger cache db (id : string) (w : World S),
    Context.get ctx Logger = Some logger ->
    Context.get ctx Cache = Some cache ->
    Context.get ctx Database = Some db ->
    forall s2 answer,
      Cache.get cache ("user:" ++ id) (store (announced logger id w)) = (s2, answer) ->
      (exists c, answer = inl c) \/ answer = inr None ->
      exists w',
        findUserById id ctx w =
          (w', lookupOutcome id
                 (snd (Database.query db "SELECT * FROM users WHERE id = ?" [VString id]
                         (store (cacheAsked logger id s2 answer w)))))
        /\ In (DbQuery "SELECT * FROM users WHERE id = ?" [VString id]) (trace w').
Proof.
  intros S P ctx logger cache db id w Hlogger Hcache Hdb s2 answer Hget Hanswer.
  rewrite (findUserById_no_hit ctx logger cache db Hlogger Hcache Hdb id w s2 answer Hget).
  2:{ intros value ->. destruct Hanswer as [[c Hc] | Hnone]; discriminate. }
  eexists. split; [reflexivity |].
  unfold queried. cbn [fst].
  match goal with
  | |- context [noted ?ev ?s ?w0] => set (w4 := noted ev s w0)
  end.
  assert (Hin : In (DbQuery "SELECT * FROM users WHERE id = ?" [VString id]) (trace w4))
    by (unfold w4, noted; cbn [trace]; apply List.in_or_app; right; left; reflexivity).
  destruct (snd (Database.query db "SELECT * FROM users WHERE id = ?" [VString id]
                   (store (cacheAsked logger id s2 answer w)))) as [d | [| user rest]];
    try exact Hin.
  unfold cached. cbv zeta.
  destruct (snd (Cache.set cache ("user:" ++ id) user (Some 300%Z) (store w4))) as [c | []];
    unfold noted; cbn [trace].
  - do 2 (apply List.in_or_app; left). exact Hin.
  - apply List.in_or_app. left. exact Hin.
Qed.

(** With a cache whose every call fails, the lookup of [id1] still
    reaches the table and returns the row. *)
Lemma findUserById_cache_down_found_example :
  exists w',
    findUserById "id1" Sim.withCacheDown Sim.start = (w', Success Sim.id1)
    /\ In (DbQuery "SELECT * FROM users WHERE id = ?" [VString "id1"]) (trace w').
Proof.
  apply (findUserById_cache_failure_degrades_to_miss Sim.State Sim.platform
            Sim.withCacheDown Sim.silent Sim.downCache Sim.tableDb "id1" Sim.start
            eq_refl eq_refl eq_refl Sim.start.(store) (inl Sim.unreachable) eq_refl).
  left. exists Sim.unreachable. reflexivity.
Defined.

(** C7. [mapErrorToResponse] answers every error of the four-variant
    union [UserError] with a response: the [switch] never falls through
    to the missing [default]. A [UserNotFoundError] gives 404, a
    [ValidationError] gives 400 with its message and field, a
    [DatabaseError] and a [CacheError] give 503. *)
Theorem mapErrorToResponse_total :
  forall error : UserError,
    mapErrorToResponse error <> None
    /\ mapErrorToResponse error =
       Some (match error with
             | IsUserNotFoundError _ =>
                 {| HttpResponse.status := 404;
                    HttpResponse.body := VObject [("error", VString "User not found")] |}
             | IsValidationError v =>
                 {| HttpResponse.status := 400;
                    HttpResponse.body :=
                      VObject [("error", VString (ValidationError.message v));
                               ("field", match ValidationError.field v with
                                         | Some f => VString f
                                         | None => VUndefined
                                         end)] |}
             | IsDatabaseError _ =>
                 {| HttpResponse.status := 503;
                    HttpResponse.body := VObject [("error", VString "Service unavailable")] |}
             | IsCacheError _ =>
                 {| HttpResponse.status := 503;
                    HttpResponse.body := VObject [("error", VString "Service degraded")] |}
             end).
Proof.
  intros [n | d | v | c]; split; try discriminate; reflexivity.
Qed.

(** C8. Running [succeed(v)] against any registry fulfils the promise
    with [v] and leaves the world as it was, with [runWithLive] as with
    any other registry; and mapping the identity over an effect changes
    nothing: [map(succeed(x), id)] is [succeed(x)], and [map(e, id)]
    runs as [e] does for every effect [e]. *)
Theorem succeed_runs_to_its_value_and_map_id :
  (forall S E A (v : A) (registry : gmap string (Service S)) (w : World S),
      run (E := E) (Effect.succeed v) registry w = (w, Fulfilled v))
  /\ (forall S (P : Platform S) E A (v : A) (w : World S),
         runWithLive (E := E) (Effect.succeed v) w = (w, Fulfilled v))
  /\ (forall S E A (x : A),
         Effect.map (S := S) (E := E) (fun a => a) (Effect.succeed x) = Effect.succeed x)
  /\ (forall S E A (e : Effect.Effect S E A) ctx w,
         Effect.map (fun a => a) e ctx w = e ctx w).
Proof.
  repeat split.
  intros S E A e ctx w. unfold Effect.map.
  destruct (e ctx w) as [w' [a | err | d]]; reflexivity.
Qed.

(** C9. [findUserById] never fails with a [CacheError], whatever the
    cache does: a failure of [findUserById] is the [UserNotFoundError]
    of the id or a [DatabaseError]. *)
Theorem findUserById_never_fails_with_CacheError :
  forall S (P : Platform S) (id : string) ctx (w w' : World S) (e : UserError),
    findUserById id ctx w = (w', Failure e) ->
    (e = IsUserNotFoundError {| UserNotFoundError.userId := id |}
     \/ exists d, e = IsDatabaseError d)
    /\ (_tag e = "UserNotFoundError" \/ _tag e = "DatabaseError")
    /\ _tag e <> "CacheError".
Proof.
  intros S P id ctx w w' e Hrun.
  pose proof (findUserById_failsOnly id ctx w w' e Hrun) as Hshape.
  split; [exact Hshape |].
  destruct Hshape as [-> | [d ->]]; split; try discriminate.
  - left. reflexivity.
  - right. reflexivity.
Qed.

(** With a cache whose every call fails, looking up an id the table
    lacks fails with the [UserNotFoundError], not with a [CacheError]. *)
Lemma findUserById_cache_down_example :
  exists w',
    findUserById "id2" Sim.withCacheDown Sim.start
    = (w', Failure (IsUserNotFoundError {| UserNotFoundError.userId := "id2" |}))
    /\ _tag (IsUserNotFoundError {| UserNotFoundError.userId := "id2" |}) <> "CacheError".
Proof.
  eexists. split; [vm_compute; reflexivity |].
  eapply (findUserById_never_fails_with_CacheError _ _ "id2" Sim.withCacheDown Sim.start).
  vm_compute. reflexivity.
Defined.

(** C10. The user [updateUser] returns is the user [findUserById]
    found, right after the update was announced in the log (with the
    keys of the input, as [Object.keys] lists them), with the same
    [id] and [createdAt]; its [email] and [name] are those of the
    input where the input has the field and those of the found user
    where it has not. *)
Theorem updateUser_changes_only_given_fields :
  forall S (P : Platform S) (id : string) (input : UpdateUserInput.t) ctx
         (w w' : World S) (updated : User.t),
    updateUser id input ctx w = (w', Success updated) ->
    exists wl w1 user,
      trace wl = (trace w ++ [LogInfo "Updating user"
                                (Some [("userId", VString id);
                                       ("fields", VArray (keys input))])])%list
      /\ findUserById id ctx wl = (w1, Success user)
      /\ User.id updated = User.id user
      /\ User.createdAt updated = User.createdAt user
      /\ User.email updated = nullish (UpdateUserInput.email input) (User.email user)
      /\ User.name updated = nullish (UpdateUserInput.name input) (User.name user)
      /\ (UpdateUserInput.email input = None -> User.email updated = User.email user)
      /\ (UpdateUserInput.name input = None -> User.name updated = User.name user).
Proof.
  intros S P id input ctx w w' updated Hrun. unfold updateUser in Hrun.
  apply flatMap_Success_inv in Hrun as (wa & logger & Hlogger & Hrun).
  apply flatMap_Success_inv in Hrun as (wb & db & Hdb & Hrun).
  apply flatMap_Success_inv in Hrun as (wc & cache & Hcache & Hrun).
  apply service_Success_inv in Hlogger as [-> _].
  apply service_Success_inv in Hdb as [-> _].
  apply service_Success_inv in Hcache as [-> _].
  apply flatMap_Success_inv in Hrun as (wl & [] & Hinfo & Hrun).
  apply flatMap_Success_inv in Hrun as (w1 & user & Hfind & Hrun).
  apply flatMap_Success_inv in Hrun as (w2 & [] & _ & Hrun).
  apply flatMap_Success_inv in Hrun as (w3 & [] & _ & Hrun).
  apply flatMap_Success_inv in Hrun as (w4 & [] & _ & Hrun).
  injection Hrun as _ <-.
  exists wl, w1, user. cbn [User.id User.createdAt User.email User.name].
  split.
  { rewrite log_info_run in Hinfo. injection Hinfo as <-. reflexivity. }
  split; [exact Hfind |].
  repeat split.
  - intros ->. reflexivity.
  - intros ->. reflexivity.
Qed.

(** Renaming [id1] with the input [{ name: "Ada L.", email: undefined }]:
    the id, the creation date and the email stay, and the log line
    lists the two keys of the input in their order. *)
Lemma updateUser_rename_example :
  let input := {| UpdateUserInput.email := None; UpdateUserInput.name := Some "Ada L.";
                  UpdateUserInput.ownKeys := ["name"; "email"] |} in
  let updated := {| User.id := "id1"; User.email := "ada@example.com";
                    User.name := "Ada L."; User.createdAt := 0 |} in
  snd (updateUser "id1" input Sim.withTable Sim.start) = Success updated
  /\ exists wl w1 user,
      trace wl = (trace Sim.start
                  ++ [LogInfo "Updating user"
                        (Some [("userId", VString "id1"); ("fields", VArray (keys input))])])%list
      /\ findUserById "id1" Sim.withTable wl = (w1, Success user)
      /\ User.id updated = User.id user
      /\ User.createdAt updated = User.createdAt user
      /\ User.email updated = nullish (UpdateUserInput.email input) (User.email user)
      /\ User.name updated = nullish (UpdateUserInput.name input) (User.name user)
      /\ (UpdateUserInput.email input = None -> User.email updated = User.email user)
      /\ (UpdateUserInput.name input = None -> User.name updated = User.name user).
Proof.
  intros input updated. split; [vm_compute; reflexivity |].
  apply (updateUser_changes_only_given_fields Sim.State Sim.platform "id1" input
           Sim.withTable Sim.start
           (fst (updateUser "id1" input Sim.withTable Sim.start)) updated).
  vm_compute. reflexivity.
Defined.

(** * Further properties *)

(** ** The email pattern *)

Lemma append_cons (c : ascii) (s t : string) : String c s ++ t = String c (s ++ t).
Proof. reflexivity. Qed.

Lemma append_empty_r (s : string) : s ++ "" = s.
Proof.
  induction s as [| c s IH]; [reflexivity |]. rewrite append_cons, IH. reflexivity.
Qed.

Lemma word_cons (c : ascii) (s : string) :
  word (String c s) = not_space_or_at c && plain s.
Proof. unfold word. cbn [plain String.eqb]. rewrite andb_true_r. reflexivity. Qed.

Lemma some_not_space_or_at_spec (k : string -> bool) (s : string) :
  some_not_space_or_at k s = true <->
  exists pre post, s = pre ++ post /\ word pre = true /\ k post = true.
Proof.
  induction s as [| c rest IH]; cbn [some_not_space_or_at].
  - split; [discriminate |].
    intros (pre & post & Hs & Hword & _). destruct pre as [| c pre]; discriminate.
  - rewrite andb_true_iff, orb_true_iff, IH. split.
    + intros [Hc [Hk | (pre & post & -> & Hword & Hk)]].
      * exists (String c ""), rest. repeat split; [| exact Hk].
        rewrite word_cons, Hc. reflexivity.
      * exists (String c pre), post. repeat split; [| exact Hk].
        rewrite word_cons, Hc. unfold word in Hword.
        apply andb_true_iff in Hword as [Hplain _]. exact Hplain.
    + intros (pre & post & Hs & Hword & Hk). destruct pre as [| c' pre]; [discriminate |].
      rewrite append_cons in Hs. injection Hs as <- ->.
      rewrite word_cons in Hword. apply andb_true_iff in Hword as [Hc Hplain].
      split; [exact Hc |]. destruct pre as [| c2 pre].
      * left. exact Hk.
      * right. exists (String c2 pre), post. repeat split; [| exact Hk].
        unfold word. rewrite Hplain. reflexivity.
Qed.

Lemma literal_spec (c : ascii) (k : string -> bool) (s : string) :
  literal c k s = true <-> exists rest, s = String c rest /\ k rest = true.
Proof.
  destruct s as [| c' rest]; cbn [literal].
  - split; [discriminate | intros (r & Hs & _); discriminate].
  - rewrite andb_true_iff, Ascii.eqb_eq. split.
    + intros [-> Hk]. exists rest. split; [reflexivity | exact Hk].
    + intros (r & Hs & Hk). injection Hs as -> ->. split; [reflexivity | exact Hk].
Qed.

Lemma end_of_input_spec (s : string) : end_of_input s = true <-> s = "".
Proof. destruct s; cbn; split; intros; congruence. Qed.

Lemma emailRegex_test_spec (email : string) :
  emailRegex_test email = true <->
  exists name domain tld,
    email = name ++ "@" ++ domain ++ "." ++ tld
    /\ word name = true /\ word domain = true /\ word tld = true.
Proof.
  unfold emailRegex_test. rewrite some_not_space_or_at_spec. split.
  - intros (name & post & -> & Hname & Hpost).
    apply literal_spec in Hpost as (rest & -> & Hrest).
    apply some_not_space_or_at_spec in Hrest as (domain & post & -> & Hdomain & Hpost).
    apply literal_spec in Hpost as (rest & -> & Hrest).
    apply some_not_space_or_at_spec in Hrest as (tld & post & -> & Htld & Hpost).
    apply end_of_input_spec in Hpost as ->.
    exists name, domain, tld. repeat split; try assumption.
    rewrite append_empty_r. reflexivity.
  - intros (name & domain & tld & -> & Hname & Hdomain & Htld).
    exists name, ("@" ++ domain ++ "." ++ tld). repeat split; [exact Hname |].
    apply literal_spec. exists (domain ++ "." ++ tld). split; [reflexivity |].
    apply some_not_space_or_at_spec. exists domain, ("." ++ tld).
    repeat split; [exact Hdomain |].
    apply literal_spec. exists tld. split; [reflexivity |].
    apply some_not_space_or_at_spec. exists tld, "". repeat split; [| exact Htld].
    rewrite append_empty_r. reflexivity.
Qed.

(** ** Defects and traces of the combinators *)

Section Judgements.
Context {S : Type}.

Lemma flatMap_Die_inv {E A B} (self : Effect.Effect S E A) (f : A -> Effect.Effect S E B)
    (ctx : gmap string (Service S)) (w w' : World S) d :
  Effect.flatMap self f ctx w = (w', Die d) ->
  self ctx w = (w', Die d)
  \/ exists w1 a, self ctx w = (w1, Success a) /\ f a ctx w1 = (w', Die d).
Proof.
  unfold Effect.flatMap. destruct (self ctx w) as [w1 [a | e1 | d1]]; intros Hrun.
  - right. exists w1, a. split; [reflexivity | exact Hrun].
  - discriminate Hrun.
  - left. injection Hrun as -> ->. reflexivity.
Qed.

Lemma safeIn_succeed {E A} ctx (a : A) : safeIn (S := S) (E := E) ctx (Effect.succeed a).
Proof. intros w w' d. discriminate. Qed.

Lemma safeIn_fail {E A} ctx (e : E) : safeIn (S := S) (A := A) ctx (Effect.fail e).
Proof. intros w w' d. discriminate. Qed.

Lemma safeIn_sync {E A} ctx (op : S -> S * A) : safeIn (E := E) ctx (Effect.sync op).
Proof. intros w w' d. unfold Effect.sync. destruct (op (store w)). discriminate. Qed.

Lemma safeIn_call {E0 E A} ctx ev (up : E0 -> E) (op : ServiceEffect S E0 A) :
  safeIn ctx (Effect.call ev up op).
Proof.
  intros w w' d. unfold Effect.call. destruct (op (store w)) as [s' [e0 | a]]; discriminate.
Qed.

Lemma safeIn_service {E T} ctx (tag : Context.Tag S T) :
  is_Some (Context.get ctx tag) -> safeIn (E := E) ctx (Effect.service tag).
Proof.
  intros [impl Hget] w w' d. unfold Effect.service. rewrite Hget. discriminate.
Qed.

Lemma safeIn_map {E A B} ctx (f : A -> B) (self : Effect.Effect S E A) :
  safeIn ctx self -> safeIn ctx (Effect.map f self).
Proof.
  intros Hself w w' d. unfold Effect.map.
  destruct (self ctx w) as [w1 [a | e | d1]] eqn:Hrun; try discriminate.
  destruct (Hself _ _ _ Hrun).
Qed.

Lemma safeIn_flatMap {E A B} ctx (self : Effect.Effect S E A) (f : A -> Effect.Effect S E B) :
  safeIn ctx self -> (forall a, safeIn ctx (f a)) -> safeIn ctx (Effect.flatMap self f).
Proof.
  intros Hself Hf w w' d Hrun.
  apply flatMap_Die_inv in Hrun as [Hfirst | (w1 & a & _ & Hsecond)].
  - exact (Hself _ _ _ Hfirst).
  - exact (Hf a _ _ _ Hsecond).
Qed.

Lemma safeIn_catchTag {E A} `{Tagged E} ctx (k : string) (f : E -> Effect.Effect S E A)
    (self : Effect.Effect S E A) :
  safeIn ctx self -> (forall e, safeIn ctx (f e)) -> safeIn ctx (Effect.catchTag k f self).
Proof.
  intros Hself Hf w w' d. unfold Effect.catchTag.
  destruct (self ctx w) as [w1 [a | e | d1]] eqn:Hrun; try discriminate.
  - destruct (String.eqb (_tag e) k); [apply Hf | discriminate].
  - intros _. exact (Hself _ _ _ Hrun).
Qed.

Lemma safeIn_catchAll {E E2 A} ctx (f : E -> Effect.Effect S E2 A)
    (self : Effect.Effect S E A) :
  safeIn ctx self -> (forall e, safeIn ctx (f e)) -> safeIn ctx (Effect.catchAll f self).
Proof.
  intros Hself Hf w w' d. unfold Effect.catchAll.
  destruct (self ctx w) as [w1 [a | e | d1]] eqn:Hrun; try discriminate.
  - apply Hf.
  - intros _. exact (Hself _ _ _ Hrun).
Qed.

Lemma safeIn_partition {X E E2 A} ctx (elements : list X) (f : X -> Effect.Effect S E A) :
  (forall x, safeIn ctx (f x)) -> safeIn ctx (Effect.partition (E2 := E2) elements f).
Proof.
  intros Hf. induction elements as [| x rest IH]; intros w w' d; cbn [Effect.partition].
  - discriminate.
  - destruct (f x ctx w) as [w1 [a | e | d1]] eqn:Hrun.
    + destruct (Effect.partition rest f ctx w1) as [w2 [[es os] | e2 | d2]] eqn:Hrest;
        try discriminate. intros _. exact (IH _ _ _ Hrest).
    + destruct (Effect.partition rest f ctx w1) as [w2 [[es os] | e2 | d2]] eqn:Hrest;
        try discriminate. intros _. exact (IH _ _ _ Hrest).
    + intros _. exact (Hf x _ _ _ Hrun).
Qed.

Lemma appends_weaken {E A} (ok ok' : Event -> Prop) (self : Effect.Effect S E A) :
  (forall ev, ok ev -> ok' ev) -> appends ok self -> appends ok' self.
Proof.
  intros Hsub Hself ctx w w' exit Hrun.
  destruct (Hself _ _ _ _ Hrun) as (new & Htrace & Hnew).
  exists new. split; [exact Htrace |]. eapply List.Forall_impl; [exact Hsub | exact Hnew].
Qed.

Lemma appends_nothing {E A} (ok : Event -> Prop) (self : Effect.Effect S E A) :
  (forall ctx w w' exit, self ctx w = (w', exit) -> trace w' = trace w) -> appends ok self.
Proof.
  intros Hsame ctx w w' exit Hrun. exists []. split; [| constructor].
  rewrite List.app_nil_r. exact (Hsame _ _ _ _ Hrun).
Qed.

Lemma appends_succeed {E A} (ok : Event -> Prop) (a : A) :
  appends (S := S) (E := E) ok (Effect.succeed a).
Proof. apply appends_nothing. intros ctx w w' exit Hrun. injection Hrun as <- _. reflexivity. Qed.

Lemma appends_fail {E A} (ok : Event -> Prop) (e : E) :
  appends (S := S) (A := A) ok (Effect.fail e).
Proof. apply appends_nothing. intros ctx w w' exit Hrun. injection Hrun as <- _. reflexivity. Qed.

Lemma appends_service {E T} (ok : Event -> Prop) (tag : Context.Tag S T) :
  appends (E := E) ok (Effect.service tag).
Proof.
  apply appends_nothing. intros ctx w w' exit. unfold Effect.service.
  destruct (Context.get ctx tag); intros Hrun; injection Hrun as <- _; reflexivity.
Qed.

Lemma appends_sync {E A} (ok : Event -> Prop) (op : S -> S * A) :
  appends (E := E) ok (Effect.sync op).
Proof.
  apply appends_nothing. intros ctx w w' exit. unfold Effect.sync.
  destruct (op (store w)). intros Hrun. injection Hrun as <- _. reflexivity.
Qed.

Lemma appends_call {E0 E A} (ok : Event -> Prop) ev (up : E0 -> E)
    (op : ServiceEffect S E0 A) :
  ok ev -> appends ok (Effect.call ev up op).
Proof.
  intros Hev ctx w w' exit. unfold Effect.call. destruct (op (store w)) as [s' r].
  intros Hrun. injection Hrun as <- _. exists [ev]. split; [reflexivity |].
  constructor; [exact Hev | constructor].
Qed.

Lemma appends_map {E A B} (ok : Event -> Prop) (f : A -> B) (self : Effect.Effect S E A) :
  appends ok self -> appends ok (Effect.map f self).
Proof.
  intros Hself ctx w w' exit. unfold Effect.map.
  destruct (self ctx w) as [w1 [a | e | d]] eqn:Hrun; intros Hout; injection Hout as <- _;
    exact (Hself _ _ _ _ Hrun).
Qed.

Lemma appends_then {E A} (ok : Event -> Prop) (self : Effect.Effect S E A)
    ctx (w w1 w' : World S) exit1 :
  appends ok self -> self ctx w = (w1, exit1) ->
  (exists new, trace w' = (trace w1 ++ new)%list /\ Forall ok new) ->
  exists new, trace w' = (trace w ++ new)%list /\ Forall ok new.
Proof.
  intros Hself Hrun (new2 & Htrace2 & Hnew2).
  destruct (Hself _ _ _ _ Hrun) as (new1 & Htrace1 & Hnew1).
  exists (new1 ++ new2)%list. split.
  - rewrite Htrace2, Htrace1, List.app_assoc. reflexivity.
  - apply List.Forall_app. split; assumption.
Qed.

Lemma appends_flatMap {E A B} (ok : Event -> Prop) (self : Effect.Effect S E A)
    (f : A -> Effect.Effect S E B) :
  appends ok self -> (forall a, appends ok (f a)) -> appends ok (Effect.flatMap self f).
Proof.
  intros Hself Hf ctx w w' exit. unfold Effect.flatMap.
  destruct (self ctx w) as [w1 [a | e | d]] eqn:Hrun.
  - intros Hrest. apply (appends_then ok self ctx w w1 w' _ Hself Hrun).
    exact (Hf a _ _ _ _ Hrest).
  - intros Hout. injection Hout as <- _. exact (Hself _ _ _ _ Hrun).
  - intros Hout. injection Hout as <- _. exact (Hself _ _ _ _ Hrun).
Qed.

Lemma appends_catchTag {E A} `{Tagged E} (ok : Event -> Prop) (k : string)
    (f : E -> Effect.Effect S E A) (self : Effect.Effect S E A) :
  appends ok self -> (forall e, appends ok (f e)) -> appends ok (Effect.catchTag k f self).
Proof.
  intros Hself Hf ctx w w' exit. unfold Effect.catchTag.
  destruct (self ctx w) as [w1 [a | e | d]] eqn:Hrun.
  - intros Hout. injection Hout as <- _. exact (Hself _ _ _ _ Hrun).
  - destruct (String.eqb (_tag e) k).
    + intros Hrest. apply (appends_then ok self ctx w w1 w' _ Hself Hrun).
      exact (Hf e _ _ _ _ Hrest).
    + intros Hout. injection Hout as <- _. exact (Hself _ _ _ _ Hrun).
  - intros Hout. injection Hout as <- _. exact (Hself _ _ _ _ Hrun).
Qed.

Lemma appends_catchAll {E E2 A} (ok : Event -> Prop) (f : E -> Effect.Effect S E2 A)
    (self : Effect.Effect S E A) :
  appends ok self -> (forall e, appends ok (f e)) -> appends ok (Effect.catchAll f self).
Proof.
  intros Hself Hf ctx w w' exit. unfold Effect.catchAll.
  destruct (self ctx w) as [w1 [a | e | d]] eqn:Hrun.
  - intros Hout. injection Hout as <- _. exact (Hself _ _ _ _ Hrun).
  - intros Hrest. apply (appends_then ok self ctx w w1 w' _ Hself Hrun).
    exact (Hf e _ _ _ _ Hrest).
  - intros Hout. injection Hout as <- _. exact (Hself _ _ _ _ Hrun).
Qed.

Lemma appends_partition {X E E2 A} (ok : Event -> Prop) (elements : list X)
    (f : X -> Effect.Effect S E A) :
  (forall x, appends ok (f x)) -> appends ok (Effect.partition (E2 := E2) elements f).
Proof.
  intros Hf. induction elements as [| x rest IH]; intros ctx w w' exit; cbn [Effect.partition].
  - intros Hout. injection Hout as <- _. exists []. split; [| constructor].
    rewrite List.app_nil_r. reflexivity.
  - destruct (f x ctx w) as [w1 [a | e | d]] eqn:Hrun.
    + destruct (Effect.partition rest f ctx w1) as [w2 [[es os] | e2 | d2]] eqn:Hrest;
        intros Hout; injection Hout as <- _;
        exact (appends_then ok (f x) ctx w w1 w2 _ (Hf x) Hrun (IH _ _ _ _ Hrest)).
    + destruct (Effect.partition rest f ctx w1) as [w2 [[es os] | e2 | d2]] eqn:Hrest;
        intros Hout; injection Hout as <- _;
        exact (appends_then ok (f x) ctx w w1 w2 _ (Hf x) Hrun (IH _ _ _ _ Hrest)).
    + intros Hout. injection Hout as <- _. exact (Hf x _ _ _ _ Hrun).
Qed.
End Judgements.

(** ** Defects and traces of the repository functions *)

Ltac safe :=
  repeat first
    [ apply safeIn_flatMap
    | apply safeIn_service; assumption
    | apply safeIn_succeed
    | apply safeIn_fail
    | apply safeIn_sync
    | apply safeIn_call
    | apply safeIn_catchTag
    | apply safeIn_catchAll
    | apply safeIn_map
    | progress cbv beta
    | match goal with |- forall _, safeIn _ _ => intro end
    | match goal with |- safeIn _ (match ?x with _ => _ end) => destruct x end ].

Ltac traced :=
  repeat first
    [ apply appends_flatMap
    | apply appends_service
    | apply appends_succeed
    | apply appends_fail
    | apply appends_sync
    | apply appends_call; reflexivity
    | apply appends_catchTag
    | apply appends_catchAll
    | apply appends_map
    | progress cbv beta
    | match goal with |- forall _, appends _ _ => intro end
    | match goal with |- appends _ (match ?x with _ => _ end) => destruct x end ].

Section Safety.
Context {S : Type} {platform : Platform S}.
Variable ctx : gmap string (Service S).

Lemma findUserById_safe (id : string) : allFound ctx -> safeIn ctx (findUserById id).
Proof. intros (Hlogger & Hcache & Hdb). unfold findUserById. safe. Qed.

Lemma getUserProfile_safe (userId : string) : allFound ctx -> safeIn ctx (getUserProfile userId).
Proof. intros (Hlogger & Hcache & Hdb). unfold getUserProfile, findUserById. safe. Qed.

Lemma findUserByEmail_safe (email : string) :
  storeFound ctx -> safeIn ctx (findUserByEmail email).
Proof. intros (Hlogger & Hdb). unfold findUserByEmail. safe. Qed.

Lemma createUser_safe (input : CreateUserInput.t) :
  storeFound ctx -> safeIn ctx (createUser input).
Proof. intros (Hlogger & Hdb). unfold createUser, findUserByEmail. safe. Qed.

Lemma registerUser_safe (input : CreateUserInput.t) :
  storeFound ctx -> safeIn ctx (registerUser input).
Proof.
  intros (Hlogger & Hdb).
  unfold registerUser, validateEmail, validateName, createUser, findUserByEmail. safe.
Qed.

Lemma updateUser_safe (id : string) (input : UpdateUserInput.t) :
  allFound ctx -> safeIn ctx (updateUser id input).
Proof.
  intros (Hlogger & Hcache & Hdb). unfold updateUser, findUserById, findUserByEmail. safe.
Qed.

Lemma deleteUser_safe (id : string) : allFound ctx -> safeIn ctx (deleteUser id).
Proof. intros (Hlogger & Hcache & Hdb). unfold deleteUser, findUserById. safe. Qed.

Lemma changeEmail_safe (userId newEmail : string) :
  allFound ctx -> safeIn ctx (changeEmail userId newEmail).
Proof.
  intros Hall. unfold changeEmail, validateEmail.
  apply safeIn_flatMap; [destruct (emailRegex_test newEmail); safe |].
  intros _. apply updateUser_safe. exact Hall.
Qed.

Lemma processUserBatch_safe (userIds : list string) :
  allFound ctx -> safeIn ctx (processUserBatch userIds).
Proof.
  intros Hall. unfold processUserBatch. apply safeIn_map. apply safeIn_partition.
  intros userId. apply safeIn_map. apply getUserProfile_safe. exact Hall.
Qed.

Lemma allFound_storeFound : allFound ctx -> storeFound ctx.
Proof. intros (Hlogger & _ & Hdb). split; assumption. Qed.
End Safety.

Section Traces.
Context {S : Type} {platform : Platform S}.

Lemma findUserByEmail_trace (email : string) :
  appends (fun ev => isCacheCall ev = false /\ isExecute ev = false)
    (findUserByEmail (S := S) email).
Proof.
  unfold findUserByEmail.
  repeat first
    [ apply appends_flatMap | apply appends_service | apply appends_succeed
    | apply appends_call; split; reflexivity
    | match goal with |- forall _, appends _ _ => intro end ].
Qed.

Lemma createUser_no_cache (input : CreateUserInput.t) :
  appends (fun ev => isCacheCall ev = false) (createUser (S := S) input).
Proof. unfold createUser, findUserByEmail. traced. Qed.

Lemma registerUser_no_cache (input : CreateUserInput.t) :
  appends (fun ev => isCacheCall ev = false) (registerUser (S := S) input).
Proof.
  unfold registerUser, validateEmail, validateName, createUser, findUserByEmail. traced.
Qed.
End Traces.

(** ** Validation *)

(** X1. [validateEmail] accepts exactly the strings of the shape
    name [@] domain [.] tld in which the three parts are non-empty and
    free of white space and of [@]; it returns an accepted email as it
    is, refuses any other string with the [ValidationError] of the
    field [email], and leaves the world alone. *)
Theorem validateEmail_accepts_name_at_domain_dot_tld :
  forall S (email : string) ctx (w : World S),
    ((exists name domain tld,
         email = name ++ "@" ++ domain ++ "." ++ tld
         /\ word name = true /\ word domain = true /\ word tld = true) ->
     validateEmail email ctx w = (w, Success email))
    /\ (~ (exists name domain tld,
              email = name ++ "@" ++ domain ++ "." ++ tld
              /\ word name = true /\ word domain = true /\ word tld = true) ->
        validateEmail email ctx w =
          (w, Failure (IsValidationError
                         {| ValidationError.message := "Invalid email format";
                            ValidationError.field := Some "email" |}))).
Proof.
  intros S email ctx w. unfold validateEmail. split; intros Hshape.
  - apply emailRegex_test_spec in Hshape. rewrite Hshape. reflexivity.
  - destruct (emailRegex_test email) eqn:Htest; [| reflexivity].
    destruct Hshape. apply emailRegex_test_spec. exact Htest.
Qed.

(** An address with a dot in its domain is accepted; one with two [@]
    is not of the shape. *)
Lemma validateEmail_examples :
  validateEmail "john@mail.example.com" Sim.withTable Sim.start
  = (Sim.start, Success "john@mail.example.com")
  /\ validateEmail "a@b@c.d" Sim.withTable Sim.start
     = (Sim.start, Failure (IsValidationError
                              {| ValidationError.message := "Invalid email format";
                                 ValidationError.field := Some "email" |})).
Proof.
  split.
  - apply (proj1 (validateEmail_accepts_name_at_domain_dot_tld Sim.State
                    "john@mail.example.com" Sim.withTable Sim.start)).
    exists "john", "mail", "example.com". repeat split; reflexivity.
  - apply (proj2 (validateEmail_accepts_name_at_domain_dot_tld Sim.State
                    "a@b@c.d" Sim.withTable Sim.start)).
    intros Hshape. apply emailRegex_test_spec in Hshape. discriminate Hshape.
Defined.

(** X2. [registerUser] with an email of the accepted shape: a name
    shorter than two code units is refused with the [ValidationError]
    of the field [name] and the world is left alone; with a longer name
    [registerUser] runs as [createUser] does. *)
Theorem registerUser_checks_name_then_creates :
  forall S (P : Platform S) (input : CreateUserInput.t) ctx (w : World S),
    emailRegex_test (CreateUserInput.email input) = true ->
    ((String.length (CreateUserInput.name input) < 2)%nat ->
     registerUser input ctx w =
       (w, Failure (IsValidationError
                      {| ValidationError.message := "Name must be at least 2 characters";
                         ValidationError.field := Some "name" |})))
    /\ ((2 <= String.length (CreateUserInput.name input))%nat ->
        registerUser input ctx w = createUser input ctx w).
Proof.
  intros S P input ctx w Hemail. unfold registerUser.
  assert (Hvalid : validateEmail (CreateUserInput.email input) ctx w
                   = (w, Success (CreateUserInput.email input)))
    by (unfold validateEmail; rewrite Hemail; reflexivity).
  rewrite (flatMap_success _ _ _ _ _ _ Hvalid). split; intros Hname.
  - apply flatMap_failure. unfold validateName.
    destruct (Nat.leb_spec 2 (String.length (CreateUserInput.name input))); [lia |].
    reflexivity.
  - erewrite flatMap_success; [reflexivity |]. unfold validateName.
    destruct (Nat.leb_spec 2 (String.length (CreateUserInput.name input))); [| lia].
    reflexivity.
Qed.

(** A one-letter name is refused; with a two-letter name the
    registration is the creation. *)
Lemma registerUser_name_examples :
  registerUser {| CreateUserInput.email := "j@example.com"; CreateUserInput.name := "J" |}
    Sim.withTable Sim.start
  = (Sim.start, Failure (IsValidationError
                           {| ValidationError.message := "Name must be at least 2 characters";
                              ValidationError.field := Some "name" |}))
  /\ registerUser {| CreateUserInput.email := "j@example.com"; CreateUserInput.name := "Jo" |}
       Sim.withTable Sim.start
     = createUser {| CreateUserInput.email := "j@example.com"; CreateUserInput.name := "Jo" |}
         Sim.withTable Sim.start.
Proof.
  split.
  - apply (proj1 (registerUser_checks_name_then_creates Sim.State Sim.platform
                    {| CreateUserInput.email := "j@example.com"; CreateUserInput.name := "J" |}
                    Sim.withTable Sim.start eq_refl)).
    cbn. lia.
  - apply (proj2 (registerUser_checks_name_then_creates Sim.State Sim.platform
                    {| CreateUserInput.email := "j@example.com"; CreateUserInput.name := "Jo" |}
                    Sim.withTable Sim.start eq_refl)).
    cbn. lia.
Defined.

(** X3. [changeEmail] refuses a new email that is not of the accepted
    shape with the [ValidationError] of the field [email], before
    anything is called; with an accepted email it runs as [updateUser]
    does on an input that has the email and no name. *)
Theorem changeEmail_validates_then_updates :
  forall S (P : Platform S) (userId newEmail : string) ctx (w : World S),
    (emailRegex_test newEmail = false ->
     changeEmail userId newEmail ctx w =
       (w, Failure (IsValidationError
                      {| ValidationError.message := "Invalid email format";
                         ValidationError.field := Some "email" |})))
    /\ (emailRegex_test newEmail = true ->
        changeEmail userId newEmail ctx w =
          updateUser userId {| UpdateUserInput.email := Some newEmail;
                               UpdateUserInput.name := None;
                               UpdateUserInput.ownKeys := ["email"] |} ctx w).
Proof.
  intros S P userId newEmail ctx w. unfold changeEmail. split; intros Hemail.
  - apply flatMap_failure. unfold validateEmail. rewrite Hemail. reflexivity.
  - erewrite flatMap_success; [reflexivity |]. unfold validateEmail. rewrite Hemail.
    reflexivity.
Qed.

(** An email without a dot after the [@] is refused and nothing is
    called; an accepted one is handed to [updateUser]. *)
Lemma changeEmail_examples :
  changeEmail "id1" "ada@example" Sim.withTable Sim.start
  = (Sim.start, Failure (IsValidationError
                           {| ValidationError.message := "Invalid email format";
                              ValidationError.field := Some "email" |}))
  /\ changeEmail "id1" "ada@new.example" Sim.withTable Sim.start
     = updateUser "id1" {| UpdateUserInput.email := Some "ada@new.example";
                           UpdateUserInput.name := None;
                           UpdateUserInput.ownKeys := ["email"] |} Sim.withTable Sim.start.
Proof.
  split.
  - apply (proj1 (changeEmail_validates_then_updates Sim.State Sim.platform
                    "id1" "ada@example" Sim.withTable Sim.start)).
    reflexivity.
  - apply (proj2 (changeEmail_validates_then_updates Sim.State Sim.platform
                    "id1" "ada@new.example" Sim.withTable Sim.start)).
    reflexivity.
Defined.

(** ** Lookups *)

(** X4. On a cache hit [findUserById] returns the cached user; the
    trace gains the debug line, the cache read and the debug line of
    the hit and nothing else: the database is not queried and the cache
    is not written. *)
Theorem findUserById_cache_hit_skips_database :
  forall S (P : Platform S) ctx logger cache db (id : string) (w : World S),
    Context.get ctx Logger = Some logger ->
    Context.get ctx Cache = Some cache ->
    Context.get ctx Database = Some db ->
    forall s2 value,
      Cache.get cache ("user:" ++ id) (store (announced logger id w)) = (s2, inr (Some value)) ->
      exists w',
        findUserById id ctx w = (w', Success value)
        /\ trace w' = (trace w ++ [LogDebug "Finding user by ID" (userMeta id);
                                   CacheGet ("user:" ++ id);
                                   LogDebug "User found in cache" (userMeta id)])%list.
Proof.
  intros S P ctx logger cache db id w Hlogger Hcache Hdb s2 value Hget.
  rewrite (findUserById_hit ctx logger cache db Hlogger Hcache Hdb id w s2 value Hget).
  eexists. split; [reflexivity |].
  unfold noted, cacheAsked, announced, noted. cbn [trace].
  rewrite <- !List.app_assoc. reflexivity.
Qed.

(** With [id1] in the cache the lookup succeeds though the database is
    down. *)
Lemma findUserById_warm_cache_example :
  exists w',
    findUserById "id1" Sim.withWarmCache Sim.start = (w', Success Sim.id1)
    /\ trace w' = (trace Sim.start
                   ++ [LogDebug "Finding user by ID" (userMeta "id1");
                       CacheGet ("user:" ++ "id1");
                       LogDebug "User found in cache" (userMeta "id1")])%list.
Proof.
  exact (findUserById_cache_hit_skips_database Sim.State Sim.platform Sim.withWarmCache
           Sim.silent Sim.warmCache Sim.downDb "id1" Sim.start eq_refl eq_refl eq_refl
           (store Sim.start) Sim.id1 eq_refl).
Defined.

(** X5. When the cache has no entry (or fails) and the query returns a
    row, [findUserById] writes the first row to the cache under the key
    [user:<id>] with a time to live of 300 seconds, right after the
    query and in the store the query left, and returns the row whether
    or not the write succeeds. A write that succeeded is the last event
    of the run; a write that failed with a [CacheError] is followed by
    one line of the error log, "Failed to cache user" with that error,
    and by nothing else. *)
Theorem findUserById_fills_cache :
  forall S (P : Platform S) ctx logger cache db (id : string) (w : World S),
    Context.get ctx Logger = Some logger ->
    Context.get ctx Cache = Some cache ->
    Context.get ctx Database = Some db ->
    forall s2 answer s4 user rest s5 written,
      Cache.get cache ("user:" ++ id) (store (announced logger id w)) = (s2, answer) ->
      (forall value, answer <> inr (Some value)) ->
      Database.query db "SELECT * FROM users WHERE id = ?" [VString id]
        (store (cacheAsked logger id s2 answer w)) = (s4, inr (user :: rest)) ->
      Cache.set cache ("user:" ++ id) user (Some 300%Z) s4 = (s5, written) ->
      exists w',
        findUserById id ctx w = (w', Success user)
        /\ trace w' =
           (trace (cacheAsked logger id s2 answer w)
            ++ [DbQuery "SELECT * FROM users WHERE id = ?" [VString id];
                CacheSet ("user:" ++ id) user (Some 300%Z)]
            ++ match written with
               | inl c => [LogError "Failed to cache user"
                             (Some (UError (IsCacheError c))) (userMeta id)]
               | inr _ => []
               end)%list
        /\ store w' =
           match written with
           | inl c => fst (Logger.error logger "Failed to cache user"
                             (Some (UError (IsCacheError c))) (userMeta id) s5)
           | inr _ => s5
           end.
Proof.
  intros S P ctx logger cache db id w Hlogger Hcache Hdb s2 answer s4 user rest s5 written
    Hget Hmiss Hquery Hset.
  rewrite (findUserById_no_hit ctx logger cache db Hlogger Hcache Hdb id w s2 answer
             Hget Hmiss).
  unfold queried. rewrite Hquery. cbn [fst snd lookupOutcome]. unfold cached. cbv zeta.
  change (store (noted (DbQuery "SELECT * FROM users WHERE id = ?" [VString id]) s4
                   (cacheAsked logger id s2 answer w))) with s4.
  rewrite Hset. cbn [fst snd].
  destruct written as [c | []]; cbn [fst snd].
  - eexists. split; [reflexivity |]. split.
    + unfold noted. cbn [trace]. rewrite <- !List.app_assoc. reflexivity.
    + reflexivity.
  - eexists. split; [reflexivity |]. split.
    + unfold noted. cbn [trace]. rewrite <- !List.app_assoc. reflexivity.
    + reflexivity.
Qed.

(** With the cache down the row of the table is written to the cache,
    in vain, and returned; the failed write is logged. *)
Lemma findUserById_fills_cache_example :
  exists w',
    findUserById "id1" Sim.withCacheDown Sim.start = (w', Success Sim.id1)
    /\ trace w' =
       (trace (cacheAsked Sim.silent "id1" (store Sim.start) (inl Sim.unreachable) Sim.start)
        ++ [DbQuery "SELECT * FROM users WHERE id = ?" [VString "id1"];
            CacheSet ("user:" ++ "id1") Sim.id1 (Some 300%Z)]
        ++ [LogError "Failed to cache user"
              (Some (UError (IsCacheError Sim.unreachable))) (userMeta "id1")])%list
    /\ store w' = store Sim.start.
Proof.
  apply (findUserById_fills_cache Sim.State Sim.platform Sim.withCacheDown
           Sim.silent Sim.downCache Sim.tableDb "id1" Sim.start eq_refl eq_refl eq_refl
           (store Sim.start) (inl Sim.unreachable) (store Sim.start) Sim.id1 []
           (store Sim.start) (inl Sim.unreachable)).
  - reflexivity.
  - discriminate.
  - reflexivity.
  - reflexivity.
Defined.

(** X6. [getUserProfile] succeeds exactly when [findUserById] does,
    and a failure of the lookup is the failure of [getUserProfile], in
    the same world. The profile holds the user found; the clock is read
    once, after the lookup. As long as the clock and the creation date
    are no more than 2^53 ms apart (where JavaScript's numbers are
    exact), the account age is the number of whole days between the
    two, rounded down, and the user is new exactly when fewer than
    thirty days' worth of milliseconds lie between them. *)
Theorem getUserProfile_counts_whole_days :
  forall S (P : Platform S) (userId : string) ctx (w : World S),
    (forall w' profile,
        getUserProfile userId ctx w = (w', Success profile) ->
        exists w1 now,
          findUserById userId ctx w = (w1, Success (UserProfile.user profile))
          /\ date_now (store w1) = (store w', now)
          /\ trace w' = trace w1
          /\ ((Z.abs (now - User.createdAt (UserProfile.user profile)) <= 2 ^ 53)%Z ->
              (86400000 * UserProfile.accountAge profile
               <= now - User.createdAt (UserProfile.user profile)
               < 86400000 * (UserProfile.accountAge profile + 1))%Z
              /\ (UserProfile.isNewUser profile = true
                  <-> (now - User.createdAt (UserProfile.user profile) < thirtyDays)%Z)))
    /\ (forall w1 user,
           findUserById userId ctx w = (w1, Success user) ->
           exists profile,
             getUserProfile userId ctx w
             = ({| trace := trace w1; store := fst (date_now (store w1)) |}, Success profile)
             /\ UserProfile.user profile = user)
    /\ (forall w' e,
           getUserProfile userId ctx w = (w', Failure e)
           <-> findUserById userId ctx w = (w', Failure e)).
Proof.
  intros S P userId ctx w. split; [| split].
  - intros w' profile Hrun. unfold getUserProfile in Hrun.
    apply flatMap_Success_inv in Hrun as (w1 & user & Hfind & Hrun).
    apply flatMap_Success_inv in Hrun as (w2 & now & Hnow & Hrun).
    injection Hrun as <- <-.
    cbn [UserProfile.user UserProfile.accountAge UserProfile.isNewUser].
    unfold Effect.sync in Hnow. destruct (date_now (store w1)) as [s' now'] eqn:Hclock.
    injection Hnow as <- <-. cbn [store trace].
    exists w1, now'. repeat split; try assumption.
    + change (1000 * 60 * 60 * 24)%Z with 86400000%Z.
      apply Z.mul_div_le. lia.
    + change (1000 * 60 * 60 * 24)%Z with 86400000%Z.
      apply Z.mul_succ_div_gt. lia.
    + intros Hnew. apply Z.ltb_lt in Hnew. unfold thirtyDays.
      change (1000 * 60 * 60 * 24)%Z with 86400000%Z in *.
      apply Z.nle_gt. intros Hle. apply (Z.div_le_lower_bound _ 86400000 30) in Hle; lia.
    + intros Hlt. apply Z.ltb_lt. unfold thirtyDays in Hlt.
      change (1000 * 60 * 60 * 24)%Z with 86400000%Z in *.
      apply Z.div_lt_upper_bound; lia.
  - intros w1 user Hfind. unfold getUserProfile.
    erewrite flatMap_success; [| exact Hfind].
    unfold Effect.flatMap, Effect.sync, Effect.succeed.
    destruct (date_now (store w1)) as [s' now]. cbn [fst].
    eexists. split; reflexivity.
  - intros w' e. split.
    + apply getUserProfile_Failure_inv.
    + intros Hfind. unfold getUserProfile. apply flatMap_failure. exact Hfind.
Qed.

(** The profile of [id1], created at the epoch and read ten days
    later, counts ten days. *)
Lemma getUserProfile_ten_days_example :
  let profile := {| UserProfile.user := Sim.id1; UserProfile.accountAge := 10;
                    UserProfile.isNewUser := true |} in
  snd (getUserProfile "id1" Sim.withTable Sim.start) = Success profile
  /\ (Z.abs (864000000 - User.createdAt Sim.id1) <= 2 ^ 53)%Z
  /\ (86400000 * UserProfile.accountAge profile
      <= 864000000 - User.createdAt (UserProfile.user profile)
      < 86400000 * (UserProfile.accountAge profile + 1))%Z
  /\ (UserProfile.isNewUser profile = true
      <-> (864000000 - User.createdAt (UserProfile.user profile) < thirtyDays)%Z).
Proof.
  intros profile. split; [vm_compute; reflexivity |].
  assert (Hclose : (Z.abs (864000000 - User.createdAt Sim.id1) <= 2 ^ 53)%Z)
    by (vm_compute; discriminate).
  split; [exact Hclose |].
  assert (Hrun : getUserProfile "id1" Sim.withTable Sim.start
                 = (fst (getUserProfile "id1" Sim.withTable Sim.start), Success profile))
    by (vm_compute; reflexivity).
  destruct (proj1 (getUserProfile_counts_whole_days Sim.State Sim.platform "id1"
                     Sim.withTable Sim.start)
              (fst (getUserProfile "id1" Sim.withTable Sim.start)) profile Hrun)
    as (w1 & now & Hfind & Hnow & _ & Hdays).
  vm_compute in Hfind. injection Hfind as <-.
  vm_compute in Hnow. injection Hnow as <-.
  exact (Hdays Hclose).
Defined.

(** ** Error types of the remaining functions *)

Ltac error_types :=
  repeat first
    [ apply failsOnly_flatMap
    | apply failsOnly_service
    | apply failsOnly_sync
    | apply failsOnly_succeed
    | apply failsOnly_log_info
    | apply failsOnly_log_error
    | apply failsOnly_log_debug
    | apply failsOnly_cache_recovered
    | match goal with |- forall _, failsOnly _ _ => intro end ].

Section MoreErrorTypes.
Context {S : Type} {platform : Platform S}.

Lemma getUserProfile_failsOnly (userId : string) :
  failsOnly (notFoundOrDatabase userId) (getUserProfile (S := S) userId).
Proof.
  unfold getUserProfile. apply failsOnly_flatMap; [apply findUserById_failsOnly |].
  intros user. error_types.
Qed.

Lemma updateUser_failsOnly (id : string) (input : UpdateUserInput.t) :
  failsOnly (updateFailure id) (updateUser (S := S) id input).
Proof.
  unfold updateUser.
  apply failsOnly_flatMap; [apply failsOnly_service | intros logger].
  apply failsOnly_flatMap; [apply failsOnly_service | intros db].
  apply failsOnly_flatMap; [apply failsOnly_service | intros cache].
  apply failsOnly_flatMap; [apply failsOnly_log_info | intros _].
  apply failsOnly_flatMap.
  { eapply failsOnly_weaken; [| apply findUserById_failsOnly]. intros e He. left. exact He. }
  intros user. apply failsOnly_flatMap.
  { destruct (UpdateUserInput.email input) as [email |]; [| apply failsOnly_succeed].
    destruct (truthy email && negb (String.eqb email (User.email user)));
      [| apply failsOnly_succeed].
    apply failsOnly_flatMap.
    - eapply failsOnly_weaken; [| apply findUserByEmail_failsOnly].
      intros e He. left. right. exact He.
    - intros [existing |]; [| apply failsOnly_succeed].
      apply failsOnly_fail. right. reflexivity. }
  intros _. apply failsOnly_flatMap.
  { apply failsOnly_call. intros d. left. right. exists d. reflexivity. }
  intros _. unfold cache_delete. error_types.
Qed.

Lemma changeEmail_failsOnly (userId newEmail : string) :
  failsOnly (changeFailure userId) (changeEmail (S := S) userId newEmail).
Proof.
  unfold changeEmail. apply failsOnly_flatMap.
  - unfold validateEmail. destruct (emailRegex_test newEmail).
    + apply failsOnly_succeed.
    + apply failsOnly_fail. right. reflexivity.
  - intros _. eapply failsOnly_weaken; [| apply updateUser_failsOnly].
    intros e He. left. exact He.
Qed.

Lemma deleteUser_failsOnly (id : string) :
  failsOnly (notFoundOrDatabase id) (deleteUser (S := S) id).
Proof.
  unfold deleteUser.
  apply failsOnly_flatMap; [apply failsOnly_service | intros logger].
  apply failsOnly_flatMap; [apply failsOnly_service | intros db].
  apply failsOnly_flatMap; [apply failsOnly_service | intros cache].
  apply failsOnly_flatMap; [apply failsOnly_log_info | intros _].
  apply failsOnly_flatMap; [apply findUserById_failsOnly | intros _].
  apply failsOnly_flatMap.
  { apply failsOnly_call. intros d. right. exists d. reflexivity. }
  intros _. unfold cache_delete. error_types.
Qed.
End MoreErrorTypes.

(** X7. [updateUser], [changeEmail], [deleteUser] and [getUserProfile]
    never fail with a [CacheError], whatever the cache does. A failure
    of [updateUser] is the [UserNotFoundError] of the id, a
    [DatabaseError] or the [ValidationError] "Email already in use";
    [changeEmail] adds the [ValidationError] "Invalid email format";
    [deleteUser] and [getUserProfile] fail only with the
    [UserNotFoundError] of the id or a [DatabaseError]. *)
Theorem writes_never_fail_with_CacheError :
  forall S (P : Platform S) (id : string) ctx (w w' : World S) (e : UserError),
    (forall input, updateUser id input ctx w = (w', Failure e) ->
                   updateFailure id e /\ _tag e <> "CacheError")
    /\ (forall newEmail, changeEmail id newEmail ctx w = (w', Failure e) ->
                         changeFailure id e /\ _tag e <> "CacheError")
    /\ (deleteUser id ctx w = (w', Failure e) ->
        notFoundOrDatabase id e /\ _tag e <> "CacheError")
    /\ (getUserProfile id ctx w = (w', Failure e) ->
        notFoundOrDatabase id e /\ _tag e <> "CacheError").
Proof.
  intros S P id ctx w w' e.
  assert (Hlookup : notFoundOrDatabase id e -> _tag e <> "CacheError")
    by (intros [-> | [d ->]]; discriminate).
  assert (Hupdate : updateFailure id e -> _tag e <> "CacheError")
    by (intros [Hshape | ->]; [apply Hlookup; exact Hshape | discriminate]).
  repeat split.
  - exact (updateUser_failsOnly id input ctx w w' e H).
  - apply Hupdate. exact (updateUser_failsOnly id input ctx w w' e H).
  - exact (changeEmail_failsOnly id newEmail ctx w w' e H).
  - destruct (changeEmail_failsOnly id newEmail ctx w w' e H) as [Hshape | ->];
      [apply Hupdate; exact Hshape | discriminate].
  - exact (deleteUser_failsOnly id ctx w w' e H).
  - apply Hlookup. exact (deleteUser_failsOnly id ctx w w' e H).
  - exact (getUserProfile_failsOnly id ctx w w' e H).
  - apply Hlookup. exact (getUserProfile_failsOnly id ctx w w' e H).
Qed.

(** With the cache down, deleting a user the table lacks fails with
    the [UserNotFoundError], and deleting [id1] succeeds. *)
Lemma deleteUser_cache_down_example :
  snd (deleteUser "id1" Sim.withCacheDown Sim.start) = Success tt
  /\ notFoundOrDatabase "id2"
       (IsUserNotFoundError {| UserNotFoundError.userId := "id2" |})
  /\ _tag (IsUserNotFoundError {| UserNotFoundError.userId := "id2" |}) <> "CacheError".
Proof.
  split; [vm_compute; reflexivity |].
  apply (proj1 (proj2 (proj2 (writes_never_fail_with_CacheError Sim.State Sim.platform "id2"
                                Sim.withCacheDown Sim.start
                                (fst (deleteUser "id2" Sim.withCacheDown Sim.start))
                                (IsUserNotFoundError
                                   {| UserNotFoundError.userId := "id2" |}))))).
  vm_compute. reflexivity.
Defined.

(** ** The handlers *)

Section Handlers.
Context {S : Type} {platform : Platform S}.

Lemma served_notFound (n : UserNotFoundError.t) :
  served (mapErrorToResponse (IsUserNotFoundError n)) = Some notFound404.
Proof. reflexivity. Qed.

Lemma served_database (d : DatabaseError.t) :
  served (mapErrorToResponse (IsDatabaseError d)) = Some unavailable503.
Proof. reflexivity. Qed.

Lemma served_validation (v : ValidationError.t) :
  served (mapErrorToResponse (IsValidationError v)) = Some (invalid400 v).
Proof. reflexivity. Qed.
End Handlers.

(** X8. With the three services provided [getUserHandler] always
    answers, and with a response ([mapErrorToResponse] never leaves it
    undefined): 200 with the profile when [getUserProfile] succeeds on
    the [id] parameter, 404 when it fails with [UserNotFoundError], 503
    "Service unavailable" when it fails with a [DatabaseError]. It
    never answers 400 nor "Service degraded". *)
Theorem getUserHandler_answers :
  forall S (P : Platform S) B (req : HttpRequest.t B) ctx (w : World S),
    allFound ctx ->
    exists w' response,
      getUserHandler req ctx w = (w', Success (Some response))
      /\ ((exists profile,
              getUserProfile (HttpRequest.params req "id") ctx w = (w', Success profile)
              /\ response = {| Served.status := 200; Served.body := OfProfile profile |})
          \/ (getUserProfile (HttpRequest.params req "id") ctx w
              = (w', Failure (IsUserNotFoundError
                                {| UserNotFoundError.userId := HttpRequest.params req "id" |}))
              /\ response = notFound404)
          \/ (exists d,
                 getUserProfile (HttpRequest.params req "id") ctx w
                 = (w', Failure (IsDatabaseError d))
                 /\ response = unavailable503)).
Proof.
  intros S P B req ctx w Hall. unfold getUserHandler, Effect.catchAll, Effect.map.
  destruct (getUserProfile (HttpRequest.params req "id") ctx w) as [w1 [profile | e | d]]
    eqn:Hrun.
  - exists w1. eexists. split; [reflexivity |]. left. exists profile. split; reflexivity.
  - destruct (getUserProfile_failsOnly _ _ _ _ _ Hrun) as [-> | [d ->]].
    + exists w1, notFound404. split; [reflexivity |]. right. left. split; reflexivity.
    + exists w1, unavailable503. split; [reflexivity |]. right. right. exists d.
      split; reflexivity.
  - destruct (getUserProfile_safe ctx _ Hall _ _ _ Hrun).
Qed.

(** The handler answers 200 for [id1], 404 for an id the table lacks
    and 503 when the database is down. *)
Lemma getUserHandler_examples :
  allFound Sim.withTable
  /\ (exists profile,
         snd (getUserHandler {| HttpRequest.params := fun _ => "id1";
                                HttpRequest.body := tt |} Sim.withTable Sim.start)
         = Success (Some {| Served.status := 200; Served.body := OfProfile profile |}))
  /\ snd (getUserHandler {| HttpRequest.params := fun _ => "id2";
                            HttpRequest.body := tt |} Sim.withTable Sim.start)
     = Success (Some notFound404)
  /\ snd (getUserHandler {| HttpRequest.params := fun _ => "id1";
                            HttpRequest.body := tt |} Sim.withDbDown Sim.start)
     = Success (Some unavailable503)
  /\ exists w' response,
      getUserHandler {| HttpRequest.params := fun _ => "id1"; HttpRequest.body := tt |}
        Sim.withTable Sim.start = (w', Success (Some response)).
Proof.
  assert (Hall : allFound Sim.withTable)
    by (repeat split; eexists; reflexivity).
  split; [exact Hall |].
  split; [eexists; vm_compute; reflexivity |].
  split; [vm_compute; reflexivity |].
  split; [vm_compute; reflexivity |].
  destruct (getUserHandler_answers Sim.State Sim.platform unit
              {| HttpRequest.params := fun _ => "id1"; HttpRequest.body := tt |}
              Sim.withTable Sim.start Hall) as (w' & response & Hrun & _).
  exists w', response. exact Hrun.
Defined.

(** X9. [createUserHandler] casts the body without a check. With a
    logger and a database provided, and a body that is an object with a
    name, it always answers with a response: 201 with the user when
    [registerUser] succeeds, 400 with the message and the field of the
    [ValidationError] when it fails with one (as it does for an absent
    email), 503 "Service unavailable" when it fails with a
    [DatabaseError]; never 404 nor "Service degraded". With an object
    without a name it answers 400 when the email is refused, and else
    ends in a [TypeError] defect; with no body at all it ends in that
    defect too. The defect leaves the world untouched and is not
    caught: the handler gives no response then. *)
Theorem createUserHandler_answers :
  forall S (P : Platform S) (req : HttpRequest.t Body.t) ctx (w : World S),
    (forall email name,
        HttpRequest.body req = Body.Object email (Body.Text name) ->
        storeFound ctx ->
        let input := {| CreateUserInput.email := Body.toString email;
                        CreateUserInput.name := name |} in
        ((forall e, email <> Body.Text e) ->
         registerUser input ctx w = (w, Failure invalidEmail))
        /\ exists w' response,
            createUserHandler req ctx w = (w', Success (Some response))
            /\ ((exists user,
                    registerUser input ctx w = (w', Success user)
                    /\ response = {| Served.status := 201; Served.body := OfUser user |})
                \/ (exists v,
                       registerUser input ctx w = (w', Failure (IsValidationError v))
                       /\ response = invalid400 v)
                \/ (exists d,
                       registerUser input ctx w = (w', Failure (IsDatabaseError d))
                       /\ response = unavailable503)))
    /\ (forall email name,
           HttpRequest.body req = Body.Object email name ->
           (forall n, name <> Body.Text n) ->
           createUserHandler req ctx w
           = (w, if emailRegex_test (Body.toString email) then Die TypeError
                 else Success (served (mapErrorToResponse invalidEmail))))
    /\ (HttpRequest.body req = Body.Nothing ->
        createUserHandler req ctx w = (w, Die TypeError)).
Proof.
  intros S P req ctx w. split; [| split].
  - intros email name Hbody Hfound input. split.
    + intros Habsent.
      destruct email as [| | e]; [reflexivity | reflexivity |].
      destruct (Habsent e eq_refl).
    + unfold createUserHandler, Effect.catchAll, Effect.map. rewrite Hbody.
      cbn [registerUser_unchecked]. fold input.
      destruct (registerUser input ctx w) as [w1 [user | e | d]] eqn:Hrun.
      * exists w1. eexists. split; [reflexivity |]. left. exists user. split; reflexivity.
      * destruct (registerUser_failsOnly _ _ _ _ _ Hrun) as [[v ->] | [d ->]].
        -- exists w1, (invalid400 v). split; [reflexivity |]. right. left. exists v.
           split; reflexivity.
        -- exists w1, unavailable503. split; [reflexivity |]. right. right. exists d.
           split; reflexivity.
      * destruct (registerUser_safe ctx _ Hfound _ _ _ Hrun).
  - intros email name Hbody Hname.
    unfold createUserHandler, Effect.catchAll, Effect.map. rewrite Hbody.
    destruct name as [| | n]; [| | destruct (Hname n eq_refl)];
      cbn [registerUser_unchecked]; unfold Effect.flatMap, validateEmail;
      destruct (emailRegex_test (Body.toString email)); reflexivity.
  - intros Hbody. unfold createUserHandler, Effect.catchAll, Effect.map. rewrite Hbody.
    reflexivity.
Qed.

(** Registering an address the table has is answered 400, a new one
    201, a body without an email 400; a body without a name and no
    body at all are not answered. *)
Lemma createUserHandler_examples :
  let request body := {| HttpRequest.params := fun _ => ""; HttpRequest.body := body |} in
  storeFound Sim.withTable
  /\ snd (createUserHandler
            (request (Body.Object (Body.Text "ada@example.com") (Body.Text "Ada")))
            Sim.withTable Sim.start)
     = Success (Some (invalid400 {| ValidationError.message := "Email already in use";
                                    ValidationError.field := Some "email" |}))
  /\ snd (createUserHandler
            (request (Body.Object Body.Undefined (Body.Text "Bea"))) Sim.withTable Sim.start)
     = Success (Some (invalid400 {| ValidationError.message := "Invalid email format";
                                    ValidationError.field := Some "email" |}))
  /\ (exists w' response,
         createUserHandler
           (request (Body.Object (Body.Text "bea@example.com") (Body.Text "Bea")))
           Sim.withTable Sim.start = (w', Success (Some response)))
  /\ createUserHandler
       (request (Body.Object (Body.Text "bea@example.com") Body.Undefined))
       Sim.withTable Sim.start = (Sim.start, Die TypeError)
  /\ createUserHandler (request Body.Nothing) Sim.withTable Sim.start
     = (Sim.start, Die TypeError).
Proof.
  intros request.
  assert (Hfound : storeFound Sim.withTable) by (split; eexists; reflexivity).
  split; [exact Hfound |]. split; [vm_compute; reflexivity |].
  split; [vm_compute; reflexivity |].
  pose proof (createUserHandler_answers Sim.State Sim.platform) as Hanswers.
  split; [| split].
  - destruct (proj1 (Hanswers (request (Body.Object (Body.Text "bea@example.com")
                                          (Body.Text "Bea")))
                       Sim.withTable Sim.start)
                (Body.Text "bea@example.com") "Bea" eq_refl Hfound)
      as (_ & w' & response & Hrun & _).
    exists w', response. exact Hrun.
  - exact (proj1 (proj2 (Hanswers (request (Body.Object (Body.Text "bea@example.com")
                                              Body.Undefined))
                           Sim.withTable Sim.start))
             (Body.Text "bea@example.com") Body.Undefined eq_refl
             ltac:(intros n; discriminate)).
  - exact (proj2 (proj2 (Hanswers (request Body.Nothing) Sim.withTable Sim.start)) eq_refl).
Defined.

(** X10. [updateEmailHandler] reads the email off the body before it
    builds its effect: with no body at all the read throws a
    [TypeError] and there is no effect to run. With a body that is an
    object there is one and, with the three services provided, it
    always answers with a response: 200 with the updated user when
    [changeEmail] succeeds, 404 when the user is not found, 400 when
    the new email is refused (its shape, as for an absent email, or
    already in use), 503 "Service unavailable" on a [DatabaseError];
    never "Service degraded". *)
Theorem updateEmailHandler_answers :
  forall S (P : Platform S) (req : HttpRequest.t Body.t),
    (HttpRequest.body req = Body.Nothing -> updateEmailHandler (S := S) req = inl TypeError)
    /\ (forall email name,
           HttpRequest.body req = Body.Object email name ->
           let id := HttpRequest.params req "id" in
           let newEmail := Body.toString email in
           exists handler,
             updateEmailHandler req = inr handler
             /\ (forall ctx (w : World S),
                    ((forall e, email <> Body.Text e) ->
                     handler ctx w = (w, Success (Some (invalid400
                       {| ValidationError.message := "Invalid email format";
                          ValidationError.field := Some "email" |}))))
                    /\ (allFound ctx ->
                        exists w' response,
                          handler ctx w = (w', Success (Some response))
                          /\ ((exists user,
                                  changeEmail id newEmail ctx w = (w', Success user)
                                  /\ response = {| Served.status := 200;
                                                   Served.body := OfUser user |})
                              \/ (changeEmail id newEmail ctx w
                                  = (w', Failure (IsUserNotFoundError
                                                    {| UserNotFoundError.userId := id |}))
                                  /\ response = notFound404)
                              \/ (exists v,
                                     changeEmail id newEmail ctx w
                                     = (w', Failure (IsValidationError v))
                                     /\ (IsValidationError v = emailInUse
                                         \/ IsValidationError v = invalidEmail)
                                     /\ response = invalid400 v)
                              \/ (exists d,
                                     changeEmail id newEmail ctx w
                                     = (w', Failure (IsDatabaseError d))
                                     /\ response = unavailable503))))).
Proof.
  intros S P req. split.
  - intros Hbody. unfold updateEmailHandler. rewrite Hbody. reflexivity.
  - intros email name Hbody id newEmail. unfold updateEmailHandler. rewrite Hbody.
    eexists. split; [reflexivity |]. intros ctx w. fold id. fold newEmail. split.
    + intros Habsent. unfold Effect.catchAll, Effect.map, changeEmail, validateEmail.
      destruct email as [| | e]; [reflexivity | reflexivity |].
      destruct (Habsent e eq_refl).
    + intros Hall. unfold Effect.catchAll, Effect.map.
      destruct (changeEmail id newEmail ctx w) as [w1 [user | e | d]] eqn:Hrun.
      * exists w1. eexists. split; [reflexivity |]. left. exists user. split; reflexivity.
      * destruct (changeEmail_failsOnly _ _ _ _ _ _ Hrun) as [[[-> | [d ->]] | ->] | ->].
        -- exists w1, notFound404. split; [reflexivity |]. right. left. split; reflexivity.
        -- exists w1, unavailable503. split; [reflexivity |]. right. right. right. exists d.
           split; reflexivity.
        -- eexists w1, _. split; [reflexivity |]. right. right. left. eexists.
           split; [reflexivity |]. split; [left; reflexivity | reflexivity].
        -- eexists w1, _. split; [reflexivity |]. right. right. left. eexists.
           split; [reflexivity |]. split; [right; reflexivity | reflexivity].
      * destruct (changeEmail_safe ctx _ _ Hall _ _ _ Hrun).
Qed.

(** Changing the email of a user the table lacks is answered 404, a
    body without an email 400; with no body there is no handler to
    run. *)
Lemma updateEmailHandler_examples :
  let request id body := {| HttpRequest.params := fun _ : string => id;
                            HttpRequest.body := body |} in
  allFound Sim.withTable
  /\ updateEmailHandler (S := Sim.State) (request "id1" Body.Nothing) = inl TypeError
  /\ exists missing absent changed,
      updateEmailHandler
        (request "id2" (Body.Object (Body.Text "new@example.com") Body.Undefined))
      = inr missing
      /\ snd (missing Sim.withTable Sim.start) = Success (Some notFound404)
      /\ updateEmailHandler (request "id1" (Body.Object Body.Null Body.Undefined))
         = inr absent
      /\ absent Sim.withTable Sim.start
         = (Sim.start, Success (Some (invalid400
              {| ValidationError.message := "Invalid email format";
                 ValidationError.field := Some "email" |})))
      /\ updateEmailHandler
           (request "id1" (Body.Object (Body.Text "new@example.com") Body.Undefined))
         = inr changed
      /\ exists w' response,
          changed Sim.withTable Sim.start = (w', Success (Some response)).
Proof.
  intros request.
  assert (Hall : allFound Sim.withTable) by (repeat split; eexists; reflexivity).
  pose proof (updateEmailHandler_answers Sim.State Sim.platform) as Hanswers.
  split; [exact Hall |].
  split; [exact (proj1 (Hanswers (request "id1" Body.Nothing)) eq_refl) |].
  destruct (proj2 (Hanswers (request "id1" (Body.Object Body.Null Body.Undefined)))
              Body.Null Body.Undefined eq_refl)
    as (absent & Habsent & Hrefused).
  destruct (proj2 (Hanswers (request "id1" (Body.Object (Body.Text "new@example.com")
                                              Body.Undefined)))
              (Body.Text "new@example.com") Body.Undefined eq_refl)
    as (changed & Hchanged & Hanswered).
  eexists. exists absent, changed.
  split; [reflexivity |]. split; [vm_compute; reflexivity |].
  split; [exact Habsent |].
  split; [exact (proj1 (Hrefused Sim.withTable Sim.start) ltac:(intros e; discriminate)) |].
  split; [exact Hchanged |].
  destruct (proj2 (Hanswered Sim.withTable Sim.start) Hall) as (w' & response & Hrun & _).
  exists w', response. exact Hrun.
Defined.

(** ** Refusals *)

Section Refusals.
Context {S : Type} {platform : Platform S}.

Lemma quiet_of_appends {A} (self : Effect.Effect S UserError A) :
  appends (fun ev => isMutation ev = false) self -> refusesQuietly self.
Proof. intros Hself ctx w w' e Hrun _. exact (Hself _ _ _ _ Hrun). Qed.

Lemma quiet_of_failsOnly {A} (self : Effect.Effect S UserError A) :
  failsOnly (fun e => _tag e = "DatabaseError") self -> refusesQuietly self.
Proof. intros Hself ctx w w' e Hrun Htag. destruct (Htag (Hself _ _ _ _ Hrun)). Qed.

Lemma quiet_flatMap_before {A B} (self : Effect.Effect S UserError A)
    (f : A -> Effect.Effect S UserError B) :
  appends (fun ev => isMutation ev = false) self ->
  (forall a, refusesQuietly (f a)) ->
  refusesQuietly (Effect.flatMap self f).
Proof.
  intros Hself Hf ctx w w' e Hrun Htag.
  apply flatMap_Failure_inv in Hrun as [Hfirst | (w1 & a & Hfirst & Hsecond)].
  - exact (Hself _ _ _ _ Hfirst).
  - apply (appends_then _ self ctx w w1 w' _ Hself Hfirst).
    exact (Hf a _ _ _ _ Hsecond Htag).
Qed.

Lemma quiet_flatMap_after {A B} (self : Effect.Effect S UserError A)
    (f : A -> Effect.Effect S UserError B) :
  refusesQuietly self ->
  (forall a, failsOnly (fun e => _tag e = "DatabaseError") (f a)) ->
  refusesQuietly (Effect.flatMap self f).
Proof.
  intros Hself Hf ctx w w' e Hrun Htag.
  apply flatMap_Failure_inv in Hrun as [Hfirst | (w1 & a & _ & Hsecond)].
  - exact (Hself _ _ _ _ Hfirst Htag).
  - destruct (Htag (Hf a _ _ _ _ Hsecond)).
Qed.

Lemma findUserById_no_mutation (id : string) :
  appends (fun ev => isMutation ev = false) (findUserById (S := S) id).
Proof. unfold findUserById. traced. Qed.

Lemma findUserByEmail_no_mutation (email : string) :
  appends (fun ev => isMutation ev = false) (findUserByEmail (S := S) email).
Proof. unfold findUserByEmail. traced. Qed.

Lemma execute_failsOnly_database {A} (db : Database.Service S) sql params
    (rest : Effect.Effect S UserError A) :
  failsOnly (fun e => _tag e = "DatabaseError") rest ->
  refusesQuietly (yield* db_execute db sql params ;; rest).
Proof.
  intros Hrest. apply quiet_flatMap_after.
  - apply quiet_of_failsOnly. apply failsOnly_call. reflexivity.
  - intros _. exact Hrest.
Qed.

Lemma createUser_refusesQuietly (input : CreateUserInput.t) :
  refusesQuietly (createUser (S := S) input).
Proof.
  unfold createUser.
  apply quiet_flatMap_before; [apply appends_service | intros logger].
  apply quiet_flatMap_before; [apply appends_service | intros db].
  apply quiet_flatMap_before; [apply appends_call; reflexivity | intros _].
  apply quiet_flatMap_before; [apply findUserByEmail_no_mutation | intros [existing |]].
  - apply quiet_of_appends. apply appends_fail.
  - apply quiet_flatMap_before; [apply appends_sync | intros uuid].
    apply quiet_flatMap_before; [apply appends_sync | intros now].
    apply execute_failsOnly_database. apply failsOnly_succeed.
Qed.

Lemma registerUser_refusesQuietly (input : CreateUserInput.t) :
  refusesQuietly (registerUser (S := S) input).
Proof.
  unfold registerUser.
  apply quiet_flatMap_before.
  { unfold validateEmail. destruct (emailRegex_test _); traced. }
  intros _. apply quiet_flatMap_before.
  { unfold validateName. destruct (2 <=? _)%nat; traced. }
  intros _. apply createUser_refusesQuietly.
Qed.

Lemma updateUser_refusesQuietly (id : string) (input : UpdateUserInput.t) :
  refusesQuietly (updateUser (S := S) id input).
Proof.
  unfold updateUser.
  apply quiet_flatMap_before; [apply appends_service | intros logger].
  apply quiet_flatMap_before; [apply appends_service | intros db].
  apply quiet_flatMap_before; [apply appends_service | intros cache].
  apply quiet_flatMap_before; [apply appends_call; reflexivity | intros _].
  apply quiet_flatMap_before; [apply findUserById_no_mutation | intros user].
  apply quiet_flatMap_before.
  { destruct (UpdateUserInput.email input) as [email |]; [| apply appends_succeed].
    destruct (truthy email && negb (String.eqb email (User.email user)));
      [| apply appends_succeed].
    apply appends_flatMap; [apply findUserByEmail_no_mutation |].
    intros [existing |]; [apply appends_fail | apply appends_succeed]. }
  intros _. apply execute_failsOnly_database.
  apply failsOnly_flatMap; [| intros _; apply failsOnly_succeed].
  unfold cache_delete. apply failsOnly_cache_recovered. intros e.
  apply failsOnly_log_error.
Qed.

Lemma changeEmail_refusesQuietly (userId newEmail : string) :
  refusesQuietly (changeEmail (S := S) userId newEmail).
Proof.
  unfold changeEmail. apply quiet_flatMap_before.
  { unfold validateEmail. destruct (emailRegex_test _); traced. }
  intros _. apply updateUser_refusesQuietly.
Qed.

Lemma deleteUser_refusesQuietly (id : string) :
  refusesQuietly (deleteUser (S := S) id).
Proof.
  unfold deleteUser.
  apply quiet_flatMap_before; [apply appends_service | intros logger].
  apply quiet_flatMap_before; [apply appends_service | intros db].
  apply quiet_flatMap_before; [apply appends_service | intros cache].
  apply quiet_flatMap_before; [apply appends_call; reflexivity | intros _].
  apply quiet_flatMap_before; [apply findUserById_no_mutation | intros user].
  apply execute_failsOnly_database.
  unfold cache_delete. apply failsOnly_cache_recovered. intros e.
  apply failsOnly_log_error.
Qed.
End Refusals.

(** X11. With the services it asks for in the context, no repository
    function ends in a defect: with a logger, a cache and a database,
    [findUserById], [getUserProfile], [updateUser], [changeEmail],
    [deleteUser] and [processUserBatch]; with a logger and a database,
    [findUserByEmail], [createUser] and [registerUser]. *)
Theorem services_provided_no_defect :
  forall S (P : Platform S) ctx (w w' : World S) (d : Defect),
    (allFound ctx ->
     (forall id, findUserById id ctx w <> (w', Die d))
     /\ (forall userId, getUserProfile userId ctx w <> (w', Die d))
     /\ (forall id input, updateUser id input ctx w <> (w', Die d))
     /\ (forall userId newEmail, changeEmail userId newEmail ctx w <> (w', Die d))
     /\ (forall id, deleteUser id ctx w <> (w', Die d))
     /\ (forall userIds, processUserBatch userIds ctx w <> (w', Die d)))
    /\ (storeFound ctx ->
        (forall email, findUserByEmail email ctx w <> (w', Die d))
        /\ (forall input, createUser input ctx w <> (w', Die d))
        /\ (forall input, registerUser input ctx w <> (w', Die d))).
Proof.
  intros S P ctx w w' d. split.
  - intros Hall. repeat split; intros.
    + apply findUserById_safe. exact Hall.
    + apply getUserProfile_safe. exact Hall.
    + apply updateUser_safe. exact Hall.
    + apply changeEmail_safe. exact Hall.
    + apply deleteUser_safe. exact Hall.
    + apply processUserBatch_safe. exact Hall.
  - intros Hfound. repeat split; intros.
    + apply findUserByEmail_safe. exact Hfound.
    + apply createUser_safe. exact Hfound.
    + apply registerUser_safe. exact Hfound.
Qed.

(** [AppLayerTest] has the three services: no batch run against it ends
    in a defect. *)
Lemma AppLayerTest_no_defect_example :
  allFound (AppLayerTest (S := Sim.State))
  /\ processUserBatch ["id1"; "id2"] AppLayerTest Sim.start
     <> (Sim.start, Die (ServiceNotFound "Cache")).
Proof.
  assert (Hall : allFound (AppLayerTest (S := Sim.State)))
    by (repeat split; eexists; reflexivity).
  split; [exact Hall |].
  apply (proj1 (services_provided_no_defect Sim.State Sim.platform AppLayerTest Sim.start
                  Sim.start (ServiceNotFound "Cache")) Hall).
Defined.

(** X12. The lookups only read: whatever the context and the world,
    a run of [findUserById], of [getUserProfile] or of
    [processUserBatch] leaves the trace it found and adds no statement
    sent to [db.execute] and no cache deletion; and a run of
    [findUserByEmail], of [createUser] or of [registerUser] adds no
    call of the cache. *)
Theorem lookups_only_read :
  forall S (P : Platform S) ctx (w : World S),
    (forall id, exists new,
        trace (fst (findUserById id ctx w)) = (trace w ++ new)%list
        /\ Forall (fun ev => isMutation ev = false) new)
    /\ (forall userId, exists new,
           trace (fst (getUserProfile userId ctx w)) = (trace w ++ new)%list
           /\ Forall (fun ev => isMutation ev = false) new)
    /\ (forall userIds, exists new,
           trace (fst (processUserBatch userIds ctx w)) = (trace w ++ new)%list
           /\ Forall (fun ev => isMutation ev = false) new)
    /\ (forall email, exists new,
           trace (fst (findUserByEmail email ctx w)) = (trace w ++ new)%list
           /\ Forall (fun ev => isCacheCall ev = false) new)
    /\ (forall input, exists new,
           trace (fst (createUser input ctx w)) = (trace w ++ new)%list
           /\ Forall (fun ev => isCacheCall ev = false) new)
    /\ (forall input, exists new,
           trace (fst (registerUser input ctx w)) = (trace w ++ new)%list
           /\ Forall (fun ev => isCacheCall ev = false) new).
Proof.
  intros S P ctx w.
  assert (Hfst : forall E A (ok : Event -> Prop) (self : Effect.Effect S E A),
             appends ok self ->
             exists new, trace (fst (self ctx w)) = (trace w ++ new)%list /\ Forall ok new).
  { intros E A ok self Hself. destruct (self ctx w) as [w' exit] eqn:Hrun.
    exact (Hself _ _ _ _ Hrun). }
  repeat split; intros; apply Hfst.
  - apply findUserById_no_mutation.
  - unfold getUserProfile. apply appends_flatMap; [apply findUserById_no_mutation |].
    intros user. traced.
  - unfold processUserBatch. apply appends_map. apply appends_partition.
    intros userId. apply appends_map. unfold getUserProfile.
    apply appends_flatMap; [apply findUserById_no_mutation |]. intros user. traced.
  - eapply appends_weaken; [| apply findUserByEmail_trace]. intros ev [Hcache _]. exact Hcache.
  - apply createUser_no_cache.
  - apply registerUser_no_cache.
Qed.

(** X13. A write that is refused has written nothing: when
    [createUser], [registerUser], [updateUser], [changeEmail] or
    [deleteUser] fails with an error other than a [DatabaseError] (a
    [ValidationError], a [UserNotFoundError]), the trace gained no
    statement sent to [db.execute] and no cache deletion. *)
Theorem refused_writes_change_nothing :
  forall S (P : Platform S) ctx (w w' : World S) (e : UserError),
    _tag e <> "DatabaseError" ->
    (forall input, createUser input ctx w = (w', Failure e) ->
       exists new, trace w' = (trace w ++ new)%list
                   /\ Forall (fun ev => isMutation ev = false) new)
    /\ (forall input, registerUser input ctx w = (w', Failure e) ->
          exists new, trace w' = (trace w ++ new)%list
                      /\ Forall (fun ev => isMutation ev = false) new)
    /\ (forall id input, updateUser id input ctx w = (w', Failure e) ->
          exists new, trace w' = (trace w ++ new)%list
                      /\ Forall (fun ev => isMutation ev = false) new)
    /\ (forall userId newEmail, changeEmail userId newEmail ctx w = (w', Failure e) ->
          exists new, trace w' = (trace w ++ new)%list
                      /\ Forall (fun ev => isMutation ev = false) new)
    /\ (forall id, deleteUser id ctx w = (w', Failure e) ->
          exists new, trace w' = (trace w ++ new)%list
                      /\ Forall (fun ev => isMutation ev = false) new).
Proof.
  intros S P ctx w w' e Htag. repeat split; intros.
  - eapply createUser_refusesQuietly; eassumption.
  - eapply registerUser_refusesQuietly; eassumption.
  - eapply updateUser_refusesQuietly; eassumption.
  - eapply changeEmail_refusesQuietly; eassumption.
  - eapply deleteUser_refusesQuietly; eassumption.
Qed.

(** Changing the email of [id3] to the one [id1] has is refused, and
    no statement was sent. *)
Lemma refused_update_example :
  let input := {| UpdateUserInput.email := Some "ada@example.com";
                  UpdateUserInput.name := None;
                  UpdateUserInput.ownKeys := ["email"] |} in
  snd (updateUser "id3" input Sim.withTable Sim.start) = Failure emailInUse
  /\ exists new,
      trace (fst (updateUser "id3" input Sim.withTable Sim.start))
      = (trace Sim.start ++ new)%list
      /\ Forall (fun ev => isMutation ev = false) new.
Proof.
  intros input. split; [vm_compute; reflexivity |].
  apply (proj1 (proj2 (proj2 (refused_writes_change_nothing Sim.State Sim.platform
                                Sim.withTable Sim.start
                                (fst (updateUser "id3" input Sim.withTable Sim.start))
                                emailInUse ltac:(discriminate)))) "id3" input).
  vm_compute. reflexivity.
Defined.

(** ** Writes *)

Section Writes.
Context {S : Type} {platform : Platform S}.
Implicit Types (ctx : gmap string (Service S)).

Lemma sync_Success_inv {E A} (op : S -> S * A) ctx (w w' : World S) (a : A) :
  Effect.sync (E := E) op ctx w = (w', Success a) -> trace w' = trace w.
Proof.
  unfold Effect.sync. destruct (op (store w)) as [s' a']. intros Hrun.
  injection Hrun as <- _. reflexivity.
Qed.

Lemma call_Success_inv {E0 E A} ev (up : E0 -> E) (op : ServiceEffect S E0 A)
    ctx (w w' : World S) (a : A) :
  Effect.call ev up op ctx w = (w', Success a) -> trace w' = (trace w ++ [ev])%list.
Proof.
  rewrite call_run. intros Hrun. injection Hrun as <- _. reflexivity.
Qed.

(** The invalidation that closes [updateUser] and [deleteUser]: it
    succeeds whatever the cache answers. *)
Lemma invalidation_run (logger : Logger.Service S) (cache : Cache.Service S)
    (key message : string) meta ctx (w w' : World S) exit :
  Effect.catchTag "CacheError"
    (fun error => log_error logger message (Some (UError error)) meta)
    (cache_delete cache key) ctx w = (w', exit) ->
  exit = Success tt
  /\ exists after,
      trace w' = (trace w ++ CacheDelete key :: after)%list
      /\ Forall (fun ev => isMutation ev = false) after.
Proof.
  unfold Effect.catchTag, cache_delete. rewrite call_run.
  destruct (snd (Cache.delete cache key (store w))) as [c | []].
  - cbn [_tag UserError_tagged String.eqb Ascii.eqb Bool.eqb]. rewrite log_error_run.
    intros Hrun. injection Hrun as <- <-. split; [reflexivity |].
    exists [LogError message (Some (UError (IsCacheError c))) meta]. split.
    + unfold noted. cbn [trace]. rewrite <- List.app_assoc. reflexivity.
    + constructor; [reflexivity | constructor].
  - intros Hrun. injection Hrun as <- <-. split; [reflexivity |].
    exists []. split; [reflexivity | constructor].
Qed.

(** The same run, read forwards from the answer of the cache. *)
Lemma invalidation_answer (logger : Logger.Service S) (cache : Cache.Service S)
    (key message : string) meta ctx (w : World S) s4 deleted :
  Cache.delete cache key (store w) = (s4, deleted) ->
  exists w',
    Effect.catchTag "CacheError"
      (fun error => log_error logger message (Some (UError error)) meta)
      (cache_delete cache key) ctx w = (w', Success tt)
    /\ trace w' =
       (trace w ++ CacheDelete key
                   :: match deleted with
                      | inl c => [LogError message (Some (UError (IsCacheError c))) meta]
                      | inr _ => []
                      end)%list.
Proof.
  intros Hdelete. unfold Effect.catchTag, cache_delete. rewrite call_run, Hdelete.
  destruct deleted as [c | []]; cbn [fst snd].
  - cbn [_tag UserError_tagged String.eqb Ascii.eqb Bool.eqb]. rewrite log_error_run.
    eexists. split; [reflexivity |].
    unfold noted. cbn [trace]. rewrite <- List.app_assoc. reflexivity.
  - eexists. split; [reflexivity |]. reflexivity.
Qed.
End Writes.

(** X14. The user [createUser] returns is the user it inserted: it has
    the email and the name of the input, and the last event of the run
    is the [INSERT] statement with the id, the email, the name and the
    creation date of the returned user; nothing else was executed or
    deleted before. *)
Theorem createUser_returns_what_it_inserted :
  forall S (P : Platform S) (input : CreateUserInput.t) ctx (w w' : World S) (user : User.t),
    createUser input ctx w = (w', Success user) ->
    User.email user = CreateUserInput.email input
    /\ User.name user = CreateUserInput.name input
    /\ exists before,
        trace w' =
          (trace w ++ before
           ++ [DbExecute "INSERT INTO users (id, email, name, created_at) VALUES (?, ?, ?, ?)"
                 [VString (User.id user); VString (User.email user);
                  VString (User.name user); VDate (User.createdAt user)]])%list
        /\ Forall (fun ev => isMutation ev = false) before.
Proof.
  intros S P input ctx w w' user Hrun. unfold createUser in Hrun.
  apply flatMap_Success_inv in Hrun as (wa & logger & Hlogger & Hrun).
  apply flatMap_Success_inv in Hrun as (wb & db & Hdb & Hrun).
  apply service_Success_inv in Hlogger as [-> _].
  apply service_Success_inv in Hdb as [-> _].
  apply flatMap_Success_inv in Hrun as (wl & [] & Hinfo & Hrun).
  apply flatMap_Success_inv in Hrun as (w1 & existing & Hfind & Hrun).
  destruct existing as [found |]; [discriminate Hrun |].
  apply flatMap_Success_inv in Hrun as (w2 & uuid & Huuid & Hrun).
  apply flatMap_Success_inv in Hrun as (w3 & now & Hnow & Hrun).
  apply flatMap_Success_inv in Hrun as (w4 & [] & Hexecute & Hrun).
  injection Hrun as <- <-. cbn [User.id User.email User.name User.createdAt].
  split; [reflexivity |]. split; [reflexivity |].
  unfold db_execute in Hexecute. apply call_Success_inv in Hexecute.
  apply sync_Success_inv in Huuid. apply sync_Success_inv in Hnow.
  rewrite log_info_run in Hinfo. injection Hinfo as <-.
  destruct (findUserByEmail_no_mutation _ _ _ _ _ Hfind) as (new & Htrace & Hnew).
  exists (LogInfo "Creating new user"
            (Some [("email", VString (CreateUserInput.email input))]) :: new).
  split.
  - rewrite Hexecute, Hnow, Huuid, Htrace. unfold noted. cbn [trace].
    rewrite <- !List.app_assoc. reflexivity.
  - constructor; [reflexivity | exact Hnew].
Qed.

(** Creating a user with a new address: the returned user is the one
    in the [INSERT]. *)
Lemma createUser_insert_example :
  let input := {| CreateUserInput.email := "bea@example.com"; CreateUserInput.name := "Bea" |} in
  let user := {| User.id := "u-1"; User.email := "bea@example.com"; User.name := "Bea";
                 User.createdAt := 864000000 |} in
  snd (createUser input Sim.withTable Sim.start) = Success user
  /\ User.email user = CreateUserInput.email input
  /\ User.name user = CreateUserInput.name input
  /\ exists before,
      trace (fst (createUser input Sim.withTable Sim.start)) =
        (trace Sim.start ++ before
         ++ [DbExecute "INSERT INTO users (id, email, name, created_at) VALUES (?, ?, ?, ?)"
               [VString (User.id user); VString (User.email user);
                VString (User.name user); VDate (User.createdAt user)]])%list
      /\ Forall (fun ev => isMutation ev = false) before.
Proof.
  intros input user. split; [vm_compute; reflexivity |].
  apply (createUser_returns_what_it_inserted Sim.State Sim.platform input Sim.withTable
           Sim.start (fst (createUser input Sim.withTable Sim.start)) user).
  vm_compute. reflexivity.
Defined.

(** X15. A successful [updateUser] sends exactly one statement, the
    [UPDATE] with the email and the name of the returned user and the
    id, and right after it deletes the cache entry [user:<id>]; nothing
    else is executed or deleted, before or after. *)
Theorem updateUser_writes_then_invalidates :
  forall S (P : Platform S) (id : string) (input : UpdateUserInput.t) ctx
         (w w' : World S) (updated : User.t),
    updateUser id input ctx w = (w', Success updated) ->
    exists before after,
      trace w' =
        (trace w ++ before
         ++ [DbExecute "UPDATE users SET email = ?, name = ? WHERE id = ?"
               [VString (User.email updated); VString (User.name updated); VString id];
             CacheDelete ("user:" ++ id)]
         ++ after)%list
      /\ Forall (fun ev => isMutation ev = false) before
      /\ Forall (fun ev => isMutation ev = false) after.
Proof.
  intros S P id input ctx w w' updated Hrun. unfold updateUser in Hrun.
  apply flatMap_Success_inv in Hrun as (wa & logger & Hlogger & Hrun).
  apply flatMap_Success_inv in Hrun as (wb & db & Hdb & Hrun).
  apply flatMap_Success_inv in Hrun as (wc & cache & Hcache & Hrun).
  apply service_Success_inv in Hlogger as [-> _].
  apply service_Success_inv in Hdb as [-> _].
  apply service_Success_inv in Hcache as [-> _].
  apply flatMap_Success_inv in Hrun as (wl & [] & Hinfo & Hrun).
  apply flatMap_Success_inv in Hrun as (w1 & user & Hfind & Hrun).
  apply flatMap_Success_inv in Hrun as (w2 & [] & Hcheck & Hrun).
  apply flatMap_Success_inv in Hrun as (w3 & [] & Hexecute & Hrun).
  apply flatMap_Success_inv in Hrun as (w4 & [] & Hdelete & Hrun).
  injection Hrun as <- <-. cbn [User.email User.name].
  unfold db_execute in Hexecute. apply call_Success_inv in Hexecute.
  apply invalidation_run in Hdelete as (_ & after & Hafter & Hquiet).
  rewrite log_info_run in Hinfo. injection Hinfo as <-.
  destruct (findUserById_no_mutation _ _ _ _ _ Hfind) as (new1 & Htrace1 & Hnew1).
  assert (Hchecked : exists new2, trace w2 = (trace w1 ++ new2)%list
                                  /\ Forall (fun ev => isMutation ev = false) new2).
  { revert Hcheck.
    destruct (UpdateUserInput.email input) as [email |].
    - destruct (truthy email && negb (String.eqb email (User.email user))).
      + intros Hcheck. apply flatMap_Success_inv in Hcheck as (w5 & existing & Hemail & Hrest).
        destruct (findUserByEmail_no_mutation _ _ _ _ _ Hemail) as (new & Htrace & Hnew).
        destruct existing as [found |]; [discriminate Hrest |].
        injection Hrest as <-. exists new. split; assumption.
      + intros Hcheck. injection Hcheck as <-. exists []. split; [| constructor].
        rewrite List.app_nil_r. reflexivity.
    - intros Hcheck. injection Hcheck as <-. exists []. split; [| constructor].
      rewrite List.app_nil_r. reflexivity. }
  destruct Hchecked as (new2 & Htrace2 & Hnew2).
  exists (LogInfo "Updating user"
            (Some [("userId", VString id); ("fields", VArray (keys input))])
          :: new1 ++ new2)%list, after.
  split; [| split; [| exact Hquiet]].
  - rewrite Hafter, Hexecute, Htrace2, Htrace1. unfold noted. cbn [trace].
    rewrite <- !List.app_assoc. cbn [app User.email User.name].
    rewrite <- ?List.app_assoc. reflexivity.
  - constructor; [reflexivity |]. apply List.Forall_app. split; assumption.
Qed.

(** Renaming [id1]: one [UPDATE] with the new name, then the deletion
    of [user:id1]. *)
Lemma updateUser_write_example :
  let input := {| UpdateUserInput.email := None; UpdateUserInput.name := Some "Ada L.";
                  UpdateUserInput.ownKeys := ["name"] |} in
  let updated := {| User.id := "id1"; User.email := "ada@example.com";
                    User.name := "Ada L."; User.createdAt := 0 |} in
  snd (updateUser "id1" input Sim.withTable Sim.start) = Success updated
  /\ exists before after,
      trace (fst (updateUser "id1" input Sim.withTable Sim.start)) =
        (trace Sim.start ++ before
         ++ [DbExecute "UPDATE users SET email = ?, name = ? WHERE id = ?"
               [VString (User.email updated); VString (User.name updated); VString "id1"];
             CacheDelete ("user:" ++ "id1")]
         ++ after)%list
      /\ Forall (fun ev => isMutation ev = false) before
      /\ Forall (fun ev => isMutation ev = false) after.
Proof.
  intros input updated. split; [vm_compute; reflexivity |].
  apply (updateUser_writes_then_invalidates Sim.State Sim.platform "id1" input Sim.withTable
           Sim.start (fst (updateUser "id1" input Sim.withTable Sim.start)) updated).
  vm_compute. reflexivity.
Defined.

(** X16. [deleteUser] succeeds only for a user [findUserById] found,
    right after the deletion was announced in the log; it then sends
    exactly one statement, the [DELETE] with the id, and right after it
    deletes the cache entry [user:<id>]. Conversely, once the user is
    found and the [DELETE] is accepted, [deleteUser] succeeds whatever
    the cache answers: when the cache deletion succeeds it is the last
    event, and when it fails with a [CacheError] it is followed by one
    line of the error log, "Failed to invalidate user cache after
    delete" with that error, and by nothing else. *)
Theorem deleteUser_deletes_then_invalidates :
  forall S (P : Platform S) (id : string) ctx (w : World S),
    (forall w',
        deleteUser id ctx w = (w', Success tt) ->
        (exists wl w1 user,
            trace wl = (trace w ++ [LogInfo "Deleting user" (userMeta id)])%list
            /\ findUserById id ctx wl = (w1, Success user))
        /\ exists before after,
            trace w' =
              (trace w ++ before
               ++ [DbExecute "DELETE FROM users WHERE id = ?" [VString id];
                   CacheDelete ("user:" ++ id)]
               ++ after)%list
            /\ Forall (fun ev => isMutation ev = false) before
            /\ Forall (fun ev => isMutation ev = false) after)
    /\ (forall logger db cache w1 user s3 s4 deleted,
           Context.get ctx Logger = Some logger ->
           Context.get ctx Database = Some db ->
           Context.get ctx Cache = Some cache ->
           findUserById id ctx
             (noted (LogInfo "Deleting user" (userMeta id))
                (fst (Logger.info logger "Deleting user" (userMeta id) (store w))) w)
           = (w1, Success user) ->
           Database.execute db "DELETE FROM users WHERE id = ?" [VString id] (store w1)
           = (s3, inr tt) ->
           Cache.delete cache ("user:" ++ id) s3 = (s4, deleted) ->
           exists w',
             deleteUser id ctx w = (w', Success tt)
             /\ trace w' =
                (trace w1
                 ++ [DbExecute "DELETE FROM users WHERE id = ?" [VString id];
                     CacheDelete ("user:" ++ id)]
                 ++ match deleted with
                    | inl c => [LogError "Failed to invalidate user cache after delete"
                                  (Some (UError (IsCacheError c))) (userMeta id)]
                    | inr _ => []
                    end)%list).
Proof.
  intros S P id ctx w. split.
  - intros w' Hrun. unfold deleteUser in Hrun.
    apply flatMap_Success_inv in Hrun as (wa & logger & Hlogger & Hrun).
    apply flatMap_Success_inv in Hrun as (wb & db & Hdb & Hrun).
    apply flatMap_Success_inv in Hrun as (wc & cache & Hcache & Hrun).
    apply service_Success_inv in Hlogger as [-> _].
    apply service_Success_inv in Hdb as [-> _].
    apply service_Success_inv in Hcache as [-> _].
    apply flatMap_Success_inv in Hrun as (wl & [] & Hinfo & Hrun).
    apply flatMap_Success_inv in Hrun as (w1 & user & Hfind & Hrun).
    apply flatMap_Success_inv in Hrun as (w3 & [] & Hexecute & Hdelete).
    unfold db_execute in Hexecute. apply call_Success_inv in Hexecute.
    apply invalidation_run in Hdelete as (_ & after & Hafter & Hquiet).
    rewrite log_info_run in Hinfo. injection Hinfo as <-.
    split.
    + eexists. exists w1, user. split; [| exact Hfind]. reflexivity.
    + destruct (findUserById_no_mutation _ _ _ _ _ Hfind) as (new1 & Htrace1 & Hnew1).
      exists (LogInfo "Deleting user" (userMeta id) :: new1), after.
      split; [| split; [| exact Hquiet]].
      * rewrite Hafter, Hexecute, Htrace1. unfold noted. cbn [trace].
        rewrite <- !List.app_assoc. cbn [app]. reflexivity.
      * constructor; [reflexivity | exact Hnew1].
  - intros logger db cache w1 user s3 s4 deleted Hlogger Hdb Hcache Hfind Hexecute Hdelete.
    unfold deleteUser. do 4 run_step.
    erewrite flatMap_success; [| exact Hfind].
    erewrite flatMap_success;
      [| unfold db_execute; rewrite call_run, Hexecute; reflexivity].
    destruct (invalidation_answer logger cache ("user:" ++ id)
                "Failed to invalidate user cache after delete" (userMeta id) ctx
                (noted (DbExecute "DELETE FROM users WHERE id = ?" [VString id]) s3 w1)
                s4 deleted Hdelete) as (w' & Hrun & Htrace).
    exists w'. split; [exact Hrun |].
    rewrite Htrace. unfold noted. cbn [trace]. rewrite <- !List.app_assoc. reflexivity.
Qed.

(** With the cache down, deleting [id1] succeeds: the [DELETE], the
    attempt on the cache, and its failure in the log. *)
Lemma deleteUser_cache_down_write_example :
  exists w',
    deleteUser "id1" Sim.withCacheDown Sim.start = (w', Success tt)
    /\ trace w' =
       (trace (fst (findUserById "id1" Sim.withCacheDown
                      (noted (LogInfo "Deleting user" (userMeta "id1"))
                         (store Sim.start) Sim.start)))
        ++ [DbExecute "DELETE FROM users WHERE id = ?" [VString "id1"];
            CacheDelete ("user:" ++ "id1")]
        ++ [LogError "Failed to invalidate user cache after delete"
              (Some (UError (IsCacheError Sim.unreachable))) (userMeta "id1")])%list.
Proof.
  apply (proj2 (deleteUser_deletes_then_invalidates Sim.State Sim.platform "id1"
                  Sim.withCacheDown Sim.start)
           Sim.silent Sim.tableDb Sim.downCache
           (fst (findUserById "id1" Sim.withCacheDown
                   (noted (LogInfo "Deleting user" (userMeta "id1"))
                      (store Sim.start) Sim.start)))
           Sim.id1 (store Sim.start) (store Sim.start) (inl Sim.unreachable)
           eq_refl eq_refl eq_refl).
  - vm_compute. reflexivity.
  - reflexivity.
  - reflexivity.
Defined.

(** X17. [updateUser] looks the new email up only when the input has
    an email that is not the empty string and differs from the stored
    one: then a successful update has sent the query by email, with the
    new email, and otherwise (no email, the empty string, the stored
    email) it has sent none. In particular the empty string passes
    unchecked and becomes the email of the returned user. *)
Theorem updateUser_checks_email_only_when_changed :
  forall S (P : Platform S) (id : string) (input : UpdateUserInput.t) ctx
         (w w' : World S) (updated : User.t),
    updateUser id input ctx w = (w', Success updated) ->
    exists wl w1 user new,
      findUserById id ctx wl = (w1, Success user)
      /\ trace w' = (trace w ++ new)%list
      /\ (checksEmail input user = false ->
          Forall (fun ev => isEmailQuery ev = false) new)
      /\ (checksEmail input user = true ->
          In (DbQuery "SELECT * FROM users WHERE email = ?" [VString (User.email updated)])
             new)
      /\ (UpdateUserInput.email input = Some "" ->
          checksEmail input user = false /\ User.email updated = "").
Proof.
  intros S P id input ctx w w' updated Hrun. unfold updateUser in Hrun.
  apply flatMap_Success_inv in Hrun as (wa & logger & Hlogger & Hrun).
  apply flatMap_Success_inv in Hrun as (wb & db & Hdb & Hrun).
  apply flatMap_Success_inv in Hrun as (wc & cache & Hcache & Hrun).
  apply service_Success_inv in Hlogger as [-> _].
  apply service_Success_inv in Hdb as [-> _].
  apply service_Success_inv in Hcache as [-> _].
  apply flatMap_Success_inv in Hrun as (wl & [] & Hinfo & Hrun).
  apply flatMap_Success_inv in Hrun as (w1 & user & Hfind & Hrun).
  apply flatMap_Success_inv in Hrun as (w2 & [] & Hcheck & Hrun).
  apply flatMap_Success_inv in Hrun as (w3 & [] & Hexecute & Hrun).
  apply flatMap_Success_inv in Hrun as (w4 & [] & Hdelete & Hrun).
  injection Hrun as <- <-. cbn [User.email].
  unfold db_execute in Hexecute. apply call_Success_inv in Hexecute.
  unfold Effect.catchTag, cache_delete in Hdelete. rewrite call_run in Hdelete.
  assert (Hafter : exists after, trace w4 = (trace w3 ++ after)%list
                                 /\ Forall (fun ev => isEmailQuery ev = false) after).
  { revert Hdelete. destruct (snd (Cache.delete cache ("user:" ++ id) (store w3))) as [c | []].
    - cbn [_tag UserError_tagged String.eqb Ascii.eqb Bool.eqb]. rewrite log_error_run.
      intros Hdelete. injection Hdelete as <-. eexists [_; _]. split.
      + unfold noted. cbn [trace]. rewrite <- List.app_assoc. reflexivity.
      + repeat constructor.
    - intros Hdelete. injection Hdelete as <-. eexists [_]. split; [reflexivity |].
      repeat constructor. }
  destruct Hafter as (after & Hafter & Hquiet).
  rewrite log_info_run in Hinfo. injection Hinfo as <-.
  assert (Hlookup : appends (fun ev => isEmailQuery ev = false) (findUserById (S := S) id))
    by (unfold findUserById; traced).
  destruct (Hlookup _ _ _ _ Hfind) as (new1 & Htrace1 & Hnew1).
  assert (Hchecked :
            exists new2, trace w2 = (trace w1 ++ new2)%list
              /\ (checksEmail input user = false -> new2 = [])
              /\ (checksEmail input user = true ->
                  In (DbQuery "SELECT * FROM users WHERE email = ?"
                        [VString (nullish (UpdateUserInput.email input) (User.email user))])
                     new2)).
  { revert Hcheck. unfold checksEmail.
    destruct (UpdateUserInput.email input) as [email |].
    - destruct (truthy email && negb (String.eqb email (User.email user))).
      + intros Hcheck. apply flatMap_Success_inv in Hcheck as (w5 & existing & Hemail & Hrest).
        destruct existing as [found |]; [discriminate Hrest |]. injection Hrest as <-.
        unfold findUserByEmail in Hemail.
        apply flatMap_Success_inv in Hemail as (wd & logger' & Hlogger' & Hemail).
        apply flatMap_Success_inv in Hemail as (we & db' & Hdb' & Hemail).
        apply service_Success_inv in Hlogger' as [-> _].
        apply service_Success_inv in Hdb' as [-> _].
        apply flatMap_Success_inv in Hemail as (wf & [] & Hdebug & Hemail).
        apply flatMap_Success_inv in Hemail as (wg & results & Hquery & Hemail).
        injection Hemail as <- _. rewrite log_debug_run in Hdebug. injection Hdebug as <-.
        unfold db_query in Hquery. apply call_Success_inv in Hquery.
        eexists [_; _]. split; [| split; [discriminate |]].
        * rewrite Hquery. unfold noted. cbn [trace]. rewrite <- List.app_assoc. reflexivity.
        * intros _. right. left. reflexivity.
      + intros Hcheck. injection Hcheck as <-. exists []. split; [| split].
        * rewrite List.app_nil_r. reflexivity.
        * reflexivity.
        * discriminate.
    - intros Hcheck. injection Hcheck as <-. exists []. split; [| split].
      + rewrite List.app_nil_r. reflexivity.
      + reflexivity.
      + discriminate. }
  destruct Hchecked as (new2 & Htrace2 & Hnone & Hsome).
  eexists. exists w1, user.
  exists (LogInfo "Updating user"
            (Some [("userId", VString id); ("fields", VArray (keys input))])
          :: new1 ++ new2
          ++ DbExecute "UPDATE users SET email = ?, name = ? WHERE id = ?"
               [VString (nullish (UpdateUserInput.email input) (User.email user));
                VString (nullish (UpdateUserInput.name input) (User.name user));
                VString id]
          :: after)%list.
  split; [exact Hfind |]. split; [| split; [| split]].
  - rewrite Hafter, Hexecute, Htrace2, Htrace1. unfold noted. cbn [trace User.email User.name].
    rewrite <- !List.app_assoc. cbn [app]. rewrite <- ?List.app_assoc. reflexivity.
  - intros Hno. rewrite (Hnone Hno). cbn [app].
    constructor; [reflexivity |]. apply List.Forall_app. split; [exact Hnew1 |].
    constructor; [reflexivity | exact Hquiet].
  - intros Hyes. right. apply List.in_or_app. right. apply List.in_or_app. left.
    exact (Hsome Hyes).
  - intros Hempty. unfold checksEmail. rewrite Hempty. split; reflexivity.
Qed.

(** Setting the email of [id1] to the empty string succeeds without a
    query by email. *)
Lemma updateUser_empty_email_example :
  let input := {| UpdateUserInput.email := Some ""; UpdateUserInput.name := None;
                  UpdateUserInput.ownKeys := ["email"] |} in
  let updated := {| User.id := "id1"; User.email := ""; User.name := "Ada";
                    User.createdAt := 0 |} in
  snd (updateUser "id1" input Sim.withTable Sim.start) = Success updated
  /\ exists wl w1 user new,
      findUserById "id1" Sim.withTable wl = (w1, Success user)
      /\ trace (fst (updateUser "id1" input Sim.withTable Sim.start))
         = (trace Sim.start ++ new)%list
      /\ (checksEmail input user = false ->
          Forall (fun ev => isEmailQuery ev = false) new)
      /\ (checksEmail input user = true ->
          In (DbQuery "SELECT * FROM users WHERE email = ?" [VString (User.email updated)])
             new)
      /\ (UpdateUserInput.email input = Some "" ->
          checksEmail input user = false /\ User.email updated = "").
Proof.
  intros input updated. split; [vm_compute; reflexivity |].
  apply (updateUser_checks_email_only_when_changed Sim.State Sim.platform "id1" input
           Sim.withTable Sim.start
           (fst (updateUser "id1" input Sim.withTable Sim.start)) updated).
  vm_compute. reflexivity.
Defined.

(** ** Duplicate emails *)

Section Duplicates.
Context {S : Type} {platform : Platform S}.
Variables (ctx : gmap string (Service S)).
Variables (logger : Logger.Service S) (db : Database.Service S).
Hypothesis Hlogger : Context.get ctx Logger = Some logger.
Hypothesis Hdb : Context.get ctx Database = Some db.

Lemma findUserByEmail_run (email : string) (w : World S) :
  findUserByEmail email ctx w =
    (noted (DbQuery "SELECT * FROM users WHERE email = ?" [VString email])
       (fst (Database.query db "SELECT * FROM users WHERE email = ?" [VString email]
               (fst (Logger.debug logger "Finding user by email"
                       (Some [("email", VString email)]) (store w)))))
       (noted (LogDebug "Finding user by email" (Some [("email", VString email)]))
          (fst (Logger.debug logger "Finding user by email"
                  (Some [("email", VString email)]) (store w))) w),
     match snd (Database.query db "SELECT * FROM users WHERE email = ?" [VString email]
                  (fst (Logger.debug logger "Finding user by email"
                          (Some [("email", VString email)]) (store w)))) with
     | inl d => Failure (IsDatabaseError d)
     | inr rows => Success (List.head rows)
     end).
Proof.
  unfold findUserByEmail. do 3 run_step. unfold db_query, Effect.flatMap.
  rewrite call_run. cbn [store noted].
  destruct (snd (Database.query db _ _ _)) as [d | [| first rest]]; reflexivity.
Qed.
End Duplicates.

(** X18. With a logger and a database provided, [createUser] fails
    with the [ValidationError] "Email already in use" exactly when the
    query by email, asked after the two log lines, returns at least one
    row. *)
Theorem createUser_refuses_exactly_known_emails :
  forall S (P : Platform S) ctx logger db (input : CreateUserInput.t) (w : World S),
    Context.get ctx Logger = Some logger ->
    Context.get ctx Database = Some db ->
    let email := CreateUserInput.email input in
    let s1 := fst (Logger.info logger "Creating new user"
                     (Some [("email", VString email)]) (store w)) in
    let s2 := fst (Logger.debug logger "Finding user by email"
                     (Some [("email", VString email)]) s1) in
    snd (createUser input ctx w) = Failure emailInUse
    <-> exists found rest,
        snd (Database.query db "SELECT * FROM users WHERE email = ?" [VString email] s2)
        = inr (found :: rest).
Proof.
  intros S P ctx logger db input w Hlogger Hdb email s1 s2.
  unfold createUser. do 3 run_step.
  unfold Effect.flatMap at 1.
  rewrite (findUserByEmail_run ctx logger db Hlogger Hdb). cbn [store noted].
  fold email. fold s1. fold s2.
  destruct (snd (Database.query db "SELECT * FROM users WHERE email = ?" [VString email] s2))
    as [d | [| found rest]]; cbn [List.head snd].
  - split; [discriminate | intros (found & rest & Hrows); discriminate].
  - split; [| intros (found & rest & Hrows); discriminate].
    match goal with
    | |- snd (?rest ctx ?w0) = _ -> _ =>
        assert (Hrest : failsOnly (fun e => _tag e = "DatabaseError") rest)
    end.
    { apply failsOnly_flatMap; [apply failsOnly_sync | intros uuid].
      apply failsOnly_flatMap; [apply failsOnly_sync | intros now].
      apply failsOnly_flatMap; [| intros _; apply failsOnly_succeed].
      apply failsOnly_call. reflexivity. }
    match goal with
    | |- snd (?rest ctx ?w0) = _ -> _ => destruct (rest ctx w0) as [w' exit] eqn:Hrun
    end.
    cbn [snd]. intros ->. apply Hrest in Hrun. discriminate Hrun.
  - split; [| reflexivity]. intros _. exists found, rest. reflexivity.
Qed.

(** The table has a row for the address of [id1]: creating a user with
    it is refused. *)
Lemma createUser_known_email_example :
  let input := {| CreateUserInput.email := "ada@example.com"; CreateUserInput.name := "Eve" |} in
  snd (createUser input Sim.withTable Sim.start) = Failure emailInUse
  /\ (snd (createUser input Sim.withTable Sim.start) = Failure emailInUse
      <-> exists found rest,
          snd (Database.query Sim.tableDb "SELECT * FROM users WHERE email = ?"
                 [VString "ada@example.com"] (store Sim.start))
          = inr (found :: rest)).
Proof.
  intros input. split; [vm_compute; reflexivity |].
  exact (createUser_refuses_exactly_known_emails Sim.State Sim.platform Sim.withTable
           Sim.silent Sim.tableDb input Sim.start eq_refl eq_refl).
Defined.

(** ** Batches, one lookup per id *)

Section BatchLookups.
Context {S : Type} {platform : Platform S}.
Variable ctx : gmap string (Service S).
Hypothesis Hall : allFound ctx.

Lemma getUserProfile_lookups (userId : string) (w : World S) :
  lookups (trace (fst (getUserProfile userId ctx w))) = (lookups (trace w) + 1)%nat.
Proof.
  rewrite <- (findUserById_lookups userId ctx w Hall).
  unfold getUserProfile, Effect.flatMap.
  destruct (findUserById userId ctx w) as [w1 [user | e | d]]; try reflexivity.
  unfold Effect.sync. destruct (date_now (store w1)) as [s' now]. reflexivity.
Qed.

Lemma partition_lookups (userIds : list string) (w : World S) :
  lookups (trace (fst (Effect.partition (E2 := Empty_set) userIds
                         (fun userId =>
                            Effect.map
                              (fun profile => {| Successful.userId := userId;
                                                 Successful.profile := profile |})
                              (getUserProfile userId)) ctx w)))
  = (lookups (trace w) + length userIds)%nat.
Proof.
  revert w. induction userIds as [| x rest IH]; intros w; cbn [Effect.partition length].
  - cbn [fst]. lia.
  - pose proof (getUserProfile_lookups x w) as Hone.
    pose proof (getUserProfile_safe ctx x Hall w) as Hsafe.
    unfold Effect.map at 1.
    destruct (getUserProfile x ctx w) as [w1 [profile | e | d]].
    + specialize (IH w1). cbn [fst] in Hone.
      match goal with
      | |- context [Effect.partition rest ?f ctx w1] =>
          destruct (Effect.partition (E2 := Empty_set) rest f ctx w1)
            as [w2 [[es os] | [] | d2]]
      end; cbn [fst] in *; lia.
    + specialize (IH w1). cbn [fst] in Hone.
      match goal with
      | |- context [Effect.partition rest ?f ctx w1] =>
          destruct (Effect.partition (E2 := Empty_set) rest f ctx w1)
            as [w2 [[es os] | [] | d2]]
      end; cbn [fst] in *; lia.
    + destruct (Hsafe w1 d). reflexivity.
Qed.

Lemma partition_in_order (userIds : list string) (w w' : World S) (es : list UserError)
    (os : list Successful.t) :
  Effect.partition (E2 := Empty_set) userIds
    (fun userId =>
       Effect.map (fun profile => {| Successful.userId := userId;
                                     Successful.profile := profile |})
                  (getUserProfile userId)) ctx w = (w', Success (es, os)) ->
  sublist (List.map Successful.userId os) userIds.
Proof.
  revert w w' es os.
  induction userIds as [| x rest IH]; intros w w' es os; cbn [Effect.partition].
  - intros Hrun. injection Hrun as _ _ <-. constructor.
  - unfold Effect.map at 1.
    destruct (getUserProfile x ctx w) as [w1 [profile | e | d]]; try discriminate;
      match goal with
      | |- context [Effect.partition rest ?f ctx w1] =>
          destruct (Effect.partition (E2 := Empty_set) rest f ctx w1)
            as [w2 [[es' os'] | e2 | d2]] eqn:Hrest
      end;
      try discriminate; intros Hrun; injection Hrun as _ <- <-;
      specialize (IH w1 w2 es' os' Hrest).
    + cbn [List.map Successful.userId]. apply sublist_skip. exact IH.
    + apply sublist_cons. exact IH.
Qed.

Lemma partition_inTurn (userIds : list string) (w w' : World S) (es : list UserError)
    (os : list Successful.t) :
  Effect.partition (E2 := Empty_set) userIds
    (fun userId =>
       Effect.map (fun profile => {| Successful.userId := userId;
                                     Successful.profile := profile |})
                  (getUserProfile userId)) ctx w = (w', Success (es, os)) ->
  inTurn ctx userIds w os (List.map _tag es) w'.
Proof.
  revert w w' es os.
  induction userIds as [| x rest IH]; intros w w' es os; cbn [Effect.partition].
  - intros Hrun. injection Hrun as <- <- <-. constructor.
  - unfold Effect.map at 1.
    destruct (getUserProfile x ctx w) as [w1 [profile | e | d]] eqn:Hone; try discriminate;
      match goal with
      | |- context [Effect.partition rest ?f ctx w1] =>
          destruct (Effect.partition (E2 := Empty_set) rest f ctx w1)
            as [w2 [[es' os'] | e2 | d2]] eqn:Hrest
      end;
      try discriminate; intros Hrun; injection Hrun as <- <- <-;
      specialize (IH w1 w2 es' os' Hrest).
    + eapply inTurn_success; eassumption.
    + cbn [List.map]. eapply inTurn_failure; eassumption.
Qed.
End BatchLookups.

(** X19. With the three services provided [processUserBatch] always
    succeeds, whatever fails inside. It runs [getUserProfile] once for
    every id of the input, in the order of the input and each from the
    world the run before left; every success is returned with its own
    id and the profile that run found, every failure as the tag of its
    error, both in the order of the input. So the trace shows as many
    lookups more as there are ids, there are as many entries as ids,
    and the ids of the successful entries are a subsequence of the
    input. On the empty list it returns the empty result and leaves the
    world alone, with or without services. *)
Theorem processUserBatch_looks_every_id_up_once :
  forall S (P : Platform S) ctx (w : World S),
    processUserBatch [] ctx w
    = (w, Success {| BatchResult.successful := []; BatchResult.failed := [] |})
    /\ (allFound ctx ->
        forall userIds, exists w' result,
          processUserBatch userIds ctx w = (w', Success result)
          /\ inTurn ctx userIds w (BatchResult.successful result)
               (List.map Failed.error (BatchResult.failed result)) w'
          /\ lookups (trace w') = (lookups (trace w) + length userIds)%nat
          /\ (length (BatchResult.successful result) + length (BatchResult.failed result)
              = length userIds)%nat
          /\ sublist (List.map Successful.userId (BatchResult.successful result)) userIds).
Proof.
  intros S P ctx w. split; [reflexivity |]. intros Hall userIds.
  pose proof (partition_lookups ctx Hall userIds w) as Hcount.
  destruct (processUserBatch userIds ctx w) as [w' [result | [] | d]] eqn:Hrun.
  - exists w', result. split; [reflexivity |].
    pose proof (processUserBatch_result userIds ctx w w' result Hrun) as (Hlen & _ & _).
    unfold processUserBatch, Effect.map at 1 in Hrun.
    match type of Hrun with
    | context [Effect.partition userIds ?f ctx w] =>
        destruct (Effect.partition (E2 := Empty_set) userIds f ctx w)
          as [w1 [[es os] | [] | d1]] eqn:Hpartition
    end; [| discriminate Hrun].
    injection Hrun as <- <-. cbn [fst] in Hcount.
    cbn [BatchResult.successful BatchResult.failed].
    split; [| split; [exact Hcount |]; split; [exact Hlen |];
              exact (partition_in_order ctx userIds w w1 es os Hpartition)].
    rewrite List.map_map. cbn [Failed.error].
    exact (partition_inTurn ctx userIds w w1 es os Hpartition).
  - destruct (processUserBatch_safe ctx userIds Hall _ _ _ Hrun).
Qed.

(** Three ids against the table: three lookups in turn, two successes
    in the order of the input, one failure. *)
Lemma processUserBatch_three_ids_example :
  allFound Sim.withTable
  /\ exists w' result,
      processUserBatch ["id1"; "id2"; "id3"] Sim.withTable Sim.start = (w', Success result)
      /\ inTurn Sim.withTable ["id1"; "id2"; "id3"] Sim.start (BatchResult.successful result)
           (List.map Failed.error (BatchResult.failed result)) w'
      /\ lookups (trace w') = (lookups (trace Sim.start) + 3)%nat
      /\ (length (BatchResult.successful result) + length (BatchResult.failed result) = 3)%nat
      /\ sublist (List.map Successful.userId (BatchResult.successful result))
           ["id1"; "id2"; "id3"].
Proof.
  assert (Hall : allFound Sim.withTable) by (repeat split; eexists; reflexivity).
  split; [exact Hall |].
  exact (proj2 (processUserBatch_looks_every_id_up_once Sim.State Sim.platform
                  Sim.withTable Sim.start) Hall ["id1"; "id2"; "id3"]).
Defined.

(** ** Retrying until the first exit that is no failure *)

Section Attempts.
Context {S : Type} {platform : Platform S}.

Lemma retry_backoff_attempts {E A} (self : Effect.Effect S E A)
    (ctx : gmap string (Service S)) (w : World S) (fuel : nat) :
  (3 <= fuel)%nat ->
  Effect.retry fuel
    (Schedule.compose (Schedule.exponential (Duration.millis 100)) (Schedule.recurs 3))
    self ctx w
  = Some (attempts [100; 200; 400]%Z self ctx w).
Proof.
  intros Hfuel. destruct fuel as [| [| [| fuel]]]; try lia.
  pose (policy := Schedule.compose (In := E) (Schedule.exponential (Duration.millis 100))
                    (Schedule.recurs 3)).
  assert (Hdie : forall n st w0 w' d, self ctx w0 = (w', Die d) ->
                   Effect.retry_from n policy st self ctx w0 = Some (w', Die d))
    by (intros n st w0 w' d H; destruct n; cbn [Effect.retry_from]; rewrite H; reflexivity).
  unfold Effect.retry. fold policy. cbn [attempts].
  destruct (self ctx w) as [w1 [a | e1 | d]] eqn:H1;
    [exact (retry_from_success policy _ _ _ _ _ _ _ H1) | | exact (Hdie _ _ _ _ _ H1)].
  rewrite (retry_from_continue policy (0, 0)%nat (1, 1)%nat 0%nat 100 self _ ctx w w1 e1
             H1 eq_refl).
  destruct (self ctx (Effect.sleep 100 w1)) as [w2 [a | e2 | d]] eqn:H2;
    [exact (retry_from_success policy _ _ _ _ _ _ _ H2) | | exact (Hdie _ _ _ _ _ H2)].
  rewrite (retry_from_continue policy (1, 1)%nat (2, 2)%nat 1%nat 200 self _ ctx _ w2 e2
             H2 eq_refl).
  destruct (self ctx (Effect.sleep 200 w2)) as [w3 [a | e3 | d]] eqn:H3;
    [exact (retry_from_success policy _ _ _ _ _ _ _ H3) | | exact (Hdie _ _ _ _ _ H3)].
  rewrite (retry_from_continue policy (2, 2)%nat (3, 3)%nat 2%nat 400 self _ ctx _ w3 e3
             H3 eq_refl).
  destruct (self ctx (Effect.sleep 400 w3)) as [w4 [a | e4 | d]] eqn:H4;
    [exact (retry_from_success policy _ _ _ _ _ _ _ H4) | | exact (Hdie _ _ _ _ _ H4)].
  exact (retry_from_done policy (3, 3)%nat (4, 4)%nat 3%nat self fuel ctx _ w4 e4 H4 eq_refl).
Qed.

Lemma attempts_lookups (ctx : gmap string (Service S)) (userId : string) :
  allFound ctx ->
  forall (delays : list Z) (w : World S),
    (lookups (trace w) + 1
     <= lookups (trace (fst (attempts delays (getUserProfile userId) ctx w)))
     <= lookups (trace w) + 1 + length delays)%nat
    /\ (forall e, snd (attempts delays (getUserProfile userId) ctx w) = Failure e ->
        lookups (trace (fst (attempts delays (getUserProfile userId) ctx w)))
        = (lookups (trace w) + 1 + length delays)%nat).
Proof.
  intros Hall delays. induction delays as [| delay rest IH]; intros w; cbn [attempts length];
    pose proof (getUserProfile_lookups ctx Hall userId w) as Hone;
    destruct (getUserProfile userId ctx w) as [w1 [profile | e1 | d]]; cbn [fst snd] in *;
    try (split; [lia | intros e He; first [discriminate He | lia]]).
  destruct (IH (Effect.sleep delay w1)) as [Hbound Hfail].
  rewrite lookups_sleep in Hbound, Hfail. split; [lia |].
  intros e He. rewrite (Hfail e He). lia.
Qed.
End Attempts.

(** X20. [processWithRetry] runs [getUserProfile] and, as long as it
    fails, runs it again after 100, 200 and 400 ms; the first exit that
    is no failure, or else the fourth failure, is its exit (three units
    of fuel suffice). So a lookup that succeeds at once is returned
    without a pause; and with the three services provided the trace
    gains at least one lookup and at most four, and four when
    [processWithRetry] fails. *)
Theorem processWithRetry_stops_at_first_success :
  forall S (P : Platform S) (userId : string) ctx (w : World S) fuel,
    (3 <= fuel)%nat ->
    processWithRetry fuel userId ctx w
    = Some (attempts [100; 200; 400]%Z (getUserProfile userId) ctx w)
    /\ (forall w' profile,
           getUserProfile userId ctx w = (w', Success profile) ->
           processWithRetry fuel userId ctx w = Some (w', Success profile))
    /\ (allFound ctx ->
        exists w' exit,
          processWithRetry fuel userId ctx w = Some (w', exit)
          /\ (lookups (trace w) + 1 <= lookups (trace w') <= lookups (trace w) + 4)%nat
          /\ (forall e, exit = Failure e ->
                        lookups (trace w') = (lookups (trace w) + 4)%nat)).
Proof.
  intros S P userId ctx w fuel Hfuel.
  assert (Hrun : processWithRetry fuel userId ctx w
                 = Some (attempts [100; 200; 400]%Z (getUserProfile userId) ctx w))
    by (apply retry_backoff_attempts; exact Hfuel).
  split; [exact Hrun |]. split.
  - intros w' profile Hfirst. rewrite Hrun. cbn [attempts]. rewrite Hfirst. reflexivity.
  - intros Hall.
    destruct (attempts_lookups ctx userId Hall [100; 200; 400]%Z w) as [Hbound Hfail].
    destruct (attempts [100; 200; 400]%Z (getUserProfile userId) ctx w) as [w' exit].
    exists w', exit. split; [exact Hrun |]. cbn [fst snd length] in *.
    split; [lia |]. intros e ->. rewrite (Hfail e eq_refl). lia.
Qed.

(** A lookup that succeeds at once under [processWithRetry]: one
    lookup, no pause. *)
Lemma processWithRetry_found_example :
  allFound Sim.withTable
  /\ processWithRetry 3 "id1" Sim.withTable Sim.start
     = Some (getUserProfile "id1" Sim.withTable Sim.start)
  /\ exists w' exit,
      processWithRetry 3 "id1" Sim.withTable Sim.start = Some (w', exit)
      /\ (lookups (trace Sim.start) + 1 <= lookups (trace w')
          <= lookups (trace Sim.start) + 4)%nat
      /\ (forall e, exit = Failure e ->
                    lookups (trace w') = (lookups (trace Sim.start) + 4)%nat).
Proof.
  assert (Hall : allFound Sim.withTable) by (repeat split; eexists; reflexivity).
  split; [exact Hall |]. split; [vm_compute; reflexivity |].
  apply (proj2 (proj2 (processWithRetry_stops_at_first_success Sim.State Sim.platform "id1"
                         Sim.withTable Sim.start 3%nat ltac:(lia))) Hall).
Defined.

(** ** The example program *)

Section Example.
Context {S : Type} {platform : Platform S}.
Variable ctx : gmap string (Service S).
Hypothesis Hall : allFound ctx.

(** What follows the registration: the profile of [user], or the
    fallback when the lookup fails, and the last line of output. *)
Lemma exampleProgram_profile (user : User.t) (w : World S) :
  exists w3 profile,
    (getUserProfile (User.id user) ctx w = (w3, Success profile)
     \/ exists e, getUserProfile (User.id user) ctx w = (w3, Failure e)
                  /\ profile = fallbackProfile user)
    /\ (let* profile :=
          Effect.catchAll
            (fun _ : UserError => Effect.succeed (fallbackProfile user))
            (getUserProfile (User.id user)) in
        yield* Console_log
                 [UValue (VString ("Profile - Account age: "
                                   ++ numberToString (UserProfile.accountAge profile)
                                   ++ " days"))] ;;
        Effect.succeed (E := UserError) profile) ctx w
       = (said ("Profile - Account age: "
                ++ numberToString (UserProfile.accountAge profile) ++ " days") w3,
          Success profile).
Proof.
  destruct (getUserProfile (User.id user) ctx w) as [w3 [profile | e | d]] eqn:Hprofile.
  - exists w3, profile. split; [left; reflexivity |].
    erewrite flatMap_success; [| unfold Effect.catchAll; rewrite Hprofile; reflexivity].
    reflexivity.
  - exists w3, (fallbackProfile user). split; [right; exists e; split; reflexivity |].
    erewrite flatMap_success; [| unfold Effect.catchAll; rewrite Hprofile; reflexivity].
    reflexivity.
  - exfalso. exact (getUserProfile_safe ctx (User.id user) Hall w w3 d Hprofile).
Qed.
End Example.

(** X21. With the three services provided, [exampleProgram] ends in one
    of two ways, and never in a defect. When the registration of John
    Doe, run after the first line of output, fails with a
    [DatabaseError], that failure in that world is the exit of the
    program. Otherwise the program succeeds. Its user is the registered
    one or, when the registration failed with a [ValidationError], the
    user "fallback" with the empty email, the error's message as name
    and the clock read then. After the line "Created user: <name>" it
    looks the profile of that user's id up once: the profile returned
    is the one found or, exactly when that lookup failed, the fallback
    with account age 0; the world is the one the lookup left, after the
    line "Profile - Account age: <n> days". *)
Theorem exampleProgram_fails_only_with_registration_DatabaseError :
  forall S (P : Platform S) ctx (w : World S),
    allFound ctx ->
    (exists w' d,
        registerUser johnDoe ctx (said "Starting user operations..." w)
        = (w', Failure (IsDatabaseError d))
        /\ exampleProgram ctx w = (w', Failure (IsDatabaseError d)))
    \/ (exists w1 user w3 profile,
           (registerUser johnDoe ctx (said "Starting user operations..." w)
            = (w1, Success user)
            \/ exists w0 v,
                registerUser johnDoe ctx (said "Starting user operations..." w)
                = (w0, Failure (IsValidationError v))
                /\ w1 = {| trace := trace w0; store := fst (date_now (store w0)) |}
                /\ user = fallbackUser v (snd (date_now (store w0))))
           /\ (getUserProfile (User.id user) ctx (said ("Created user: " ++ User.name user) w1)
               = (w3, Success profile)
               \/ exists e,
                   getUserProfile (User.id user) ctx
                     (said ("Created user: " ++ User.name user) w1)
                   = (w3, Failure e)
                   /\ profile = fallbackProfile user)
           /\ exampleProgram ctx w
              = (said ("Profile - Account age: "
                       ++ numberToString (UserProfile.accountAge profile) ++ " days") w3,
                 Success profile)).
Proof.
  intros S P ctx w Hall.
  assert (Hstart : forall rest : unit -> Effect.Effect S UserError UserProfile.t,
             Effect.flatMap
               (Console_log [UValue (VString "Starting user operations...")]) rest ctx w
             = rest tt ctx (said "Starting user operations..." w)) by reflexivity.
  unfold exampleProgram. rewrite Hstart. clear Hstart.
  destruct (registerUser johnDoe ctx (said "Starting user operations..." w))
    as [w1 [user | e | d]] eqn:Hregister.
  - right.
    erewrite flatMap_success; [| apply catchTag_success; exact Hregister].
    erewrite flatMap_success; [| reflexivity].
    destruct (exampleProgram_profile ctx Hall user
                (said ("Created user: " ++ User.name user) w1))
      as (w3 & profile & Hprofile & Hrun).
    exists w1, user, w3, profile.
    split; [left; reflexivity |]. split; [exact Hprofile | exact Hrun].
  - destruct (registerUser_failsOnly johnDoe ctx _ _ _ Hregister) as [[v ->] | [d ->]].
    + right.
      destruct (date_now (store w1)) as [s2 now] eqn:Hnow.
      erewrite flatMap_success with (a := fallbackUser v now)
                                    (w1 := {| trace := trace w1; store := s2 |}).
      2:{ erewrite catchTag_caught; [| exact Hregister | reflexivity].
          unfold Effect.flatMap, Effect.sync. rewrite Hnow. reflexivity. }
      erewrite flatMap_success; [| reflexivity].
      destruct (exampleProgram_profile ctx Hall (fallbackUser v now)
                  (said ("Created user: " ++ User.name (fallbackUser v now))
                     {| trace := trace w1; store := s2 |}))
        as (w3 & profile & Hprofile & Hrun).
      exists {| trace := trace w1; store := s2 |}, (fallbackUser v now), w3, profile.
      split; [| split; [exact Hprofile | exact Hrun]].
      right. exists w1, v. rewrite Hnow. repeat split; reflexivity.
    + left. exists w1, d. split; [reflexivity |].
      apply flatMap_failure. apply catchTag_passed; [exact Hregister | discriminate].
  - exfalso.
    exact (registerUser_safe ctx johnDoe (allFound_storeFound ctx Hall) _ _ _ Hregister).
Qed.

(** [exampleProgram] under the live mocks of a simulated platform: the
    services are provided, and the program registers John Doe, does not
    find the new id in the empty database and returns the fallback
    profile. *)
Lemma exampleProgram_live_example :
  let john := {| User.id := "u-1"; User.email := "john@example.com";
                 User.name := "John Doe"; User.createdAt := 864000000 |} in
  allFound (AppLayerLive (S := Sim.State))
  /\ snd (exampleProgram AppLayerLive Sim.start) = Success (fallbackProfile john)
  /\ snd (registerUser johnDoe AppLayerLive (said "Starting user operations..." Sim.start))
     = Success john
  /\ ((exists w' d,
         registerUser johnDoe AppLayerLive (said "Starting user operations..." Sim.start)
         = (w', Failure (IsDatabaseError d))
         /\ exampleProgram AppLayerLive Sim.start = (w', Failure (IsDatabaseError d)))
      \/ (exists w1 user w3 profile,
             (registerUser johnDoe AppLayerLive (said "Starting user operations..." Sim.start)
              = (w1, Success user)
              \/ exists w0 v,
                  registerUser johnDoe AppLayerLive
                    (said "Starting user operations..." Sim.start)
                  = (w0, Failure (IsValidationError v))
                  /\ w1 = {| trace := trace w0; store := fst (date_now (store w0)) |}
                  /\ user = fallbackUser v (snd (date_now (store w0))))
             /\ (getUserProfile (User.id user) AppLayerLive
                   (said ("Created user: " ++ User.name user) w1)
                 = (w3, Success profile)
                 \/ exists e,
                     getUserProfile (User.id user) AppLayerLive
                       (said ("Created user: " ++ User.name user) w1)
                     = (w3, Failure e)
                     /\ profile = fallbackProfile user)
             /\ exampleProgram AppLayerLive Sim.start
                = (said ("Profile - Account age: "
                         ++ numberToString (UserProfile.accountAge profile) ++ " days") w3,
                   Success profile))).
Proof.
  intros john.
  assert (Hall : allFound (AppLayerLive (S := Sim.State)))
    by (repeat split; eexists; reflexivity).
  split; [exact Hall |]. split; [vm_compute; reflexivity |].
  split; [vm_compute; reflexivity |].
  exact (exampleProgram_fails_only_with_registration_DatabaseError
           Sim.State Sim.platform AppLayerLive Sim.start Hall).
Defined.

(** ** The two runners over the mock layers *)

(** X22. What the mock layers make of the service, on every platform
    and in every world. The database of [AppLayerLive] has no rows:
    [runWithLive] rejects every lookup with the [UserNotFoundError] of
    its id and fulfils every registration that passes validation, with
    the email and name given. The database of [AppLayerTest] answers
    every query with the user "test": [runWithTest] fulfils a lookup of
    any id with that user and rejects every registration that passes
    validation with "Email already in use". *)
Theorem runners_on_the_mock_layers :
  forall S (P : Platform S) (w : World S),
    (forall id,
        snd (runWithLive (findUserById id) w)
        = RejectedWith (IsUserNotFoundError {| UserNotFoundError.userId := id |}))
    /\ (forall id, exists user,
           snd (runWithTest (findUserById id) w) = Fulfilled user
           /\ User.id user = "test" /\ User.email user = "test@test.com"
           /\ User.name user = "Test")
    /\ (forall input,
           emailRegex_test (CreateUserInput.email input) = true ->
           (2 <= String.length (CreateUserInput.name input))%nat ->
           (exists user,
               snd (runWithLive (registerUser input) w) = Fulfilled user
               /\ User.email user = CreateUserInput.email input
               /\ User.name user = CreateUserInput.name input)
           /\ snd (runWithTest (registerUser input) w) = RejectedWith emailInUse).
Proof.
  intros S P w. destruct P as [log err dbg now uuid], w as [tr st]. split; [| split].
  - intros id. vm_compute. reflexivity.
  - intros id. vm_compute. destruct (now st) as [s' t].
    eexists. split; [reflexivity |]. repeat split.
  - intros input Hemail Hname. apply Nat.leb_le in Hname.
    unfold runWithLive, runWithTest, runPromise, Effect.provide, registerUser,
      validateEmail, validateName.
    rewrite Hemail, Hname. destruct input as [email name]. split.
    + vm_compute. destruct (uuid _) as [s1 u]. destruct (now s1) as [s2 t].
      eexists. split; [reflexivity |]. split; reflexivity.
    + vm_compute. destruct (now _) as [s1 t]. reflexivity.
Qed.

(** A registration that passes validation, under both runners. *)
Lemma runners_registration_example :
  let input := {| CreateUserInput.email := "bo@example.com"; CreateUserInput.name := "Bo" |} in
  emailRegex_test (CreateUserInput.email input) = true
  /\ (2 <= String.length (CreateUserInput.name input))%nat
  /\ (exists user,
         snd (runWithLive (registerUser input) Sim.start) = Fulfilled user
         /\ User.email user = CreateUserInput.email input
         /\ User.name user = CreateUserInput.name input)
  /\ snd (runWithTest (registerUser input) Sim.start) = RejectedWith emailInUse.
Proof.
  intros input.
  assert (Hemail : emailRegex_test (CreateUserInput.email input) = true) by reflexivity.
  assert (Hname : (2 <= String.length (CreateUserInput.name input))%nat) by (cbn; lia).
  split; [exact Hemail |]. split; [exact Hname |].
  exact (proj2 (proj2 (runners_on_the_mock_layers Sim.State Sim.platform Sim.start))
           input Hemail Hname).
Defined.

(** ** Missing services

    The requirement of an effect is part of its TypeScript type only.
    At run time a service that the registry lacks shows when the effect
    asks for it. *)

Section Rejected.
Context {S : Type} {platform : Platform S}.
Implicit Types (ctx registry : gmap string (Service S)) (w : World S).

Lemma asked_in_vain {E T A} (tag : Context.Tag S T) (rest : T -> Effect.Effect S E A) ctx w :
  Context.get ctx tag = None ->
  Effect.flatMap (Effect.service tag) rest ctx w = (w, Die (ServiceNotFound (Context.key tag))).
Proof. intros Hnone. apply flatMap_die. apply service_missing. exact Hnone. Qed.

Lemma findUserById_rejected (id : string) ctx w :
  ~ allFound ctx ->
  exists k, lacks ctx k /\ findUserById id ctx w = (w, Die (ServiceNotFound k)).
Proof.
  intros Hmissing. unfold findUserById.
  destruct (Context.get ctx Logger) as [logger |] eqn:Hlogger.
  2:{ exists "Logger". split; [left; split; [reflexivity | exact Hlogger] |].
      apply (asked_in_vain Logger). exact Hlogger. }
  run_step.
  destruct (Context.get ctx Cache) as [cache |] eqn:Hcache.
  2:{ exists "Cache". split; [right; left; split; [reflexivity | exact Hcache] |].
      apply (asked_in_vain Cache). exact Hcache. }
  run_step.
  destruct (Context.get ctx Database) as [db |] eqn:Hdb.
  2:{ exists "Database". split; [right; right; split; [reflexivity | exact Hdb] |].
      apply (asked_in_vain Database). exact Hdb. }
  destruct Hmissing. unfold allFound. rewrite Hlogger, Hcache, Hdb.
  repeat split; eexists; reflexivity.
Qed.

Lemma getUserProfile_rejected (userId : string) ctx w :
  ~ allFound ctx ->
  exists k, lacks ctx k /\ getUserProfile userId ctx w = (w, Die (ServiceNotFound k)).
Proof.
  intros Hmissing. destruct (findUserById_rejected userId ctx w Hmissing) as (k & Hk & Hdie).
  exists k. split; [exact Hk |]. unfold getUserProfile. apply flatMap_die. exact Hdie.
Qed.

Lemma updateUser_rejected (id : string) (input : UpdateUserInput.t) ctx w :
  ~ allFound ctx ->
  exists k, lacks ctx k /\ updateUser id input ctx w = (w, Die (ServiceNotFound k)).
Proof.
  intros Hmissing. unfold updateUser.
  destruct (Context.get ctx Logger) as [logger |] eqn:Hlogger.
  2:{ exists "Logger". split; [left; split; [reflexivity | exact Hlogger] |].
      apply (asked_in_vain Logger). exact Hlogger. }
  run_step.
  destruct (Context.get ctx Database) as [db |] eqn:Hdb.
  2:{ exists "Database". split; [right; right; split; [reflexivity | exact Hdb] |].
      apply (asked_in_vain Database). exact Hdb. }
  run_step.
  destruct (Context.get ctx Cache) as [cache |] eqn:Hcache.
  2:{ exists "Cache". split; [right; left; split; [reflexivity | exact Hcache] |].
      apply (asked_in_vain Cache). exact Hcache. }
  destruct Hmissing. unfold allFound. rewrite Hlogger, Hcache, Hdb.
  repeat split; eexists; reflexivity.
Qed.

Lemma deleteUser_rejected (id : string) ctx w :
  ~ allFound ctx ->
  exists k, lacks ctx k /\ deleteUser id ctx w = (w, Die (ServiceNotFound k)).
Proof.
  intros Hmissing. unfold deleteUser.
  destruct (Context.get ctx Logger) as [logger |] eqn:Hlogger.
  2:{ exists "Logger". split; [left; split; [reflexivity | exact Hlogger] |].
      apply (asked_in_vain Logger). exact Hlogger. }
  run_step.
  destruct (Context.get ctx Database) as [db |] eqn:Hdb.
  2:{ exists "Database". split; [right; right; split; [reflexivity | exact Hdb] |].
      apply (asked_in_vain Database). exact Hdb. }
  run_step.
  destruct (Context.get ctx Cache) as [cache |] eqn:Hcache.
  2:{ exists "Cache". split; [right; left; split; [reflexivity | exact Hcache] |].
      apply (asked_in_vain Cache). exact Hcache. }
  destruct Hmissing. unfold allFound. rewrite Hlogger, Hcache, Hdb.
  repeat split; eexists; reflexivity.
Qed.

Lemma run_rejected {E A} (program : Effect.Effect S E A) registry w :
  (exists k, lacks registry k /\ program registry w = (w, Die (ServiceNotFound k))) ->
  exists k, lacks registry k
            /\ run program registry w = (w, RejectedDefect (ServiceNotFound k)).
Proof.
  intros (k & Hk & Hdie). exists k. split; [exact Hk |]. apply run_die. exact Hdie.
Qed.

Lemma AppLayerTest_allFound : allFound (Context.merge Context.empty (AppLayerTest (S := S))).
Proof.
  rewrite merge_empty.
  unfold allFound. repeat split; eexists; reflexivity.
Qed.
End Rejected.

(** X23. A registry that lacks one of the three services rejects the
    repository functions that ask for all three before they do
    anything else: [findUserById], [getUserProfile], [updateUser] and
    [deleteUser] end in the defect of a missing service, for a service
    the registry lacks, with the world untouched (no call was made, no
    line logged). [runWithLive] and [runWithTest] provide the three:
    under them no program ends in a defect that ends in none when the
    three services are found, as every repository function does. *)
Theorem missing_service_rejected_before_any_call :
  forall S (P : Platform S),
    (forall (registry : gmap string (Service S)) (w : World S),
        ~ allFound registry ->
        (forall id, exists k,
            lacks registry k
            /\ run (findUserById id) registry w = (w, RejectedDefect (ServiceNotFound k)))
        /\ (forall userId, exists k,
               lacks registry k
               /\ run (getUserProfile userId) registry w
                  = (w, RejectedDefect (ServiceNotFound k)))
        /\ (forall id input, exists k,
               lacks registry k
               /\ run (updateUser id input) registry w
                  = (w, RejectedDefect (ServiceNotFound k)))
        /\ (forall id, exists k,
               lacks registry k
               /\ run (deleteUser id) registry w = (w, RejectedDefect (ServiceNotFound k))))
    /\ (forall E A (program : Effect.Effect S E A),
           (forall ctx, allFound ctx -> safeIn ctx program) ->
           forall (w : World S) d,
             snd (runWithLive program w) <> RejectedDefect d
             /\ snd (runWithTest program w) <> RejectedDefect d).
Proof.
  intros S P. split.
  - intros registry w Hmissing. repeat split; intros; apply run_rejected.
    + apply findUserById_rejected. exact Hmissing.
    + apply getUserProfile_rejected. exact Hmissing.
    + apply updateUser_rejected. exact Hmissing.
    + apply deleteUser_rejected. exact Hmissing.
  - intros E A program Hsafe w d. split.
    + unfold runWithLive, runPromise, Effect.provide.
      pose proof (Hsafe _ AppLayerLive_allFound w) as Hlive.
      destruct (program (Context.merge Context.empty AppLayerLive) w) as [w' [a | e | d']]
        eqn:Hrun; cbn [snd]; try discriminate.
      destruct (Hlive w' d' eq_refl).
    + unfold runWithTest, runPromise, Effect.provide.
      pose proof (Hsafe _ AppLayerTest_allFound w) as Htest.
      destruct (program (Context.merge Context.empty AppLayerTest) w) as [w' [a | e | d']]
        eqn:Hrun; cbn [snd]; try discriminate.
      destruct (Htest w' d' eq_refl).
Qed.

(** Against a registry without a cache [findUserById] is rejected for
    the cache, before anything was called; under [runWithLive] it is
    not rejected. A program that asks for the cache late is rejected
    late: [exampleProgram] has inserted John Doe by then. *)
Lemma run_without_cache_example :
  ~ allFound Sim.withoutCache
  /\ run (findUserById "id1") Sim.withoutCache Sim.start
     = (Sim.start, RejectedDefect (ServiceNotFound "Cache"))
  /\ (exists k,
         lacks Sim.withoutCache k
         /\ run (findUserById "id1") Sim.withoutCache Sim.start
            = (Sim.start, RejectedDefect (ServiceNotFound k)))
  /\ (forall d, snd (runWithLive (findUserById "id1") Sim.start) <> RejectedDefect d)
  /\ snd (run exampleProgram Sim.withoutCache Sim.start)
     = RejectedDefect (ServiceNotFound "Cache")
  /\ In (DbExecute "INSERT INTO users (id, email, name, created_at) VALUES (?, ?, ?, ?)"
           [VString "u-1"; VString "john@example.com"; VString "John Doe";
            VDate 864000000])
        (trace (fst (run exampleProgram Sim.withoutCache Sim.start))).
Proof.
  assert (Hmissing : ~ allFound Sim.withoutCache).
  { intros (_ & [cache Hcache] & _). vm_compute in Hcache. discriminate Hcache. }
  pose proof (missing_service_rejected_before_any_call Sim.State Sim.platform)
    as [Hrejected Haccepted].
  split; [exact Hmissing |]. split; [vm_compute; reflexivity |].
  split; [exact (proj1 (Hrejected Sim.withoutCache Sim.start Hmissing) "id1") |].
  split.
  { intros d.
    exact (proj1 (Haccepted _ _ (findUserById "id1")
                    (fun ctx Hall => findUserById_safe ctx "id1" Hall) Sim.start d)). }
  split; [vm_compute; reflexivity |].
  vm_compute. right. right. right. left. reflexivity.
Defined.
